(** * Motion detection core of the browser security camera

    Shallow embedding of the frame-differencing detector found in
    [src/app.js] (class [MotionSecurityCamera]) and of the older variant in
    [src/intro.js] (class [SecurityCameraApp]), followed by the properties
    the specification states about them.

    JavaScript numbers are IEEE-754 binary64 values.  They are modelled with
    the reference implementation of the Standard Library ([SpecFloat],
    instantiated at precision 53 and maximal exponent 1024), so that every
    rounding the source performs is performed here as well.  Timestamps
    ([Date.now()], milliseconds) and millisecond durations are integers far
    below 2^53, on which binary64 arithmetic is exact; they are kept in [Z].
    A number of seconds that the source multiplies by 1000 is kept in a
    bounded type on which that product is exact as well. *)

From Stdlib Require Import ZArith List Bool Lia Sorted.
From Stdlib Require Import Strings.Byte.
From Stdlib Require Import Floats.SpecFloat.
Import ListNotations.
Open Scope Z_scope.

(** ** JavaScript numbers *)

Module Number.

Definition number := spec_float.

Definition prec : Z := 53.
Definition emax : Z := 1024.

(** An integer seen as a number (exact below 2^53, rounded above). *)
Definition of_Z (z : Z) : number := binary_normalize prec emax z 0 false.

Definition sub (x y : number) : number := SFsub prec emax x y.
Definition mul (x y : number) : number := SFmul prec emax x y.
Definition div (x y : number) : number := SFdiv prec emax x y.

(** [x > y] and [x < y] of JavaScript: false as soon as one side is NaN. *)
Definition gt (x y : number) : bool := SFltb y x.
Definition lt (x y : number) : bool := SFltb x y.

Definition NaN : number := S754_nan.
Definition zero : number := S754_zero false.
Definition three : number := of_Z 3.
Definition hundred : number := of_Z 100.

(** The literal [2.55]: the binary64 value 0x1.4666666666666p+1. *)
Definition lit_2_55 : number := S754_finite false 5742089524897382 (-51).

(** The literal [0.5]. *)
Definition lit_0_5 : number := S754_finite false 4503599627370496 (-53).

(** A well-formed binary64 value and a sign test that is false on NaN. *)
Definition valid (x : number) : bool := valid_binary prec emax x.

Definition has_sign (s : bool) (x : number) : bool :=
  match x with
  | S754_zero s' | S754_infinity s' | S754_finite s' _ _ => Bool.eqb s' s
  | S754_nan => false
  end.

(** Strictly positive, finite or not. *)
Definition positive_number (x : number) : bool :=
  match x with
  | S754_finite false _ _ | S754_infinity false => true
  | _ => false
  end.

End Number.

Arguments Number.of_Z : simpl never.
Arguments Number.sub : simpl never.
Arguments Number.mul : simpl never.
Arguments Number.div : simpl never.
Arguments Number.gt : simpl never.
Arguments Number.lt : simpl never.

Import Number.

(** ** Frames

    An [ImageData] is the pixel buffer returned by [getImageData]: its
    [data] array holds four bytes (red, green, blue, alpha) per pixel, and
    the source walks it with a stride of four.  The k-th [Pixel] of the list
    stands for [data[4k]], [data[4k+1]], [data[4k+2]], [data[4k+3]]. *)

Record Pixel : Type := mkPixel {
  red : byte;
  green : byte;
  blue : byte;
  alpha : byte
}.

Definition ImageData := list Pixel.

(** A byte of a [Uint8ClampedArray] read as an integer of [0, 255]. *)
Definition channel (b : byte) : Z := Z.of_N (Byte.to_N b).

(** [Math.abs(current.data[i] - last.data[i])] on one channel. *)
Definition absDiff (c l : byte) : Z := Z.abs (channel c - channel l).

Definition rDiff (c l : Pixel) : Z := absDiff (red c) (red l).
Definition gDiff (c l : Pixel) : Z := absDiff (green c) (green l).
Definition bDiff (c l : Pixel) : Z := absDiff (blue c) (blue l).

(** [rDiff + gDiff + bDiff], an integer of [0, 765]. *)
Definition sumDiff (c l : Pixel) : Z := rDiff c l + gDiff c l + bDiff c l.

(** The three writes that paint a pixel red; alpha is left alone. *)
Definition highlight (c : Pixel) : Pixel :=
  mkPixel Byte.xff Byte.x00 Byte.x00 (alpha c).

(** [(100 - this.sensitivity) * 2.55] *)
Definition pixelThreshold (sensitivity : number) : number :=
  mul (sub hundred sensitivity) lit_2_55.

Definition black : Pixel := mkPixel Byte.x00 Byte.x00 Byte.x00 Byte.xff.
Definition white : Pixel := mkPixel Byte.xff Byte.xff Byte.xff Byte.xff.
Definition pureRed : Pixel := mkPixel Byte.xff Byte.x00 Byte.x00 Byte.xff.

(** The 2x2 frames of the worked example of the specification. *)
Definition allBlack2x2 : ImageData := [black; black; black; black].
Definition oneRed2x2 : ImageData := [pureRed; black; black; black].

(** A test on every integer of [0, n], run by computation. *)
Definition all_upto (P : Z -> bool) (n : nat) : bool :=
  forallb P (map Z.of_nat (seq 0 (S n))).

(** The frame comparison stated without a loop: how many pixels a test
    [changed] selects, and the frame with those pixels painted. *)
Section Marking.

Variable changed : Pixel -> option Pixel -> bool.

Fixpoint countChanged (currentFrame last : ImageData) : Z :=
  match currentFrame with
  | [] => 0
  | c :: rest =>
      (if changed c (hd_error last) then 1 else 0)
      + countChanged rest (tl last)
  end.

Fixpoint paintChanged (currentFrame last : ImageData) : ImageData :=
  match currentFrame with
  | [] => []
  | c :: rest =>
      (if changed c (hd_error last) then highlight c else c)
      :: paintChanged rest (tl last)
  end.

End Marking.

(** [sublist l1 l2]: [l1] is [l2] with some entries left out, the others
    in the order they had. *)
Inductive sublist {A : Type} : list A -> list A -> Prop :=
| sublist_nil : sublist [] []
| sublist_skip (x : A) (l1 l2 : list A) :
    sublist l1 l2 -> sublist l1 (x :: l2)
| sublist_keep (x : A) (l1 l2 : list A) :
    sublist l1 l2 -> sublist (x :: l1) (x :: l2).

(** ** [MotionSecurityCamera] of [src/app.js] *)

Module App.

(** An entry of [this.alerts].  [id] is the [Date.now()] read when the
    object is built.  [motionLevel] is kept as the number handed to the
    handler, before [toFixed(1)] formats it.  The ISO [timestamp] of the
    entry is only displayed and is not kept. *)
Record Alert : Type := mkAlert {
  alert_id : Z;
  alert_motionLevel : number;
  alert_read : bool
}.

(** An entry of [this.captures]: [id] is [Date.now()], [timestamp] the
    clock read again on the next line ([new Date().toISOString()], kept as
    the millisecond value [new Date(timestamp)] gives back).  The image and
    its size are not kept. *)
Record Capture : Type := mkCapture {
  capture_id : Z;
  capture_timestamp : Z
}.

(** The fields of the object that detection, capture and configuration
    read or write.  Clock values and durations are integers (a cooldown or
    limit that [parseInt] failed to read, NaN, is outside the model).
    [motionCanvas] is the pixel content of the canvas the motion context
    draws on: [drawImage] and [putImageData] replace it, [getImageData]
    returns a copy of it (what is read back is what was put, as it is for
    the opaque pixels of a video frame). *)
Record State : Type := mkState {
  motionDetectionActive : bool;
  motionCanvas : ImageData;
  lastFrame : option ImageData;
  captures : list Capture;
  alerts : list Alert;
  sensitivity : number;
  lastCaptureTime : Z;
  cooldownPeriod : Z;
  sessionCaptures : Z;
  motionThreshold : number;
  maxStorageImages : Z
}.

(** How a [localStorage.setItem] ends. *)
Inductive SetResult : Type := Written | QuotaExceeded | OtherFailure.

(** The reading of a field that holds a whole number of seconds, of a size
    at which binary64 computes its product by 1000 exactly: at most
    9007199254740 in magnitude, so that the product stays within 2^53.  A
    reading beyond that, a fractional one, Infinity and NaN are outside
    the model. *)
Record Seconds : Type := mkSeconds {
  seconds : Z;
  seconds_exact : (Z.abs seconds <=? 9007199254740) = true
}.

(** What one callback finds in the browser.

    The clock is read several times in the course of one callback, and
    each read is a value of its own: [now] is the [Date.now()] at the top
    of [onMotionDetected], [captureId] and [captureTimestamp] are the two
    reads that stamp a new capture, [alertId] is the [Date.now()] that
    stamps a new alert, after the capture was taken.

    [video] is the frame the video element would draw ([None] when the
    element is missing or its [readyState] is not [HAVE_ENOUGH_DATA]).
    [hasMotionContext] tells whether the motion context was obtained,
    [captureReady] whether the capture canvas and context were obtained and
    the frame could be drawn and encoded (a throw of [drawImage] or
    [toDataURL] is caught at the end of [captureMotionImage] before
    anything was changed).  [retentionCutoff] is the millisecond value of
    [cutoffDate] when the auto-delete box is ticked.

    [setCaptures] is how [localStorage.setItem('captures', ...)] ends,
    given the list it is asked to store.  [stackDepth] is the number of
    nested calls of [saveCaptures] the call stack has room for; the call
    after that throws [RangeError]. *)
Record Env : Type := mkEnv {
  now : Z;
  video : option ImageData;
  hasMotionContext : bool;
  captureReady : bool;
  retentionCutoff : option Z;
  captureId : Z;
  captureTimestamp : Z;
  alertId : Z;
  setCaptures : list Capture -> SetResult;
  stackDepth : nat
}.

(** The page elements [toggleMotionDetection] looks up. *)
Record Dom : Type := mkDom {
  hasToggleButton : bool;     (* #toggleDetection *)
  hasDetectionStatus : bool;  (* #detectionStatus *)
  hasToggleText : bool        (* .toggle-text inside the button *)
}.

Definition set_motionDetectionActive (b : bool) (st : State) : State :=
  mkState b (motionCanvas st) (lastFrame st) (captures st) (alerts st)
    (sensitivity st) (lastCaptureTime st) (cooldownPeriod st)
    (sessionCaptures st) (motionThreshold st) (maxStorageImages st).

Definition set_motionCanvas (c : ImageData) (st : State) : State :=
  mkState (motionDetectionActive st) c (lastFrame st) (captures st)
    (alerts st) (sensitivity st) (lastCaptureTime st) (cooldownPeriod st)
    (sessionCaptures st) (motionThreshold st) (maxStorageImages st).

Definition set_lastFrame (f : option ImageData) (st : State) : State :=
  mkState (motionDetectionActive st) (motionCanvas st) f (captures st)
    (alerts st) (sensitivity st) (lastCaptureTime st) (cooldownPeriod st)
    (sessionCaptures st) (motionThreshold st) (maxStorageImages st).

Definition set_captures (c : list Capture) (st : State) : State :=
  mkState (motionDetectionActive st) (motionCanvas st) (lastFrame st) c
    (alerts st) (sensitivity st) (lastCaptureTime st) (cooldownPeriod st)
    (sessionCaptures st) (motionThreshold st) (maxStorageImages st).

Definition set_alerts (a : list Alert) (st : State) : State :=
  mkState (motionDetectionActive st) (motionCanvas st) (lastFrame st)
    (captures st) a (sensitivity st) (lastCaptureTime st)
    (cooldownPeriod st) (sessionCaptures st) (motionThreshold st)
    (maxStorageImages st).

Definition set_sensitivity (s : number) (st : State) : State :=
  mkState (motionDetectionActive st) (motionCanvas st) (lastFrame st)
    (captures st) (alerts st) s (lastCaptureTime st) (cooldownPeriod st)
    (sessionCaptures st) (motionThreshold st) (maxStorageImages st).

Definition set_lastCaptureTime (t : Z) (st : State) : State :=
  mkState (motionDetectionActive st) (motionCanvas st) (lastFrame st)
    (captures st) (alerts st) (sensitivity st) t (cooldownPeriod st)
    (sessionCaptures st) (motionThreshold st) (maxStorageImages st).

Definition set_cooldownPeriod (c : Z) (st : State) : State :=
  mkState (motionDetectionActive st) (motionCanvas st) (lastFrame st)
    (captures st) (alerts st) (sensitivity st) (lastCaptureTime st) c
    (sessionCaptures st) (motionThreshold st) (maxStorageImages st).

Definition set_sessionCaptures (n : Z) (st : State) : State :=
  mkState (motionDetectionActive st) (motionCanvas st) (lastFrame st)
    (captures st) (alerts st) (sensitivity st) (lastCaptureTime st)
    (cooldownPeriod st) n (motionThreshold st) (maxStorageImages st).

Definition set_motionThreshold (t : number) (st : State) : State :=
  mkState (motionDetectionActive st) (motionCanvas st) (lastFrame st)
    (captures st) (alerts st) (sensitivity st) (lastCaptureTime st)
    (cooldownPeriod st) (sessionCaptures st) t (maxStorageImages st).

Definition set_maxStorageImages (n : Z) (st : State) : State :=
  mkState (motionDetectionActive st) (motionCanvas st) (lastFrame st)
    (captures st) (alerts st) (sensitivity st) (lastCaptureTime st)
    (cooldownPeriod st) (sessionCaptures st) (motionThreshold st) n.

(** The state the constructor sets up; the canvas is empty until
    [setupMotionDetection] sizes it. *)
Definition initial : State :=
  mkState false [] None [] [] (of_Z 30) 0 5000 0 (of_Z 2) 100.

(** *** Frame comparison *)

(** [(rDiff + gDiff + bDiff) / 3]; reading past the end of the stored
    frame yields [undefined], and the arithmetic NaN. *)
Definition totalDiff (c : Pixel) (l : option Pixel) : number :=
  match l with
  | Some l => div (of_Z (sumDiff c l)) three
  | None => NaN
  end.

(** The [for] loop of [detectMotion]: walks the current frame against the
    stored one, bumps [changedPixels] and paints the changed pixels of the
    current frame red, in place.  Returns the counter and the frame as the
    loop leaves it. *)
Fixpoint compareLoop (threshold : number) (currentFrame last : ImageData)
    (changedPixels : Z) : Z * ImageData :=
  match currentFrame with
  | [] => (changedPixels, [])
  | c :: rest =>
      if gt (totalDiff c (hd_error last)) threshold
      then
        let (n, out) := compareLoop threshold rest (tl last) (changedPixels + 1)
        in (n, highlight c :: out)
      else
        let (n, out) := compareLoop threshold rest (tl last) changedPixels
        in (n, c :: out)
  end.

(** [(changedPixels / pixelCount) * 100] *)
Definition motionPercentage (changedPixels pixelCount : Z) : number :=
  mul (div (of_Z changedPixels) (of_Z pixelCount)) hundred.

(** *** Capture and alert *)

(** [manageStorage]: [splice] past the limit, then the retention filter on
    the timestamps. *)
Definition manageStorage (e : Env) (st : State) : State :=
  let len := Z.of_nat (length (captures st)) in
  let st1 :=
    if maxStorageImages st <? len
    then
      let start :=
        if maxStorageImages st <? 0
        then Z.max (len + maxStorageImages st) 0
        else maxStorageImages st in
      set_captures (firstn (Z.to_nat start) (captures st)) st
    else st in
  match retentionCutoff e with
  | Some cutoff =>
      set_captures
        (filter (fun c => cutoff <? capture_timestamp c) (captures st1)) st1
  | None => st1
  end.

(** How a call of [saveCaptures] ends: it returns, having written the text
    of a list or nothing, or the stack runs out under it. *)
Inductive Saved : Type :=
| Returned (st : State) (written : option (list Capture))
| StackExhausted (st : State).

(** [saveCaptures]: the first 10 captures are offered to the storage
    ([compressImageData] returns its argument).  A failure is caught; on
    [QuotaExceededError] the list in memory is cut to its first 5 and the
    function calls itself, from inside the [catch] block.  [fuel] is the
    number of nested calls the stack has room for: the [RangeError] of the
    call after that is thrown inside a [catch] block and leaves every
    pending call. *)
Fixpoint saveCaptures (fuel : nat) (setItem : list Capture -> SetResult)
    (st : State) : Saved :=
  match fuel with
  | O => StackExhausted st
  | S fuel' =>
      let toSave := firstn 10 (captures st) in
      match setItem toSave with
      | Written => Returned st (Some toSave)
      | QuotaExceeded =>
          saveCaptures fuel' setItem
            (set_captures (firstn 5 (captures st)) st)
      | OtherFailure => Returned st None
      end
  end.

(** The object as a call of [saveCaptures] leaves it. *)
Definition stateOf (r : Saved) : State :=
  match r with
  | Returned st _ => st
  | StackExhausted st => st
  end.

(** [captureMotionImage]: a new capture stamped with the clock, storage
    management, the save and the session counter.  When the save does not
    return, its [RangeError] is caught at the end of the function: the
    counter is not reached and the list stays as the save left it. *)
Definition captureMotionImage (e : Env) (st : State) : State :=
  if negb (captureReady e) then st
  else
    let capture := mkCapture (captureId e) (captureTimestamp e) in
    let st1 := set_captures (capture :: captures st) st in
    let st2 := manageStorage e st1 in
    match saveCaptures (stackDepth e) (setCaptures e) st2 with
    | Returned st3 _ => set_sessionCaptures (sessionCaptures st3 + 1) st3
    | StackExhausted st3 => st3
    end.

(** [onMotionDetected]: the cooldown is tested against, and
    [lastCaptureTime] set to, the clock read at the top; the alert is
    stamped with the clock read after the capture. *)
Definition onMotionDetected (e : Env) (motionLevel : number) (st : State)
    : State :=
  if now e - lastCaptureTime st <? cooldownPeriod st
  then st (* still in cooldown *)
  else
    let st1 := captureMotionImage e st in
    let alert := mkAlert (alertId e) motionLevel false in
    let st2 := set_alerts (alert :: alerts st1) st1 in
    set_lastCaptureTime (now e) st2.

(** *** One detection cycle *)

Definition detectMotion (e : Env) (st : State) : State :=
  match hasMotionContext e, video e with
  | true, Some frame =>
      (* drawImage, then getImageData *)
      let st0 := set_motionCanvas frame st in
      let currentFrame := motionCanvas st0 in
      let st3 :=
        match lastFrame st0 with
        | Some last =>
            let threshold := pixelThreshold (sensitivity st0) in
            let pixelCount := Z.of_nat (length currentFrame) in
            let (changedPixels, highlighted) :=
              compareLoop threshold currentFrame last 0 in
            (* putImageData *)
            let st1 := set_motionCanvas highlighted st0 in
            let pct := motionPercentage changedPixels pixelCount in
            if gt pct (motionThreshold st1)
            then onMotionDetected e pct st1
            else st1
        | None => st0
        end in
      (* getImageData again: the canvas as it now is *)
      set_lastFrame (Some (motionCanvas st3)) st3
  | _, _ => st
  end.

(** The callback of [setInterval]. *)
Definition tick (e : Env) (st : State) : State :=
  match motionDetectionActive st, video e with
  | true, Some _ => detectMotion e st
  | _, _ => st
  end.

Definition run (es : list Env) (st : State) : State :=
  fold_left (fun s e => tick e s) es st.

(** *** Controls

    [toggleMotionDetection] also raises and lifts the black screen; it is
    given with the black screen below. *)

Definition clearMotionArea (st : State) : State :=
  let st1 := set_lastFrame None st in
  set_motionCanvas
    (map (fun _ => mkPixel Byte.x00 Byte.x00 Byte.x00 Byte.x00)
         (motionCanvas st1)) st1.

(** The [input] listeners of the two sliders.  The value of the element is
    a string.  The sensitivity is kept here as the number the later
    arithmetic coerces it to; the capture delay is multiplied by 1000 at
    once, which coerces it as well. *)
Definition onSensitivityInput (value : number) (st : State) : State :=
  set_sensitivity value st.

Definition onCaptureDelayInput (value : Seconds) (st : State) : State :=
  set_cooldownPeriod (seconds value * 1000) st.

(** What [saveSettings] applies to the fields above, given what the parsers
    read: [threshold] is [parseFloat] of the threshold field,
    [cooldownSeconds] is [parseInt] of the cooldown field (the whole number
    its text starts with) and [maxImages] is [parseInt] of the image
    limit. *)
Definition saveSettings (threshold : number) (cooldownSeconds : Seconds)
    (maxImages : Z) (st : State) : State :=
  set_maxStorageImages maxImages
    (set_cooldownPeriod (seconds cooldownSeconds * 1000)
       (set_motionThreshold threshold st)).

(** [resetSettings], once the user has confirmed. *)
Definition resetSettings (st : State) : State :=
  set_sensitivity (of_Z 30)
    (set_maxStorageImages 100
       (set_cooldownPeriod 5000
          (set_motionThreshold (of_Z 2) st))).

(** *** Views of a cycle used in the statements *)

(** The test of the loop body: [totalDiff > threshold]. *)
Definition pixelChanged (threshold : number) (c : Pixel) (l : option Pixel)
    : bool :=
  gt (totalDiff c l) threshold.

(** The value of the local [motionPercentage] when [frame] is processed in
    state [st]; [None] when the comparison block is skipped. *)
Definition measuredMotion (st : State) (frame : ImageData) : option number :=
  match lastFrame st with
  | Some last =>
      Some (motionPercentage
              (fst (compareLoop (pixelThreshold (sensitivity st)) frame last 0))
              (Z.of_nat (length frame)))
  | None => None
  end.

(** The cycle reaches the call of [onMotionDetected]. *)
Definition qualifies (e : Env) (st : State) : bool :=
  match motionDetectionActive st, hasMotionContext e, video e with
  | true, true, Some frame =>
      match measuredMotion st frame with
      | Some pct => gt pct (motionThreshold st)
      | None => false
      end
  | _, _, _ => false
  end.

(** The changed-pixel count in the words of the specification, for two
    frames of equal size: the pixels whose
    [(|R1-R2| + |G1-G2| + |B1-B2|) / 3] exceeds
    [(100 - sensitivity) * 2.55]. *)
Definition exceeds (s : number) (cl : Pixel * Pixel) : bool :=
  let (c, l) := cl in
  gt (div (of_Z (Z.abs (channel (red c) - channel (red l))
                 + Z.abs (channel (green c) - channel (green l))
                 + Z.abs (channel (blue c) - channel (blue l)))) three)
     (mul (sub hundred s) lit_2_55).

Definition changedCount (s : number) (currentFrame last : ImageData) : Z :=
  Z.of_nat (length (filter (exceeds s) (combine currentFrame last))).

(** *** The same routine with the three recolouring writes removed *)

Fixpoint compareLoop_plain (threshold : number) (currentFrame last : ImageData)
    (changedPixels : Z) : Z * ImageData :=
  match currentFrame with
  | [] => (changedPixels, [])
  | c :: rest =>
      if gt (totalDiff c (hd_error last)) threshold
      then
        let (n, out) :=
          compareLoop_plain threshold rest (tl last) (changedPixels + 1)
        in (n, c :: out)
      else
        let (n, out) := compareLoop_plain threshold rest (tl last) changedPixels
        in (n, c :: out)
  end.

Definition detectMotion_plain (e : Env) (st : State) : State :=
  match hasMotionContext e, video e with
  | true, Some frame =>
      let st0 := set_motionCanvas frame st in
      let currentFrame := motionCanvas st0 in
      let st3 :=
        match lastFrame st0 with
        | Some last =>
            let threshold := pixelThreshold (sensitivity st0) in
            let pixelCount := Z.of_nat (length currentFrame) in
            let (changedPixels, unpainted) :=
              compareLoop_plain threshold currentFrame last 0 in
            let st1 := set_motionCanvas unpainted st0 in
            let pct := motionPercentage changedPixels pixelCount in
            if gt pct (motionThreshold st1)
            then onMotionDetected e pct st1
            else st1
        | None => st0
        end in
      set_lastFrame (Some (motionCanvas st3)) st3
  | _, _ => st
  end.

Definition measuredMotion_plain (st : State) (frame : ImageData)
    : option number :=
  match lastFrame st with
  | Some last =>
      Some (motionPercentage
              (fst (compareLoop_plain (pixelThreshold (sensitivity st))
                      frame last 0))
              (Z.of_nat (length frame)))
  | None => None
  end.

Definition tick_plain (e : Env) (st : State) : State :=
  match motionDetectionActive st, video e with
  | true, Some _ => detectMotion_plain e st
  | _, _ => st
  end.

Definition run_plain (es : list Env) (st : State) : State :=
  fold_left (fun s e => tick_plain e s) es st.

(** *** Runs of cycles *)

(** The clock read by successive callbacks does not go backwards. *)
Definition clockAdvances (es : list Env) : Prop :=
  StronglySorted Z.le (map now es).

(** The trigger times of a run: the clock [now] of every callback that
    added an alert, newest first. *)
Fixpoint triggerTimes (es : list Env) (st : State) : list Z :=
  match es with
  | [] => []
  | e :: rest =>
      triggerTimes rest (tick e st)
      ++ (if (length (alerts st) <? length (alerts (tick e st)))%nat
          then [now e] else [])
  end.

(** Times, newest first, any two of which are at least [c] apart. *)
Definition separatedBy (c : Z) (newestFirst : list Z) : Prop :=
  ForallOrdPairs (fun later earlier => c <= later - earlier) newestFirst.

(** *** Inputs used in the examples *)

(** A callback with [frame] ready and every element present, during which
    the clock stays at [t], the storage accepts what it is given and the
    stack has room. *)
Definition ready (t : Z) (frame : ImageData) : Env :=
  mkEnv t (Some frame) true true None t t t (fun _ => Written) 1000.

(** The same callback with a clock that moves on while it runs: the
    capture is stamped [t + 2] and [t + 3], the alert [t + 4]. *)
Definition readyTicking (t : Z) (frame : ImageData) : Env :=
  mkEnv t (Some frame) true true None (t + 2) (t + 3) (t + 4)
    (fun _ => Written) 1000.

(** A capture whose two stamps are the same clock value. *)
Definition captureAt (t : Z) : Capture := mkCapture t t.

(** The freshly constructed object after monitoring was switched on. *)
Definition monitoring : State := set_motionDetectionActive true initial.

(** Monitoring with [frame] as the stored frame and on the canvas. *)
Definition watching (frame : ImageData) : State :=
  set_lastFrame (Some frame) (set_motionCanvas frame monitoring).

Definition fullPage : Dom := mkDom true true true.
Definition pageWithoutStatus : Dom := mkDom true false true.
Definition pageWithoutToggleText : Dom := mkDom true true false.

End App.

(** ** [SecurityCameraApp] of [src/intro.js]

    The older variant: the per-pixel difference is the plain sum of the
    three channel differences, the trigger level is the constant 0.5, there
    is no cooldown, and the current frame object itself becomes the stored
    frame. *)

Module Intro.

Record State : Type := mkState {
  motionDetectionEnabled : bool;
  motionCanvas : ImageData;
  lastFrame : option ImageData;
  sensitivity : number;
  alerts : list Z  (* [id] of each alert, newest first *)
}.

Record Env : Type := mkEnv {
  now : Z;
  video : option ImageData;
  hasMotionContext : bool
}.

Definition initial : State := mkState false [] None (of_Z 50) [].

(** [rDiff + gDiff + bDiff] *)
Definition totalDiff (c : Pixel) (l : option Pixel) : number :=
  match l with
  | Some l => of_Z (sumDiff c l)
  | None => NaN
  end.

Fixpoint compareLoop (threshold : number) (currentFrame last : ImageData)
    (motionPixels : Z) : Z * ImageData :=
  match currentFrame with
  | [] => (motionPixels, [])
  | c :: rest =>
      if gt (totalDiff c (hd_error last)) threshold
      then
        let (n, out) := compareLoop threshold rest (tl last) (motionPixels + 1)
        in (n, highlight c :: out)
      else
        let (n, out) := compareLoop threshold rest (tl last) motionPixels
        in (n, c :: out)
  end.

(** [(motionPixels / (canvas.width * canvas.height)) * 100]; the frame read
    from the canvas has [canvas.width * canvas.height] pixels, so the
    product is passed as the pixel count of that frame. *)
Definition motionPercentage (motionPixels canvasArea : Z) : number :=
  mul (div (of_Z motionPixels) (of_Z canvasArea)) hundred.

Definition onMotionDetected (e : Env) (st : State) : State :=
  mkState (motionDetectionEnabled st) (motionCanvas st) (lastFrame st)
    (sensitivity st) (now e :: alerts st).

Definition detectMotion (e : Env) (st : State) : State :=
  match hasMotionContext e, video e with
  | true, Some frame =>
      match lastFrame st with
      | Some last =>
          let threshold := pixelThreshold (sensitivity st) in
          let (motionPixels, highlighted) :=
            compareLoop threshold frame last 0 in
          let pct :=
            motionPercentage motionPixels (Z.of_nat (length frame)) in
          let st1 :=
            mkState (motionDetectionEnabled st) highlighted (lastFrame st)
              (sensitivity st) (alerts st) in
          let st2 := if gt pct lit_0_5 then onMotionDetected e st1 else st1 in
          (* this.lastFrame = currentFrame, the object just painted *)
          mkState (motionDetectionEnabled st2) (motionCanvas st2)
            (Some highlighted) (sensitivity st2) (alerts st2)
      | None =>
          mkState (motionDetectionEnabled st) frame (Some frame)
            (sensitivity st) (alerts st)
      end
  | _, _ => st
  end.

Definition tick (e : Env) (st : State) : State :=
  match motionDetectionEnabled st, video e with
  | true, Some _ => detectMotion e st
  | _, _ => st
  end.

Definition pixelChanged (threshold : number) (c : Pixel) (l : option Pixel)
    : bool :=
  gt (totalDiff c l) threshold.

Definition measuredMotion (st : State) (frame : ImageData) : option number :=
  match lastFrame st with
  | Some last =>
      Some (motionPercentage
              (fst (compareLoop (pixelThreshold (sensitivity st)) frame last 0))
              (Z.of_nat (length frame)))
  | None => None
  end.

(** *** Inputs used in the examples *)

Definition ready (t : Z) (frame : ImageData) : Env :=
  mkEnv t (Some frame) true.

(** Detection switched on with [frame] as the stored frame. *)
Definition watching (s : number) (frame : ImageData) : State :=
  mkState true frame (Some frame) s [].

End Intro.

(** ** Alert and capture lists, badge and persistence of
    [MotionSecurityCamera]

    [localStorage] holds JSON text under three keys.  An entry is kept here
    as the value its text parses to: the arrays the page writes contain
    numbers, strings and booleans only, which [JSON.parse] gives back as
    [JSON.stringify] received them. *)

Module Panel.

Import App.

(** What [getItem] and [JSON.parse] make of a key: nothing stored, a value,
    or text that [JSON.parse] rejects. *)
Inductive Item (A : Type) : Type :=
| Absent : Item A
| Holds : A -> Item A
| Unparsable : Item A.

Arguments Absent {A}.
Arguments Holds {A} _.
Arguments Unparsable {A}.

(** The fields of the saved settings object that reach the state above.
    Each is stored as a string: [None] stands for a missing or empty one
    (falsy), [Some v] for a non-empty one that [parseFloat] or [parseInt]
    reads as [v]. *)
Record SavedSettings : Type := mkSavedSettings {
  saved_motionThreshold : option number;
  saved_cooldownPeriod : option Seconds;
  saved_maxImages : option Z
}.

Record Storage : Type := mkStorage {
  storedCaptures : Item (list Capture);
  storedAlerts : Item (list Alert);
  storedSettings : Item SavedSettings
}.

Definition emptyStorage : Storage := mkStorage Absent Absent Absent.

(** *** The badge *)

(** [this.alerts.filter(a => !a.read).length] *)
Definition unreadCount (st : State) : Z :=
  Z.of_nat (length (filter (fun a => negb (alert_read a)) (alerts st))).

(** [updateNotificationBadge]: the text of the badge and whether it is
    displayed; [None] when the page has no badge. *)
Definition updateNotificationBadge (hasBadge : bool) (st : State)
    : option (Z * bool) :=
  if hasBadge then Some (unreadCount st, 0 <? unreadCount st) else None.

(** *** Saving *)

(** [saveAlerts]: the first 100 alerts are written; a failing [setItem] is
    caught and leaves the entry as it was. *)
Definition saveAlerts (setItem : list Alert -> bool) (st : State)
    (sto : Storage) : Storage :=
  let toSave := firstn 100 (alerts st) in
  if setItem toSave
  then mkStorage (storedCaptures sto) (Holds toSave) (storedSettings sto)
  else sto.

(** [saveCaptures] seen with the storage: the object and the storage as
    the call leaves them when it returns, [None] when it has not returned
    within [fuel] nested calls. *)
Definition saveCaptures (fuel : nat) (setItem : list Capture -> SetResult)
    (st : State) (sto : Storage) : option (State * Storage) :=
  match App.saveCaptures fuel setItem st with
  | Returned st' (Some toSave) =>
      Some (st', mkStorage (Holds toSave) (storedAlerts sto)
                   (storedSettings sto))
  | Returned st' None => Some (st', sto)
  | StackExhausted _ => None
  end.

(** *** Loading *)

(** [loadSettings]: every non-empty field of the saved object is parsed and
    applied; unparsable text is logged and changes nothing. *)
Definition loadSettings (sto : Storage) (st : State) : State :=
  match storedSettings sto with
  | Holds settings =>
      let st1 :=
        match saved_motionThreshold settings with
        | Some t => set_motionThreshold t st
        | None => st
        end in
      let st2 :=
        match saved_cooldownPeriod settings with
        | Some c => set_cooldownPeriod (seconds c * 1000) st1
        | None => st1
        end in
      match saved_maxImages settings with
      | Some m => set_maxStorageImages m st2
      | None => st2
      end
  | Absent | Unparsable => st
  end.

(** [loadSavedData] *)
Definition loadSavedData (sto : Storage) (st : State) : State :=
  let st1 := loadSettings sto st in
  let st2 :=
    match storedCaptures sto with
    | Holds saved => set_captures saved st1
    | Unparsable => set_captures [] st1
    | Absent => st1
    end in
  match storedAlerts sto with
  | Holds saved => set_alerts saved st2
  | Unparsable => set_alerts [] st2
  | Absent => st2
  end.

(** [saveSettings] with the storage it writes: the strings of the form are
    never empty (an empty field is replaced by its default before it is
    stored), their readings are [threshold], [cooldownSeconds] and
    [maxImages].  The fields of the object are assigned first; [written]
    tells whether the [setItem] that follows went through. *)
Definition saveSettingsStored (threshold : number)
    (cooldownSeconds : Seconds) (maxImages : Z) (written : bool)
    (st : State) (sto : Storage) : State * Storage :=
  (saveSettings threshold cooldownSeconds maxImages st,
   if written
   then mkStorage (storedCaptures sto) (storedAlerts sto)
          (Holds (mkSavedSettings (Some threshold) (Some cooldownSeconds)
                    (Some maxImages)))
   else sto).

(** [resetSettings] with the storage: nothing happens unless the user
    confirms; then the entry is removed and the defaults are set. *)
Definition resetSettingsStored (confirmed : bool) (st : State) (sto : Storage)
    : State * Storage :=
  if confirmed
  then (resetSettings st,
        mkStorage (storedCaptures sto) (storedAlerts sto) Absent)
  else (st, sto).

(** *** Editing the lists *)

(** [find] the first alert with the id and set its [read] flag. *)
Fixpoint markFirstRead (id : Z) (l : list Alert) : list Alert :=
  match l with
  | [] => []
  | a :: rest =>
      if alert_id a =? id
      then mkAlert (alert_id a) (alert_motionLevel a) true :: rest
      else a :: markFirstRead id rest
  end.

(** [findIndex] then [splice(index, 1)]: the first element the test accepts
    is removed. *)
Fixpoint removeFirst {A : Type} (test : A -> bool) (l : list A) : list A :=
  match l with
  | [] => []
  | a :: rest => if test a then rest else a :: removeFirst test rest
  end.

Definition markAlertRead (setItem : list Alert -> bool) (id : Z)
    (st : State) (sto : Storage) : State * Storage :=
  if existsb (fun a => alert_id a =? id) (alerts st)
  then
    let st1 := set_alerts (markFirstRead id (alerts st)) st in
    (st1, saveAlerts setItem st1 sto)
  else (st, sto).

Definition deleteAlert (setItem : list Alert -> bool) (id : Z)
    (st : State) (sto : Storage) : State * Storage :=
  if existsb (fun a => alert_id a =? id) (alerts st)
  then
    let st1 :=
      set_alerts (removeFirst (fun a => alert_id a =? id) (alerts st)) st in
    (st1, saveAlerts setItem st1 sto)
  else (st, sto).

Definition deleteCapture (fuel : nat) (setItem : list Capture -> SetResult)
    (confirmed : bool) (id : Z) (st : State) (sto : Storage)
    : option (State * Storage) :=
  if negb confirmed then Some (st, sto)
  else if existsb (fun c => capture_id c =? id) (captures st)
  then
    saveCaptures fuel setItem
      (set_captures
         (removeFirst (fun c => capture_id c =? id) (captures st)) st) sto
  else Some (st, sto).

Definition clearAllCaptures (fuel : nat)
    (setItem : list Capture -> SetResult)
    (confirmed : bool) (st : State) (sto : Storage)
    : option (State * Storage) :=
  if negb confirmed then Some (st, sto)
  else saveCaptures fuel setItem (set_captures [] st) sto.

(** A storage that takes everything. *)
Definition roomy : list Capture -> SetResult := fun _ => Written.

(** *** Capturing by hand *)

(** [manualCapture]: refused unless the video element is there and ready. *)
Definition manualCapture (e : Env) (st : State) : State :=
  match video e with
  | Some _ => captureMotionImage e st
  | None => st
  end.

(** The state with its capture list and session counter blanked: what is
    left is everything a detection cycle reads. *)
Definition withoutCaptures (st : State) : State :=
  set_sessionCaptures 0 (set_captures [] st).

End Panel.

(** ** The black screen of [MotionSecurityCamera]

    A pending [setTimeout] is kept as a flag: [clearTimeout] lowers it, the
    timeout firing lowers it and runs the callback. *)

Module BlackScreen.

Record Screen : Type := mkScreen {
  blackScreenActive : bool;
  tapCount : Z;
  tapTimer : bool;    (* the 500 ms reset of the tap counter is pending *)
  textTimer : bool;   (* the 3 s hiding of the instructions is pending *)
  textVisible : bool  (* [display] of the instructions is ['block'] *)
}.

Record Dom : Type := mkDom {
  hasOverlay : bool;  (* #blackScreenOverlay *)
  hasText : bool      (* #blackScreenText *)
}.

Definition initial : Screen := mkScreen false 0 false false false.

(** Writing [textElement.style] throws when the element is missing; the
    statements before it have taken effect, those after it are skipped. *)
Definition activateBlackScreen (d : Dom) (s : Screen) : Screen :=
  if negb (hasOverlay d) then s
  else if negb (hasText d)
  then mkScreen true (tapCount s) (tapTimer s) (textTimer s) (textVisible s)
  else mkScreen true 0 (tapTimer s) (textTimer s) false.

Definition deactivateBlackScreen (d : Dom) (s : Screen) : Screen :=
  if negb (hasOverlay d) then s
  else if negb (hasText d)
  then mkScreen false (tapCount s) (tapTimer s) (textTimer s) (textVisible s)
  else mkScreen false (tapCount s) false false false.

(** The [click] listener of the overlay. *)
Definition onOverlayClick (d : Dom) (s : Screen) : Screen :=
  if negb (blackScreenActive s) then s
  else
    (* clearTimeout(this.tapTimer); this.tapCount++ *)
    let s1 :=
      mkScreen (blackScreenActive s) (tapCount s + 1) false (textTimer s)
        (textVisible s) in
    if tapCount s1 =? 1
    then
      if negb (hasText d) then s1
      else
        (* instructions shown, their timer restarted, reset timer started *)
        mkScreen (blackScreenActive s1) (tapCount s1) true true true
    else if tapCount s1 =? 2
    then
      if hasOverlay d && negb (hasText d)
      then deactivateBlackScreen d s1
      else
        let s2 := deactivateBlackScreen d s1 in
        mkScreen (blackScreenActive s2) 0 (tapTimer s2) (textTimer s2)
          (textVisible s2)
    else
      mkScreen (blackScreenActive s1) (tapCount s1) true (textTimer s1)
        (textVisible s1).

(** The two timeouts firing. *)
Definition onTapTimeout (s : Screen) : Screen :=
  if tapTimer s
  then mkScreen (blackScreenActive s) 0 false (textTimer s) (textVisible s)
  else s.

Definition onTextTimeout (s : Screen) : Screen :=
  if textTimer s
  then mkScreen (blackScreenActive s) (tapCount s) (tapTimer s) false false
  else s.

(** [toggleMotionDetection]: the flag is flipped first; the function
    returns at once when the button or the status element is missing.
    [stealth] tells whether the black-screen box exists and is ticked.
    Two statements can throw and end the function where they stand: the
    write to the text of the button, first in either branch, when the
    button has no [.toggle-text]; and, when switching off with the black
    screen up, lifting the screen when its instructions are missing.  Both
    come before the reset of the stored frame. *)
Definition toggleMotionDetection (page : App.Dom) (d : Dom) (stealth : bool)
    (st : App.State * Screen) : App.State * Screen :=
  let flipped :=
    App.set_motionDetectionActive
      (negb (App.motionDetectionActive (fst st))) (fst st) in
  if negb (App.hasToggleButton page) || negb (App.hasDetectionStatus page)
  then (flipped, snd st)
  else if negb (App.hasToggleText page)
  then (flipped, snd st)
  else if App.motionDetectionActive flipped
  then (flipped, if stealth then activateBlackScreen d (snd st) else snd st)
  else if blackScreenActive (snd st) && hasOverlay d && negb (hasText d)
  then (flipped, deactivateBlackScreen d (snd st))
  else (App.set_lastFrame None flipped,
        if blackScreenActive (snd st)
        then deactivateBlackScreen d (snd st) else snd st).

(** What can happen to the page, one event at a time. *)
Inductive Event : Type :=
| Toggle (stealth : bool)
| Click
| TapTimeout
| TextTimeout
| Frame (e : App.Env).

Definition step (page : App.Dom) (d : Dom) (ev : Event)
    (st : App.State * Screen) : App.State * Screen :=
  match ev with
  | Toggle stealth => toggleMotionDetection page d stealth st
  | Click => (fst st, onOverlayClick d (snd st))
  | TapTimeout => (fst st, onTapTimeout (snd st))
  | TextTimeout => (fst st, onTextTimeout (snd st))
  | Frame e => (App.tick e (fst st), snd st)
  end.

Definition steps (page : App.Dom) (d : Dom) (evs : list Event)
    (st : App.State * Screen) : App.State * Screen :=
  fold_left (fun s ev => step page d ev s) evs st.

Definition fullDom : Dom := mkDom true true.

(** What holds of the tap counter, the two timers and the instructions
    between any two events when overlay and instructions both exist. *)
Definition settled (s : Screen) : Prop :=
  (tapCount s = 0 \/ tapCount s = 1) /\
  (tapTimer s = true <-> blackScreenActive s = true /\ tapCount s = 1) /\
  textVisible s = textTimer s /\
  (blackScreenActive s = false -> textVisible s = false).

(** The black screen is up only on a page that has the toggle button with
    its text, the status element and the overlay, and only while detection
    is on. *)
Definition covered (page : App.Dom) (d : Dom) (st : App.State * Screen)
    : Prop :=
  blackScreenActive (snd st) = true ->
  App.motionDetectionActive (fst st) = true /\
  App.hasToggleButton page = true /\ App.hasDetectionStatus page = true /\
  App.hasToggleText page = true /\
  hasOverlay d = true.

End BlackScreen.

(** ** Start-up guard of [src/intro.js]

    [window.initializeMainApp] and its flag. *)

Module Boot.

Record Window : Type := mkWindow {
  appInitialized : bool;
  constructed : nat  (* how many times [new MotionSecurityCamera()] ran *)
}.

Definition initial : Window := mkWindow false 0.

(** [classDefined]: [typeof MotionSecurityCamera !== 'undefined'] at the
    time of the call. *)
Definition initializeMainApp (classDefined : bool) (w : Window) : Window :=
  if negb (appInitialized w) && classDefined
  then mkWindow true (S (constructed w))
  else w.

Definition calls (cs : list bool) (w : Window) : Window :=
  fold_left (fun w c => initializeMainApp c w) cs w.

End Boot.

(** ** Switching detection on and off in [SecurityCameraApp] *)

Module IntroControls.

Import Intro.

(** The [change] listener of the motion-detection box. *)
Definition onMotionDetectionChange (checked : bool) (st : State) : State :=
  mkState checked (motionCanvas st) (lastFrame st) (sensitivity st)
    (alerts st).

(** The [input] listener of the sensitivity slider. *)
Definition onSensitivityInput (value : number) (st : State) : State :=
  mkState (motionDetectionEnabled st) (motionCanvas st) (lastFrame st) value
    (alerts st).

Definition run (es : list Env) (st : State) : State :=
  fold_left (fun s e => tick e s) es st.

End IntroControls.

(** ** Facts about binary64 rounding used below *)

Section Rounding_facts.

Lemma iter_pos_invariant {A : Type} (f : A -> A) (P : A -> Prop) :
  (forall x, P x -> P (f x)) ->
  forall n x, P x -> P (iter_pos f n x).
Proof.
  intros Hf. induction n as [n IH | n IH | ]; intros x Hx; simpl.
  - apply IH, IH, Hf, Hx.
  - apply IH, IH, Hx.
  - apply Hf, Hx.
Qed.

Lemma shr_1_nonneg mrs : 0 <= shr_m mrs -> 0 <= shr_m (shr_1 mrs).
Proof.
  destruct mrs as [m r s]. simpl.
  destruct m as [ | [p | p | ] | p ]; simpl; lia.
Qed.

Lemma shr_nonneg mrs e n :
  0 <= shr_m mrs -> 0 <= shr_m (fst (shr mrs e n)).
Proof.
  intros H. destruct n as [ | p | p ]; simpl; trivial.
  apply (iter_pos_invariant shr_1 (fun r => 0 <= shr_m r)); trivial.
  apply shr_1_nonneg.
Qed.

Lemma shr_record_of_loc_m m l : shr_m (shr_record_of_loc m l) = m.
Proof. destruct l as [ | [ | | ] ]; reflexivity. Qed.

Lemma shr_fexp_nonneg m e l :
  0 <= m -> 0 <= shr_m (fst (shr_fexp prec emax m e l)).
Proof.
  intros H. unfold shr_fexp. apply shr_nonneg.
  now rewrite shr_record_of_loc_m.
Qed.

Lemma round_nearest_even_nonneg m l :
  0 <= m -> 0 <= round_nearest_even m l.
Proof.
  intros H. destruct l as [ | [ | | ] ]; simpl; trivial; try lia.
  destruct (Z.even m); lia.
Qed.

(** Rounding a non-negative mantissa gives a value of the requested sign,
    never NaN. *)
Lemma binary_round_aux_sign sx mx ex lx :
  0 <= mx -> has_sign sx (binary_round_aux prec emax sx mx ex lx) = true.
Proof.
  intros H. unfold binary_round_aux.
  pose proof (shr_fexp_nonneg mx ex lx H) as H1.
  destruct (shr_fexp prec emax mx ex lx) as [mrs' e']. simpl in H1.
  pose proof (round_nearest_even_nonneg _ (loc_of_shr_record mrs') H1) as H2.
  pose proof (shr_fexp_nonneg _ e' loc_Exact H2) as H3.
  destruct (shr_fexp prec emax _ e' loc_Exact) as [mrs'' e'']. simpl in H3.
  destruct (shr_m mrs'') as [ | m | m ].
  - apply eqb_reflx.
  - destruct (_ <=? _); apply eqb_reflx.
  - lia.
Qed.

Lemma binary_round_sign sx m e :
  has_sign sx (binary_round prec emax sx m e) = true.
Proof.
  unfold binary_round.
  destruct (shl_align m e _) as [mz ez].
  apply binary_round_aux_sign. lia.
Qed.

Lemma binary_normalize_nonneg z e :
  0 <= z -> has_sign false (binary_normalize prec emax z e false) = true.
Proof.
  intros H. destruct z as [ | p | p ]; simpl; trivial.
  - apply binary_round_sign.
  - lia.
Qed.

(** A product of two non-negative numbers is non-negative or NaN-free. *)
Lemma mul_sign x y :
  has_sign false x = true -> has_sign false y = true ->
  y <> S754_infinity false ->
  has_sign false (mul x y) = true \/ mul x y = NaN.
Proof.
  intros Hx Hy Hinf.
  destruct x as [ [ | ] | [ | ] | | [ | ] mx ex ]; try discriminate;
  destruct y as [ [ | ] | [ | ] | | [ | ] my ey ]; try discriminate;
  try congruence; simpl; auto.
  left. apply binary_round_aux_sign. lia.
Qed.

(** *** Rounding never turns a positive integer into zero *)

Lemma iter_pos_eq {A : Type} (f : A -> A) n x :
  iter_pos f n x = Pos.iter f x n.
Proof.
  revert x. induction n as [n IH | n IH | ]; intros x; simpl.
  - rewrite !IH. now rewrite <- !Pos.iter_swap.
  - now rewrite !IH.
  - reflexivity.
Qed.

Lemma shr_1_half mrs k :
  0 <= k -> 2 ^ (1 + k) <= shr_m mrs -> 2 ^ k <= shr_m (shr_1 mrs).
Proof.
  intros Hk H. rewrite Z.pow_add_r, Z.pow_1_r in H by lia.
  destruct mrs as [m r s]. cbn [shr_m shr_1] in *.
  assert (0 < 2 ^ k) by (apply Z.pow_pos_nonneg; lia).
  destruct m as [ | [p | p | ] | p ]; cbn [shr_m]; lia.
Qed.

Lemma shr_iter_lower n : forall mrs k,
  0 <= k -> 2 ^ (Z.pos n + k) <= shr_m mrs ->
  2 ^ k <= shr_m (iter_pos shr_1 n mrs).
Proof.
  intros mrs. rewrite iter_pos_eq.
  induction n as [ | n IH ] using Pos.peano_ind; intros k Hk H.
  - simpl. now apply shr_1_half.
  - rewrite Pos.iter_succ. apply shr_1_half; trivial.
    apply IH; [lia | ].
    replace (Z.pos n + (1 + k)) with (Z.pos (Pos.succ n) + k) by lia.
    exact H.
Qed.

Lemma digits2_lower p : 2 ^ (Z.pos (digits2_pos p) - 1) <= Z.pos p.
Proof.
  induction p as [p IH | p IH | ]; simpl digits2_pos.
  - rewrite Pos2Z.inj_succ.
    replace (Z.succ (Z.pos (digits2_pos p)) - 1)
      with (1 + (Z.pos (digits2_pos p) - 1)) by lia.
    rewrite Z.pow_add_r, Z.pow_1_r by lia. lia.
  - rewrite Pos2Z.inj_succ.
    replace (Z.succ (Z.pos (digits2_pos p)) - 1)
      with (1 + (Z.pos (digits2_pos p) - 1)) by lia.
    rewrite Z.pow_add_r, Z.pow_1_r by lia. lia.
  - simpl. lia.
Qed.

Lemma digits2_upper p : Z.pos p < 2 ^ Z.pos (digits2_pos p).
Proof.
  induction p as [p IH | p IH | ]; simpl digits2_pos.
  - rewrite Pos2Z.inj_succ, Z.pow_succ_r by lia. lia.
  - rewrite Pos2Z.inj_succ, Z.pow_succ_r by lia. lia.
  - simpl. lia.
Qed.

Lemma emin_value : emin prec emax = -1074.
Proof. reflexivity. Qed.

Lemma fexp_value e : fexp prec emax e = Z.max (e - 53) (-1074).
Proof. reflexivity. Qed.

(** Above the smallest exponent, the shift of [shr_fexp] keeps at least
    the 53 leading bits of a positive mantissa. *)
Lemma shr_fexp_pos m e l :
  0 < m -> -1074 <= e ->
  0 < shr_m (fst (shr_fexp prec emax m e l)) /\
  -1074 <= snd (shr_fexp prec emax m e l).
Proof.
  intros Hm He. unfold shr_fexp. rewrite fexp_value.
  destruct m as [ | p | p ]; try lia. simpl Zdigits2.
  set (d := Z.pos (digits2_pos p)).
  destruct (Z.max (d + e - 53) (-1074) - e) as [ | n | n ] eqn:Hn; simpl.
  - rewrite shr_record_of_loc_m. lia.
  - split; [ | lia ].
    assert (Z.pos n = d - 53) as Hd by lia.
    assert (2 ^ 52 <= shr_m (iter_pos shr_1 n (shr_record_of_loc (Z.pos p) l))).
    { apply shr_iter_lower; [lia | ].
      rewrite shr_record_of_loc_m.
      replace (Z.pos n + 52) with (d - 1) by lia.
      apply digits2_lower. }
    assert (0 < 2 ^ 52) by reflexivity. lia.
  - rewrite shr_record_of_loc_m. lia.
Qed.

Lemma round_nearest_even_pos m l : 0 < m -> 0 < round_nearest_even m l.
Proof.
  intros H. destruct l as [ | [ | | ] ]; simpl; trivial; try lia.
  destruct (Z.even m); lia.
Qed.

Lemma binary_round_aux_positive mx ex lx :
  0 < mx -> -1074 <= ex ->
  positive_number (binary_round_aux prec emax false mx ex lx) = true.
Proof.
  intros Hm He. unfold binary_round_aux.
  destruct (shr_fexp_pos mx ex lx Hm He) as [H1 H1e].
  destruct (shr_fexp prec emax mx ex lx) as [mrs' e']. simpl in H1, H1e.
  pose proof (round_nearest_even_pos _ (loc_of_shr_record mrs') H1) as H2.
  destruct (shr_fexp_pos _ e' loc_Exact H2 H1e) as [H3 _].
  destruct (shr_fexp prec emax _ e' loc_Exact) as [mrs'' e'']. simpl in H3.
  destruct (shr_m mrs'') as [ | m | m ]; try lia.
  now destruct (_ <=? _).
Qed.

(** A positive integer is a positive number: [of_Z] never underflows. *)
Lemma of_Z_positive z : 0 < z -> positive_number (of_Z z) = true.
Proof.
  intros Hz. destruct z as [ | p | p ]; try lia.
  unfold of_Z, binary_normalize, binary_round, shl_align.
  rewrite fexp_value.
  destruct (Z.max _ _ - 0) as [ | d | d ] eqn:Hd;
    apply binary_round_aux_positive; lia.
Qed.

(** *** The sign of [100 - s] for a number [s] that is not above 100 *)

Lemma iter_xO_pow2 m d : Z.pos (Pos.iter xO m d) = Z.pos m * 2 ^ Z.pos d.
Proof.
  induction d as [ | d IH ] using Pos.peano_ind.
  - simpl. lia.
  - rewrite Pos.iter_succ, Pos2Z.inj_xO, IH, Pos2Z.inj_succ.
    rewrite Z.pow_succ_r by lia. lia.
Qed.

Lemma shl_align_fst m e e' :
  Z.pos (fst (shl_align m e e')) = Z.pos m * 2 ^ Z.max 0 (e - e').
Proof.
  unfold shl_align. destruct (e' - e) as [ | d | d ] eqn:Hd; simpl fst.
  - replace (Z.max 0 (e - e')) with 0 by lia. lia.
  - replace (Z.max 0 (e - e')) with 0 by lia. lia.
  - replace (Z.max 0 (e - e')) with (Z.pos d) by lia. apply iter_xO_pow2.
Qed.

Lemma valid_mantissa_bound s m e :
  valid (S754_finite s m e) = true -> Z.pos m < 2 ^ 53.
Proof.
  unfold valid, valid_binary, bounded, canonical_mantissa.
  rewrite fexp_value. intros H.
  apply andb_prop in H. destruct H as [H _]. apply Z.eqb_eq in H.
  pose proof (digits2_upper m) as Hu.
  assert (Z.pos (digits2_pos m) <= 53) as Hd by lia.
  apply Z.lt_le_trans with (1 := Hu).
  apply Z.pow_le_mono_r; lia.
Qed.

Lemma hundred_value : hundred = S754_finite false 7036874417766400 (-46).
Proof. reflexivity. Qed.

Lemma sub_hundred_sign s :
  valid s = true -> lt hundred s = false ->
  has_sign false (sub hundred s) = true \/ sub hundred s = NaN.
Proof.
  intros Hv Hlt. rewrite hundred_value in *.
  destruct s as [ ss | [ | ] | | ss ms es ];
    [ now left | now left | discriminate | now right | ].
  left. unfold sub, SFsub. apply binary_normalize_nonneg.
  rewrite !shl_align_fst.
  change (IntDef.Z.min (-46) es) with (Z.min (-46) es).
  destruct ss; unfold cond_Zopp.
  - assert (0 <= Z.pos ms * 2 ^ Z.max 0 (es - Z.min (-46) es))
      by (apply Z.mul_nonneg_nonneg; [lia | apply Z.pow_nonneg; lia]).
    assert (0 <= 7036874417766400 * 2 ^ Z.max 0 (-46 - Z.min (-46) es))
      by (apply Z.mul_nonneg_nonneg; [lia | apply Z.pow_nonneg; lia]).
    lia.
  - pose proof (valid_mantissa_bound _ _ _ Hv) as Hb.
    unfold lt, SFltb, SFcompare in Hlt.
    destruct (Z.compare_spec (-46) es) as [He | He | He]; try discriminate.
    + subst es. replace (Z.max 0 (-46 - Z.min (-46) (-46))) with 0 by lia.
      rewrite !Z.pow_0_r, !Z.mul_1_r.
      apply Z.le_0_sub, Pos2Z.pos_le_pos, Pos.ge_le.
      unfold Pos.ge, Pos.compare.
      destruct (PosDef.Pos.compare_cont Eq 7036874417766400 ms); congruence.
    + replace (Z.min (-46) es) with es by lia.
      replace (Z.max 0 (es - es)) with 0 by lia.
      rewrite Z.pow_0_r, Z.mul_1_r.
      replace (Z.max 0 (-46 - es)) with (-46 - es) by lia.
      assert (2 ^ 1 <= 2 ^ (-46 - es)) as Hp by (apply Z.pow_le_mono_r; lia).
      change (2 ^ 1) with 2 in Hp. change (2 ^ 53) with 9007199254740992 in Hb.
      clear Hlt Hv. set (X := 2 ^ (-46 - es)) in *. clearbody X.
      apply Z.le_0_sub. apply Z.lt_le_incl, Z.lt_le_trans with (1 := Hb).
      apply Z.le_trans with (7036874417766400 * 2);
        [ apply Z.leb_le; reflexivity | ].
      apply Z.mul_le_mono_nonneg_l; [ discriminate | exact Hp ].
Qed.

Lemma nonneg_not_below_zero x :
  has_sign false x = true \/ x = NaN -> lt x zero = false.
Proof.
  intros [H | ->]; [ | reflexivity ].
  destruct x as [ [ | ] | [ | ] | | [ | ] m e ]; try discriminate; reflexivity.
Qed.

(** *** The product of a whole number of seconds by 1000 *)










End Rounding_facts.


(** ** Facts about the frame comparison *)

Section Comparison_facts.

Lemma channel_range b : 0 <= channel b <= 255.
Proof.
  unfold channel. pose proof (Byte.to_N_bounded b). lia.
Qed.

Lemma absDiff_range c l : 0 <= absDiff c l <= 255.
Proof.
  unfold absDiff.
  pose proof (channel_range c). pose proof (channel_range l). lia.
Qed.

Lemma sumDiff_range c l : 0 <= sumDiff c l <= 765.
Proof.
  unfold sumDiff, rDiff, gDiff, bDiff.
  pose proof (absDiff_range (red c) (red l)).
  pose proof (absDiff_range (green c) (green l)).
  pose proof (absDiff_range (blue c) (blue l)). lia.
Qed.

Lemma sumDiff_same c : sumDiff c c = 0.
Proof.
  unfold sumDiff, rDiff, gDiff, bDiff, absDiff.
  rewrite !Z.sub_diag. reflexivity.
Qed.

Lemma all_upto_spec P n :
  all_upto P n = true -> forall z, 0 <= z <= Z.of_nat n -> P z = true.
Proof.
  unfold all_upto. intros H z Hz.
  rewrite forallb_forall in H. apply H.
  apply in_map_iff. exists (Z.to_nat z). split; [ lia | ].
  apply in_seq. lia.
Qed.

Lemma app_compareLoop_spec thr cur : forall last n,
  App.compareLoop thr cur last n =
  (n + countChanged (App.pixelChanged thr) cur last,
   paintChanged (App.pixelChanged thr) cur last).
Proof.
  induction cur as [ | c rest IH ]; intros last n; simpl.
  - f_equal. lia.
  - unfold App.pixelChanged at 1 3.
    destruct (gt (App.totalDiff c (hd_error last)) thr);
      rewrite IH; f_equal; lia.
Qed.

Lemma app_compareLoop_plain_spec thr cur : forall last n,
  App.compareLoop_plain thr cur last n =
  (n + countChanged (App.pixelChanged thr) cur last, cur).
Proof.
  induction cur as [ | c rest IH ]; intros last n; simpl.
  - f_equal. lia.
  - unfold App.pixelChanged at 1.
    destruct (gt (App.totalDiff c (hd_error last)) thr);
      rewrite IH; f_equal; lia.
Qed.

Lemma intro_compareLoop_spec thr cur : forall last n,
  Intro.compareLoop thr cur last n =
  (n + countChanged (Intro.pixelChanged thr) cur last,
   paintChanged (Intro.pixelChanged thr) cur last).
Proof.
  induction cur as [ | c rest IH ]; intros last n; simpl.
  - f_equal. lia.
  - unfold Intro.pixelChanged at 1 3.
    destruct (gt (Intro.totalDiff c (hd_error last)) thr);
      rewrite IH; f_equal; lia.
Qed.

Lemma countChanged_range changed cur : forall last,
  0 <= countChanged changed cur last <= Z.of_nat (length cur).
Proof.
  induction cur as [ | c rest IH ]; intros last; simpl length; simpl countChanged.
  - lia.
  - specialize (IH (tl last)). destruct (changed c (hd_error last)); lia.
Qed.

(** No pixel is selected: nothing is counted and nothing is painted. *)
Lemma nothing_changed changed cur : forall last,
  (forall c l, In (c, l) (combine cur last) -> changed c (Some l) = false) ->
  length last = length cur ->
  countChanged changed cur last = 0 /\ paintChanged changed cur last = cur.
Proof.
  induction cur as [ | c rest IH ]; intros last H Hlen.
  - split; reflexivity.
  - destruct last as [ | l last' ]; [ discriminate | ].
    simpl in Hlen. simpl.
    rewrite (H c l) by (left; reflexivity).
    destruct (IH last') as [IH1 IH2].
    + intros c' l' Hin. apply H. right. exact Hin.
    + lia.
    + rewrite IH1, IH2. split; reflexivity.
Qed.

(** Painting only touches the selected pixels, and only their colour. *)
Lemma paintChanged_length changed cur : forall last,
  length (paintChanged changed cur last) = length cur.
Proof.
  induction cur as [ | c rest IH ]; intros last; simpl; [ | rewrite IH ];
    reflexivity.
Qed.

Lemma paintChanged_nth changed cur : forall last k c,
  nth_error cur k = Some c ->
  nth_error (paintChanged changed cur last) k =
  Some (if changed c (nth_error last k) then highlight c else c).
Proof.
  induction cur as [ | c0 rest IH ]; intros last k c Hk.
  - destruct k; discriminate.
  - destruct k as [ | k ]; simpl in *.
    + injection Hk as ->. destruct last; reflexivity.
    + rewrite (IH (tl last) k c Hk). destruct last as [ | l last' ]; simpl.
      * destruct k; reflexivity.
      * reflexivity.
Qed.

(** On frames of equal size the loop counts what the specification counts. *)
Lemma countChanged_changedCount s cur : forall last,
  length last = length cur ->
  countChanged (App.pixelChanged (pixelThreshold s)) cur last =
  App.changedCount s cur last.
Proof.
  unfold App.changedCount.
  induction cur as [ | c rest IH ]; intros last Hlen.
  - reflexivity.
  - destruct last as [ | l last' ]; [ discriminate | ].
    simpl in Hlen. cbn [countChanged combine filter hd_error tl].
    rewrite IH by lia.
    change (App.exceeds s (c, l))
      with (App.pixelChanged (pixelThreshold s) c (Some l)).
    destruct (App.pixelChanged (pixelThreshold s) c (Some l));
      cbn [length]; lia.
Qed.

End Comparison_facts.

(** ** Thresholds and percentages *)

Section Threshold_facts.

Lemma lit_2_55_nearest : div (of_Z 255) (of_Z 100) = lit_2_55.
Proof. vm_compute. reflexivity. Qed.

Lemma lit_0_5_exact : div (of_Z 1) (of_Z 2) = lit_0_5.
Proof. vm_compute. reflexivity. Qed.

Lemma pixelThreshold_100 : pixelThreshold (of_Z 100) = zero.
Proof. vm_compute. reflexivity. Qed.

(** [100 * 2.55] is the binary64 value just below 255. *)
Lemma pixelThreshold_0 :
  pixelThreshold (of_Z 0) = S754_finite false 8972014882652159 (-45).
Proof. vm_compute. reflexivity. Qed.

Lemma of_Z_255 : of_Z 255 = S754_finite false 8972014882652160 (-45).
Proof. vm_compute. reflexivity. Qed.

(** [50 * 2.55] is the binary64 value just below 127.5. *)
Lemma pixelThreshold_50 :
  pixelThreshold (of_Z 50) = S754_finite false 8972014882652159 (-46).
Proof. vm_compute. reflexivity. Qed.

Lemma pixelThreshold_not_negative s :
  valid s = true -> lt hundred s = false ->
  lt (pixelThreshold s) zero = false.
Proof.
  intros Hv Hs. apply nonneg_not_below_zero. unfold pixelThreshold.
  destruct (sub_hundred_sign s Hv Hs) as [H | H].
  - apply mul_sign; trivial. discriminate.
  - rewrite H. right. reflexivity.
Qed.

Lemma app_totalDiff_same c : App.totalDiff c (Some c) = zero.
Proof.
  unfold App.totalDiff. rewrite sumDiff_same. vm_compute. reflexivity.
Qed.

Lemma app_changed_at_100 c l :
  App.pixelChanged (pixelThreshold (of_Z 100)) c (Some l) = (0 <? sumDiff c l).
Proof.
  rewrite pixelThreshold_100. unfold App.pixelChanged, App.totalDiff.
  pose proof (sumDiff_range c l) as Hr.
  apply eqb_prop.
  apply (all_upto_spec
           (fun z => Bool.eqb (gt (div (of_Z z) three) zero) (0 <? z)) 765);
    [ vm_compute; reflexivity | exact Hr ].
Qed.

Lemma intro_changed_at_100 c l :
  Intro.pixelChanged (pixelThreshold (of_Z 100)) c (Some l)
  = (0 <? sumDiff c l).
Proof.
  rewrite pixelThreshold_100. unfold Intro.pixelChanged, Intro.totalDiff.
  pose proof (sumDiff_range c l) as Hr.
  apply eqb_prop.
  apply (all_upto_spec (fun z => Bool.eqb (gt (of_Z z) zero) (0 <? z)) 765);
    [ vm_compute; reflexivity | exact Hr ].
Qed.

Lemma app_changed_at_0 c l :
  App.pixelChanged (pixelThreshold (of_Z 0)) c (Some l) = (sumDiff c l =? 765).
Proof.
  unfold App.pixelChanged, App.totalDiff.
  pose proof (sumDiff_range c l) as Hr.
  apply eqb_prop.
  apply (all_upto_spec
           (fun z => Bool.eqb (gt (div (of_Z z) three) (pixelThreshold (of_Z 0)))
                              (z =? 765)) 765);
    [ vm_compute; reflexivity | exact Hr ].
Qed.

Lemma intro_changed_at_0 c l :
  Intro.pixelChanged (pixelThreshold (of_Z 0)) c (Some l)
  = (255 <=? sumDiff c l).
Proof.
  unfold Intro.pixelChanged, Intro.totalDiff.
  pose proof (sumDiff_range c l) as Hr.
  apply eqb_prop.
  apply (all_upto_spec
           (fun z => Bool.eqb (gt (of_Z z) (pixelThreshold (of_Z 0)))
                              (255 <=? z)) 765);
    [ vm_compute; reflexivity | exact Hr ].
Qed.

(** No changed pixel among at least one pixel: the percentage is +0. *)
Lemma motionPercentage_none n :
  0 < n -> App.motionPercentage 0 n = zero.
Proof.
  intros Hn. unfold App.motionPercentage.
  pose proof (of_Z_positive n Hn) as Hp.
  destruct (of_Z n) as [ s | [ | ] | | [ | ] m e ]; try discriminate;
    reflexivity.
Qed.

End Threshold_facts.

(** ** What the trigger handler and one cycle do to the state *)

Section Cycle_facts.

Import App.

Lemma manageStorage_frame e st :
  motionDetectionActive (manageStorage e st) = motionDetectionActive st /\
  motionCanvas (manageStorage e st) = motionCanvas st /\
  lastFrame (manageStorage e st) = lastFrame st /\
  alerts (manageStorage e st) = alerts st /\
  sensitivity (manageStorage e st) = sensitivity st /\
  lastCaptureTime (manageStorage e st) = lastCaptureTime st /\
  cooldownPeriod (manageStorage e st) = cooldownPeriod st /\
  motionThreshold (manageStorage e st) = motionThreshold st.
Proof.
  unfold manageStorage.
  destruct (maxStorageImages st <? _); destruct (retentionCutoff e);
    repeat split; reflexivity.
Qed.

Lemma set_captures_same st : set_captures (captures st) st = st.
Proof. destruct st. reflexivity. Qed.

Lemma firstn_10_of_5 {A : Type} (l : list A) :
  firstn 10 (firstn 5 l) = firstn 5 l.
Proof. rewrite firstn_firstn. reflexivity. Qed.

Lemma firstn_5_of_5 {A : Type} (l : list A) :
  firstn 5 (firstn 5 l) = firstn 5 l.
Proof. rewrite firstn_firstn. reflexivity. Qed.

(** [manageStorage] writes the capture list and nothing else. *)
Lemma manageStorage_shape e st :
  manageStorage e st = set_captures (captures (manageStorage e st)) st.
Proof.
  unfold manageStorage.
  destruct (maxStorageImages st <? _); destruct (retentionCutoff e);
    destruct st; reflexivity.
Qed.

(** So does [saveCaptures], which keeps the list or cuts it to five. *)
Lemma saveCaptures_shape setItem :
  forall fuel st,
    stateOf (saveCaptures fuel setItem st)
    = set_captures (captures (stateOf (saveCaptures fuel setItem st))) st /\
    (captures (stateOf (saveCaptures fuel setItem st)) = captures st \/
     captures (stateOf (saveCaptures fuel setItem st))
     = firstn 5 (captures st)).
Proof.
  induction fuel as [ | fuel IH ]; intros st.
  - cbn. split; [ symmetry; apply set_captures_same | left; reflexivity ].
  - cbn -[firstn]. destruct (setItem (firstn 10 (captures st))).
    + cbn. split; [ symmetry; apply set_captures_same | left; reflexivity ].
    + destruct (IH (set_captures (firstn 5 (captures st)) st)) as [H1 H2].
      split.
      * rewrite H1 at 1. destruct st. reflexivity.
      * right. destruct H2 as [H2 | H2]; rewrite H2; cbn -[firstn];
          [ reflexivity | apply firstn_5_of_5 ].
    + cbn. split; [ symmetry; apply set_captures_same | left; reflexivity ].
Qed.

(** [captureMotionImage] writes the capture list and the session counter
    and nothing else. *)
Lemma captureMotionImage_shape e st :
  exists c n, captureMotionImage e st = set_sessionCaptures n (set_captures c st).
Proof.
  unfold captureMotionImage. destruct (captureReady e); cbn [negb].
  - set (st1 := set_captures _ st).
    pose proof (manageStorage_shape e st1) as Hm.
    remember (manageStorage e st1) as st2 eqn:Hst2. clear Hst2.
    destruct (saveCaptures_shape (setCaptures e) (stackDepth e) st2)
      as [Hs _].
    assert (stateOf (saveCaptures (stackDepth e) (setCaptures e) st2)
            = set_captures
                (captures
                   (stateOf (saveCaptures (stackDepth e) (setCaptures e) st2)))
                st) as H3.
    { etransitivity; [ exact Hs | ]. rewrite Hm at 2.
      unfold st1. destruct st. reflexivity. }
    destruct (saveCaptures _ _ st2) as [st3 w | st3]; cbn [stateOf] in H3.
    + exists (captures st3), (sessionCaptures st3 + 1).
      rewrite H3 at 2. destruct st. reflexivity.
    + exists (captures st3), (sessionCaptures st).
      rewrite H3 at 1. destruct st. reflexivity.
  - exists (captures st), (sessionCaptures st). destruct st. reflexivity.
Qed.

Lemma captureMotionImage_frame e st :
  motionDetectionActive (captureMotionImage e st) = motionDetectionActive st /\
  motionCanvas (captureMotionImage e st) = motionCanvas st /\
  lastFrame (captureMotionImage e st) = lastFrame st /\
  alerts (captureMotionImage e st) = alerts st /\
  sensitivity (captureMotionImage e st) = sensitivity st /\
  lastCaptureTime (captureMotionImage e st) = lastCaptureTime st /\
  cooldownPeriod (captureMotionImage e st) = cooldownPeriod st /\
  motionThreshold (captureMotionImage e st) = motionThreshold st.
Proof.
  destruct (captureMotionImage_shape e st) as (c & n & ->).
  repeat split; reflexivity.
Qed.

(** The handler leaves the canvas, the stored frame and the configuration
    alone. *)
Lemma onMotionDetected_frame e level st :
  motionDetectionActive (onMotionDetected e level st)
    = motionDetectionActive st /\
  motionCanvas (onMotionDetected e level st) = motionCanvas st /\
  lastFrame (onMotionDetected e level st) = lastFrame st /\
  sensitivity (onMotionDetected e level st) = sensitivity st /\
  cooldownPeriod (onMotionDetected e level st) = cooldownPeriod st /\
  motionThreshold (onMotionDetected e level st) = motionThreshold st.
Proof.
  unfold onMotionDetected. destruct (_ <? _).
  - repeat split; reflexivity.
  - simpl.
    destruct (captureMotionImage_frame e st)
      as (H1 & H2 & H3 & _ & H5 & _ & H7 & H8).
    repeat split; assumption.
Qed.

(** What the handler does once the cooldown has elapsed. *)
Lemma onMotionDetected_emits e level st :
  cooldownPeriod st <= now e - lastCaptureTime st ->
  alerts (onMotionDetected e level st)
    = mkAlert (alertId e) level false :: alerts st /\
  lastCaptureTime (onMotionDetected e level st) = now e.
Proof.
  intros H. unfold onMotionDetected.
  destruct (Z.ltb_spec (now e - lastCaptureTime st) (cooldownPeriod st));
    [ lia | ].
  simpl. destruct (captureMotionImage_frame e st) as (_ & _ & _ & -> & _).
  split; reflexivity.
Qed.

Lemma onMotionDetected_suppressed e level st :
  now e - lastCaptureTime st < cooldownPeriod st ->
  onMotionDetected e level st = st.
Proof.
  intros H. unfold onMotionDetected.
  destruct (Z.ltb_spec (now e - lastCaptureTime st) (cooldownPeriod st));
    [ reflexivity | lia ].
Qed.

(** A cycle that has a stored frame, with the loop replaced by its
    loop-free description. *)
Lemma detectMotion_cycle e st frame last :
  hasMotionContext e = true -> video e = Some frame ->
  lastFrame st = Some last ->
  let thr := pixelThreshold (sensitivity st) in
  let painted := paintChanged (pixelChanged thr) frame last in
  let pct :=
    motionPercentage (countChanged (pixelChanged thr) frame last)
      (Z.of_nat (length frame)) in
  measuredMotion st frame = Some pct /\
  detectMotion e st =
  set_lastFrame (Some painted)
    (if gt pct (motionThreshold st)
     then onMotionDetected e pct (set_motionCanvas painted st)
     else set_motionCanvas painted st).
Proof.
  intros Hc Hv Hl thr painted pct.
  unfold measuredMotion, detectMotion. rewrite Hc, Hv. simpl. rewrite Hl.
  rewrite app_compareLoop_spec. simpl. fold thr painted pct.
  split; [ reflexivity | ].
  change (set_motionCanvas painted (set_motionCanvas frame st))
    with (set_motionCanvas painted st).
  destruct (gt pct (motionThreshold st)).
  - destruct (onMotionDetected_frame e pct (set_motionCanvas painted st))
      as (_ & -> & _). reflexivity.
  - reflexivity.
Qed.

Lemma detectMotion_first e st frame :
  hasMotionContext e = true -> video e = Some frame ->
  lastFrame st = None ->
  detectMotion e st = set_lastFrame (Some frame) (set_motionCanvas frame st).
Proof.
  intros Hc Hv Hl. unfold detectMotion. rewrite Hc, Hv. simpl. rewrite Hl.
  reflexivity.
Qed.

(** A cycle never touches the configuration or the enabled flag. *)
Lemma tick_config e st :
  cooldownPeriod (tick e st) = cooldownPeriod st /\
  motionThreshold (tick e st) = motionThreshold st /\
  sensitivity (tick e st) = sensitivity st /\
  motionDetectionActive (tick e st) = motionDetectionActive st.
Proof.
  unfold tick.
  destruct (motionDetectionActive st) eqn:Ha; [ | repeat split; congruence ].
  rewrite <- Ha.
  destruct (video e) as [frame | ] eqn:Hv; [ | repeat split; trivial ].
  unfold detectMotion. rewrite Hv.
  destruct (hasMotionContext e); [ | repeat split; trivial ].
  simpl. destruct (lastFrame st) as [last | ].
  - destruct (compareLoop _ _ _ _) as [n painted]. simpl.
    destruct (gt _ _); simpl.
    + destruct (onMotionDetected_frame e
                  (motionPercentage n (Z.of_nat (length frame)))
                  (set_motionCanvas painted (set_motionCanvas frame st)))
        as (H1 & _ & _ & H4 & H5 & H6).
      rewrite H1, H4, H5, H6. simpl. repeat split; trivial.
    + repeat split; trivial.
  - simpl. repeat split; trivial.
Qed.

End Cycle_facts.

(** The canvas plays no part in storage management, the save, the capture
    or the handler. *)
Lemma manageStorage_canvas e c st :
  App.manageStorage e (App.set_motionCanvas c st)
  = App.set_motionCanvas c (App.manageStorage e st).
Proof.
  unfold App.manageStorage. simpl.
  destruct (App.maxStorageImages st <? _); destruct (App.retentionCutoff e);
    reflexivity.
Qed.

Lemma saveCaptures_canvas setItem c :
  forall fuel st,
    App.saveCaptures fuel setItem (App.set_motionCanvas c st)
    = match App.saveCaptures fuel setItem st with
      | App.Returned st' w => App.Returned (App.set_motionCanvas c st') w
      | App.StackExhausted st' => App.StackExhausted (App.set_motionCanvas c st')
      end.
Proof.
  induction fuel as [ | fuel IH ]; intros st; [ reflexivity | ].
  cbn -[firstn].
  destruct (setItem (firstn 10 (App.captures st))); try reflexivity.
  apply (IH (App.set_captures (firstn 5 (App.captures st)) st)).
Qed.

Lemma captureMotionImage_canvas e c st :
  App.captureMotionImage e (App.set_motionCanvas c st)
  = App.set_motionCanvas c (App.captureMotionImage e st).
Proof.
  unfold App.captureMotionImage.
  destruct (App.captureReady e); cbn [negb]; [ | reflexivity ].
  change (App.set_captures
            (App.mkCapture (App.captureId e) (App.captureTimestamp e)
             :: App.captures (App.set_motionCanvas c st))
            (App.set_motionCanvas c st))
    with (App.set_motionCanvas c
            (App.set_captures
               (App.mkCapture (App.captureId e) (App.captureTimestamp e)
                :: App.captures st) st)).
  rewrite manageStorage_canvas, saveCaptures_canvas.
  destruct (App.saveCaptures _ _ _); reflexivity.
Qed.

(** The handler does not look at the canvas. *)
Lemma onMotionDetected_canvas e level c st :
  App.onMotionDetected e level (App.set_motionCanvas c st)
  = App.set_motionCanvas c (App.onMotionDetected e level st).
Proof.
  unfold App.onMotionDetected. simpl.
  destruct (_ <? _); [ reflexivity | ].
  rewrite captureMotionImage_canvas. reflexivity.
Qed.

(** ** The properties of the specification *)

(** C10: a detection suppressed by the cooldown check
    ([now - lastCaptureTime < cooldownPeriod]) makes the trigger handler
    return with the whole state unchanged: [lastCaptureTime] is not updated,
    no alert is appended and no capture is taken.  The window is therefore
    measured from the last emitted event: any later call of the handler is
    decided exactly as if the suppressed one had not taken place. *)
Theorem cooldown_suppression_changes_nothing :
  forall (e : App.Env) (motionLevel : number) (st : App.State),
    App.now e - App.lastCaptureTime st < App.cooldownPeriod st ->
    App.onMotionDetected e motionLevel st = st /\
    App.lastCaptureTime (App.onMotionDetected e motionLevel st)
      = App.lastCaptureTime st /\
    App.alerts (App.onMotionDetected e motionLevel st) = App.alerts st /\
    App.captures (App.onMotionDetected e motionLevel st) = App.captures st /\
    App.sessionCaptures (App.onMotionDetected e motionLevel st)
      = App.sessionCaptures st /\
    (forall e' level',
        App.onMotionDetected e' level' (App.onMotionDetected e motionLevel st)
        = App.onMotionDetected e' level' st).
Proof.
  intros e motionLevel st H.
  rewrite (onMotionDetected_suppressed e motionLevel st H).
  repeat split; reflexivity.
Qed.

Lemma cooldown_suppression_changes_nothing_witness :
  App.now (App.ready 3000 [white])
    - App.lastCaptureTime (App.watching [black])
    < App.cooldownPeriod (App.watching [black]) /\
  App.onMotionDetected (App.ready 3000 [white]) (of_Z 100)
    (App.watching [black]) = App.watching [black].
Proof.
  split.
  - reflexivity.
  - apply (cooldown_suppression_changes_nothing
             (App.ready 3000 [white]) (of_Z 100) (App.watching [black])).
    reflexivity.
Defined.

(** C7: a frame supplied while no previous frame is stored becomes the
    stored frame; the comparison block is skipped, so no motion percentage
    is computed, the trigger handler is not reached and no alert or capture
    is produced. *)
Theorem first_frame_only_sets_baseline :
  forall (e : App.Env) (st : App.State) (frame : ImageData),
    App.lastFrame st = None ->
    App.hasMotionContext e = true ->
    App.video e = Some frame ->
    App.lastFrame (App.detectMotion e st) = Some frame /\
    App.measuredMotion st frame = None /\
    App.qualifies e st = false /\
    App.alerts (App.detectMotion e st) = App.alerts st /\
    App.captures (App.detectMotion e st) = App.captures st /\
    App.sessionCaptures (App.detectMotion e st) = App.sessionCaptures st /\
    App.lastCaptureTime (App.detectMotion e st) = App.lastCaptureTime st.
Proof.
  intros e st frame Hl Hc Hv.
  rewrite (detectMotion_first e st frame Hc Hv Hl).
  unfold App.qualifies, App.measuredMotion. rewrite Hl, Hc, Hv.
  repeat split; try reflexivity.
  destruct (App.motionDetectionActive st); reflexivity.
Qed.

Lemma first_frame_only_sets_baseline_witness :
  App.lastFrame App.monitoring = None /\
  App.lastFrame (App.detectMotion (App.ready 1000 [white]) App.monitoring)
    = Some [white] /\
  App.alerts (App.detectMotion (App.ready 1000 [white]) App.monitoring) = [].
Proof.
  split; [ reflexivity | ].
  destruct (first_frame_only_sets_baseline
              (App.ready 1000 [white]) App.monitoring [white]
              eq_refl eq_refl eq_refl) as (H1 & _ & _ & H4 & _).
  split; [ exact H1 | exact H4 ].
Defined.

(** C2: a cycle that has a stored frame of the size of the current one
    computes for each pixel [(|R1-R2| + |G1-G2| + |B1-B2|) / 3], counts the
    pixel as changed exactly when that exceeds [(100 - sensitivity) * 2.55],
    and hands [changedCount / totalPixelCount * 100] to the test against
    the area threshold and, through the handler, to the alert it raises.
    The frame these differences are taken against is the stored one, and
    that is the previous frame as the loop painted it: the second of two
    identical camera frames is compared with the painted first.  A white
    frame that follows a black one and is followed by the same white frame
    measures 100 the second time, not 0, and raises another alert. *)
Theorem motion_percentage_is_changed_over_total :
  (forall (e : App.Env) (st : App.State) (frame last : ImageData),
      App.motionDetectionActive st = true ->
      App.hasMotionContext e = true ->
      App.video e = Some frame ->
      App.lastFrame st = Some last ->
      length last = length frame ->
      let changed := App.pixelChanged (pixelThreshold (App.sensitivity st)) in
      let pct :=
        mul (div (of_Z (App.changedCount (App.sensitivity st) frame last))
                 (of_Z (Z.of_nat (length frame)))) hundred in
      (forall c l, changed c (Some l) = App.exceeds (App.sensitivity st) (c, l))
      /\
      fst (App.compareLoop (pixelThreshold (App.sensitivity st)) frame last 0)
        = App.changedCount (App.sensitivity st) frame last /\
      App.measuredMotion st frame = Some pct /\
      App.qualifies e st = gt pct (App.motionThreshold st) /\
      (gt pct (App.motionThreshold st) = true ->
       App.cooldownPeriod st <= App.now e - App.lastCaptureTime st ->
       App.alerts (App.tick e st)
         = App.mkAlert (App.alertId e) pct false :: App.alerts st) /\
      (gt pct (App.motionThreshold st) = false ->
       App.alerts (App.tick e st) = App.alerts st) /\
      App.lastFrame (App.tick e st) = Some (paintChanged changed frame last) /\
      App.measuredMotion (App.tick e st) frame
        = Some (App.motionPercentage
                  (countChanged changed frame
                     (paintChanged changed frame last))
                  (Z.of_nat (length frame)))) /\
  (let st := App.set_sensitivity (of_Z 50) (App.watching [black]) in
   let second := App.ready 1700000000100 [white] in
   let third := App.ready 1700000006000 [white] in
   App.video third = App.video second /\
   App.lastFrame (App.tick second st) = Some [pureRed] /\
   App.measuredMotion (App.tick second st) [white] = Some (of_Z 100) /\
   App.measuredMotion (App.tick second st) [white] <> Some zero /\
   App.qualifies third (App.tick second st) = true /\
   map App.alert_id (App.alerts (App.tick third (App.tick second st)))
     = [1700000006000; 1700000000100]).
Proof.
  split.
  - intros e st frame last Ha Hc Hv Hl Hlen changed pct. subst changed.
    destruct (detectMotion_cycle e st frame last Hc Hv Hl) as [Hm Hd].
    cbv zeta in Hm, Hd.
    assert (App.tick e st = App.detectMotion e st) as Htick
      by (unfold App.tick; rewrite Ha, Hv; reflexivity).
    assert (App.motionPercentage
              (countChanged
                 (App.pixelChanged (pixelThreshold (App.sensitivity st)))
                 frame last)
              (Z.of_nat (length frame)) = pct) as Hpct.
    { unfold App.motionPercentage, pct.
      rewrite (countChanged_changedCount _ _ _ Hlen). reflexivity. }
    rewrite Hpct in Hm, Hd.
    split; [ reflexivity | ].
    split.
    { rewrite app_compareLoop_spec. simpl fst.
      rewrite (countChanged_changedCount _ _ _ Hlen). lia. }
    split; [ exact Hm | ].
    split.
    { unfold App.qualifies. rewrite Ha, Hc, Hv, Hm. reflexivity. }
    split.
    { intros Hgt Hcool. rewrite Htick, Hd, Hgt.
      rewrite onMotionDetected_canvas.
      destruct (onMotionDetected_emits e pct st Hcool) as [Hal _].
      exact Hal. }
    split.
    { intros Hgt. rewrite Htick, Hd, Hgt. reflexivity. }
    assert (App.lastFrame (App.tick e st)
            = Some (paintChanged
                      (App.pixelChanged (pixelThreshold (App.sensitivity st)))
                      frame last)) as Hstored
      by (rewrite Htick, Hd; reflexivity).
    split; [ exact Hstored | ].
    unfold App.measuredMotion. rewrite Hstored.
    destruct (tick_config e st) as (_ & _ & -> & _).
    rewrite app_compareLoop_spec. reflexivity.
  - cbv zeta. repeat split; try (vm_compute; reflexivity).
    vm_compute. discriminate.
Qed.

Lemma motion_percentage_is_changed_over_total_witness :
  let st := App.watching [black; black; white; black] in
  let e := App.ready 1700000000000 [white; black; white; white] in
  App.motionDetectionActive st = true /\
  App.measuredMotion st [white; black; white; white] = Some (of_Z 50) /\
  gt (of_Z 50) (App.motionThreshold st) = true /\
  App.alerts (App.tick e st)
    = [App.mkAlert 1700000000000 (of_Z 50) false].
Proof.
  cbv zeta.
  destruct motion_percentage_is_changed_over_total as [H _].
  destruct (H (App.ready 1700000000000 [white; black; white; white])
              (App.watching [black; black; white; black])
              [white; black; white; white] [black; black; white; black]
              eq_refl eq_refl eq_refl eq_refl eq_refl)
    as (_ & _ & Hm & _ & Hemit & _).
  assert (mul (div (of_Z (App.changedCount
                            (App.sensitivity
                               (App.watching [black; black; white; black]))
                            [white; black; white; white]
                            [black; black; white; black]))
                   (of_Z (Z.of_nat (length [white; black; white; white]))))
              hundred = of_Z 50) as Hpct by (vm_compute; reflexivity).
  rewrite Hpct in Hm, Hemit.
  split; [ reflexivity | ]. split; [ exact Hm | ].
  split; [ vm_compute; reflexivity | ].
  apply Hemit; [ vm_compute; reflexivity | vm_compute; discriminate ].
Defined.

(** The worked example on [MotionSecurityCamera]: the red pixel differs from
    black by (255 + 0 + 0) / 3 = 85, which is below the threshold, so the
    count is 0 and not 1, the percentage 0 and not 25, and nothing fires at
    an area threshold of 2 although the detector is out of cooldown. *)
Lemma worked_example_on_averaging_variant :
  let st := App.set_sensitivity (of_Z 50) (App.watching allBlack2x2) in
  let e := App.ready 1700000000000 oneRed2x2 in
  App.totalDiff pureRed (Some black) = of_Z 85 /\
  App.compareLoop (pixelThreshold (of_Z 50)) oneRed2x2 allBlack2x2 0
    = (0, oneRed2x2) /\
  fst (App.compareLoop (pixelThreshold (of_Z 50)) oneRed2x2 allBlack2x2 0)
    <> 1 /\
  App.measuredMotion st oneRed2x2 = Some zero /\
  App.measuredMotion st oneRed2x2 <> Some (of_Z 25) /\
  App.motionThreshold st = of_Z 2 /\
  App.cooldownPeriod st <= App.now e - App.lastCaptureTime st /\
  App.alerts (App.detectMotion e st) = [].
Proof.
  cbv zeta. repeat split; try (vm_compute; reflexivity);
    vm_compute; discriminate.
Qed.

(** C3, as the code has it: on the 2x2 example (previous frame black, one
    pure red pixel, sensitivity 50, threshold 50 * 2.55 just below 127.5)
    the variant that sums the channel differences counts 1 changed pixel and
    measures 25, which is above its fixed trigger level 0.5 and raises an
    alert; the variant that averages them finds a difference of 85, counts
    0 changed pixels, measures 0 and raises no alert, at an area threshold
    of 2 as at 50. *)
Theorem worked_example_per_variant :
  lt (pixelThreshold (of_Z 50)) (div (of_Z 255) (of_Z 2)) = true /\
  (* sum variant *)
  Intro.totalDiff pureRed (Some black) = of_Z 255 /\
  Intro.compareLoop (pixelThreshold (of_Z 50)) oneRed2x2 allBlack2x2 0
    = (1, oneRed2x2) /\
  Intro.measuredMotion (Intro.watching (of_Z 50) allBlack2x2) oneRed2x2
    = Some (of_Z 25) /\
  Intro.alerts (Intro.detectMotion (Intro.ready 1700000000000 oneRed2x2)
                  (Intro.watching (of_Z 50) allBlack2x2))
    = [1700000000000] /\
  (* averaging variant *)
  App.totalDiff pureRed (Some black) = of_Z 85 /\
  App.compareLoop (pixelThreshold (of_Z 50)) oneRed2x2 allBlack2x2 0
    = (0, oneRed2x2) /\
  App.measuredMotion (App.set_sensitivity (of_Z 50) (App.watching allBlack2x2))
    oneRed2x2 = Some zero /\
  App.alerts
    (App.detectMotion (App.ready 1700000000000 oneRed2x2)
       (App.set_motionThreshold (of_Z 2)
          (App.set_sensitivity (of_Z 50) (App.watching allBlack2x2)))) = [] /\
  App.alerts
    (App.detectMotion (App.ready 1700000000000 oneRed2x2)
       (App.set_motionThreshold (of_Z 50)
          (App.set_sensitivity (of_Z 50) (App.watching allBlack2x2)))) = [].
Proof.
  repeat split; vm_compute; reflexivity.
Qed.

Lemma intro_detectMotion_cycle e st frame last :
  Intro.hasMotionContext e = true -> Intro.video e = Some frame ->
  Intro.lastFrame st = Some last ->
  Intro.lastFrame (Intro.detectMotion e st)
  = Some (paintChanged
            (Intro.pixelChanged (pixelThreshold (Intro.sensitivity st)))
            frame last).
Proof.
  intros Hc Hv Hl. unfold Intro.detectMotion. rewrite Hc, Hv, Hl.
  rewrite intro_compareLoop_spec. reflexivity.
Qed.

Lemma paintChanged_none changed cur : forall last,
  countChanged changed cur last = 0 -> paintChanged changed cur last = cur.
Proof.
  induction cur as [ | c rest IH ]; intros last H; simpl in *.
  - reflexivity.
  - pose proof (countChanged_range changed rest (tl last)) as Hr.
    destruct (changed c (hd_error last)); [ lia | ].
    rewrite IH by lia. reflexivity.
Qed.

(** What a cycle that had a stored frame stores for the next one: the
    current frame as the loop left it.  Each pixel counted as changed holds
    (255, 0, 0) with its alpha, every other pixel holds its original value,
    and the whole frame equals the input when no pixel was counted.  This
    holds whether or not an event was triggered, in both variants. *)
Lemma stored_frame_is_the_painted_frame :
  (forall (e : App.Env) (st : App.State) (frame last : ImageData),
      App.hasMotionContext e = true ->
      App.video e = Some frame ->
      App.lastFrame st = Some last ->
      let changed := App.pixelChanged (pixelThreshold (App.sensitivity st)) in
      App.lastFrame (App.detectMotion e st)
        = Some (paintChanged changed frame last) /\
      length (paintChanged changed frame last) = length frame /\
      (forall k c,
          nth_error frame k = Some c ->
          nth_error (paintChanged changed frame last) k
          = Some (if changed c (nth_error last k) then highlight c else c)) /\
      (fst (App.compareLoop (pixelThreshold (App.sensitivity st)) frame last 0)
         = 0 ->
       App.lastFrame (App.detectMotion e st) = Some frame)) /\
  (forall (e : Intro.Env) (st : Intro.State) (frame last : ImageData),
      Intro.hasMotionContext e = true ->
      Intro.video e = Some frame ->
      Intro.lastFrame st = Some last ->
      let changed :=
        Intro.pixelChanged (pixelThreshold (Intro.sensitivity st)) in
      Intro.lastFrame (Intro.detectMotion e st)
        = Some (paintChanged changed frame last) /\
      length (paintChanged changed frame last) = length frame /\
      (forall k c,
          nth_error frame k = Some c ->
          nth_error (paintChanged changed frame last) k
          = Some (if changed c (nth_error last k) then highlight c else c)) /\
      (fst (Intro.compareLoop (pixelThreshold (Intro.sensitivity st))
              frame last 0) = 0 ->
       Intro.lastFrame (Intro.detectMotion e st) = Some frame)).
Proof.
  split.
  - intros e st frame last Hc Hv Hl changed.
    destruct (detectMotion_cycle e st frame last Hc Hv Hl) as [_ Hd].
    cbv zeta in Hd. fold changed in Hd.
    assert (App.lastFrame (App.detectMotion e st)
            = Some (paintChanged changed frame last)) as Hstored
      by (rewrite Hd; reflexivity).
    split; [ exact Hstored | ].
    split; [ apply paintChanged_length | ].
    split; [ intros k c Hk; apply paintChanged_nth; exact Hk | ].
    rewrite app_compareLoop_spec. simpl fst. intros H0.
    rewrite Hstored. f_equal. apply paintChanged_none.
    fold changed in H0. lia.
  - intros e st frame last Hc Hv Hl changed.
    pose proof (intro_detectMotion_cycle e st frame last Hc Hv Hl) as Hstored.
    fold changed in Hstored.
    split; [ exact Hstored | ].
    split; [ apply paintChanged_length | ].
    split; [ intros k c Hk; apply paintChanged_nth; exact Hk | ].
    rewrite intro_compareLoop_spec. simpl fst. intros H0.
    rewrite Hstored. f_equal. apply paintChanged_none.
    fold changed in H0. lia.
Qed.

(** C4: the frame stored for the next cycle should be the current frame as
    supplied.  The code stores what it reads back from the canvas after the
    painted frame was put there ([src/app.js]), or the painted object itself
    ([src/intro.js]): a white pixel that follows a black one is counted as
    changed, painted, and stored as (255, 0, 0), not as the white pixel the
    camera supplied. *)
Theorem stored_frame_holds_painted_pixels :
  App.video (App.ready 1700000000000 [white]) = Some [white] /\
  App.lastFrame (App.detectMotion (App.ready 1700000000000 [white])
                   (App.watching [black])) = Some [pureRed] /\
  App.lastFrame (App.detectMotion (App.ready 1700000000000 [white])
                   (App.watching [black])) <> Some [white] /\
  Intro.lastFrame (Intro.detectMotion (Intro.ready 1700000000000 [white])
                     (Intro.watching (of_Z 50) [black])) = Some [pureRed] /\
  Intro.lastFrame (Intro.detectMotion (Intro.ready 1700000000000 [white])
                     (Intro.watching (of_Z 50) [black])) <> Some [white].
Proof.
  repeat split; try (vm_compute; reflexivity); vm_compute; discriminate.
Qed.

(** Within one cycle the painting is invisible to the decision: started from
    the same state, the routine and the routine without the three writes
    count the same pixels, measure the same percentage and leave the same
    alerts, captures and trigger time.  They differ in the canvas and in the
    frame they store. *)
Lemma painting_is_invisible_within_a_cycle :
  forall (e : App.Env) (st : App.State),
    (forall frame,
        App.measuredMotion st frame = App.measuredMotion_plain st frame) /\
    App.alerts (App.detectMotion e st)
      = App.alerts (App.detectMotion_plain e st) /\
    App.captures (App.detectMotion e st)
      = App.captures (App.detectMotion_plain e st) /\
    App.sessionCaptures (App.detectMotion e st)
      = App.sessionCaptures (App.detectMotion_plain e st) /\
    App.lastCaptureTime (App.detectMotion e st)
      = App.lastCaptureTime (App.detectMotion_plain e st).
Proof.
  intros e st. split.
  { intros frame. unfold App.measuredMotion, App.measuredMotion_plain.
    destruct (App.lastFrame st); [ | reflexivity ].
    now rewrite app_compareLoop_spec, app_compareLoop_plain_spec. }
  unfold App.detectMotion, App.detectMotion_plain.
  destruct (App.hasMotionContext e); [ | repeat split; reflexivity ].
  destruct (App.video e) as [frame | ]; [ | repeat split; reflexivity ].
  simpl. destruct (App.lastFrame st) as [last | ];
    [ | repeat split; reflexivity ].
  rewrite app_compareLoop_spec, app_compareLoop_plain_spec. simpl.
  destruct (gt _ _); [ | repeat split; reflexivity ].
  rewrite !onMotionDetected_canvas. repeat split; reflexivity.
Qed.

(** C5: painting the changed pixels should not influence any measured
    percentage or trigger decision.  It does, from the next cycle on,
    because the painted frame is the one that gets stored.  Camera frames
    black, white, white at sensitivity 50: the third cycle compares white
    with the red left by the second, measures 100 and raises a second
    alert; with the writes removed it compares white with white, measures 0
    and raises none. *)
Theorem painting_changes_later_decisions :
  let st := App.set_sensitivity (of_Z 50) App.monitoring in
  let cycles :=
    [ App.ready 1700000000000 [black];
      App.ready 1700000000100 [white];
      App.ready 1700000006000 [white] ] in
  App.measuredMotion (App.run (firstn 2 cycles) st) [white]
    = Some (of_Z 100) /\
  App.measuredMotion_plain (App.run_plain (firstn 2 cycles) st) [white]
    = Some zero /\
  map App.alert_id (App.alerts (App.run cycles st))
    = [1700000006000; 1700000000100] /\
  map App.alert_id (App.alerts (App.run_plain cycles st))
    = [1700000000100].
Proof.
  cbv zeta. repeat split; vm_compute; reflexivity.
Qed.

Lemma channel_inj a b : channel a = channel b -> a = b.
Proof.
  unfold channel. intros H. apply N2Z.inj in H.
  pose proof (Byte.of_to_N a) as Ha. rewrite H, Byte.of_to_N in Ha.
  congruence.
Qed.

(** Two pixels whose colours differ have a positive sum of differences. *)
Lemma sumDiff_positive c l :
  red c <> red l \/ green c <> green l \/ blue c <> blue l ->
  0 < sumDiff c l.
Proof.
  intros H. unfold sumDiff, rDiff, gDiff, bDiff, absDiff.
  destruct H as [H | [H | H]].
  - assert (channel (red c) <> channel (red l))
      by (intros E; apply H, channel_inj, E). lia.
  - assert (channel (green c) <> channel (green l))
      by (intros E; apply H, channel_inj, E). lia.
  - assert (channel (blue c) <> channel (blue l))
      by (intros E; apply H, channel_inj, E). lia.
Qed.

(** With a threshold of exactly 255 the averaging variant would count no
    pixel at all: the average of three channel differences is at most
    255. *)
Lemma app_changed_at_255 c l :
  App.pixelChanged (of_Z 255) c (Some l) = false.
Proof.
  unfold App.pixelChanged, App.totalDiff.
  pose proof (sumDiff_range c l) as Hr.
  apply eqb_prop.
  apply (all_upto_spec
           (fun z => Bool.eqb (gt (div (of_Z z) three) (of_Z 255)) false) 765);
    [ vm_compute; reflexivity | exact Hr ].
Qed.

(** C6: at sensitivity 100 the per-pixel threshold is 0 and every pixel
    with a difference in some channel counts as changed, in both variants.
    At sensitivity 0 the threshold should be 255, under which the
    averaging variant would count nothing.  What the code computes is
    [100 * 2.55], which in binary64 is the number just below 255 (2.55 has
    no exact binary representation and the product rounds down): a pixel
    whose three channels all differ by 255 averages exactly 255 and is
    counted.  A white frame after a black one measures 100 and raises an
    alert.  The summing variant compares the sum of the three differences,
    up to 765, with the same threshold and counts every pixel whose
    differences add up to 255 or more. *)
Theorem sensitivity_extremes :
  pixelThreshold (of_Z 100) = zero /\
  (forall c l,
      red c <> red l \/ green c <> green l \/ blue c <> blue l ->
      App.pixelChanged (pixelThreshold (of_Z 100)) c (Some l) = true /\
      Intro.pixelChanged (pixelThreshold (of_Z 100)) c (Some l) = true) /\
  pixelThreshold (of_Z 0) <> of_Z 255 /\
  lt (pixelThreshold (of_Z 0)) (of_Z 255) = true /\
  (forall c l, App.pixelChanged (of_Z 255) c (Some l) = false) /\
  (forall c l,
      App.pixelChanged (pixelThreshold (of_Z 0)) c (Some l)
      = (sumDiff c l =? 765)) /\
  (forall c l,
      Intro.pixelChanged (pixelThreshold (of_Z 0)) c (Some l)
      = (255 <=? sumDiff c l)) /\
  (let st := App.set_sensitivity (of_Z 0) (App.watching [black]) in
   let e := App.ready 1700000000000 [white] in
   App.totalDiff white (Some black) = of_Z 255 /\
   App.pixelChanged (pixelThreshold (App.sensitivity st)) white (Some black)
     = true /\
   App.measuredMotion st [white] = Some (of_Z 100) /\
   App.qualifies e st = true /\
   map App.alert_id (App.alerts (App.tick e st)) = [1700000000000]) /\
  (let st := Intro.watching (of_Z 0) [black] in
   let e := Intro.ready 1700000000000 [white] in
   Intro.totalDiff white (Some black) = of_Z 765 /\
   Intro.measuredMotion st [white] = Some (of_Z 100) /\
   Intro.alerts (Intro.tick e st) = [1700000000000]).
Proof.
  split; [ exact pixelThreshold_100 | ].
  split.
  { intros c l H. apply sumDiff_positive in H.
    rewrite app_changed_at_100, intro_changed_at_100.
    split; apply Z.ltb_lt; exact H. }
  split; [ vm_compute; discriminate | ].
  split; [ vm_compute; reflexivity | ].
  split; [ exact app_changed_at_255 | ].
  split; [ exact app_changed_at_0 | ].
  split; [ exact intro_changed_at_0 | ].
  split; cbv zeta; repeat split; vm_compute; reflexivity.
Qed.

Lemma sensitivity_extremes_witness :
  red pureRed <> red black /\
  App.pixelChanged (pixelThreshold (of_Z 100)) pureRed (Some black) = true /\
  Intro.pixelChanged (pixelThreshold (of_Z 100)) pureRed (Some black) = true.
Proof.
  assert (red pureRed <> red black) as Hne by discriminate.
  split; [ exact Hne | ].
  destruct sensitivity_extremes as (_ & H100 & _).
  apply (H100 pureRed black). left. exact Hne.
Defined.

Lemma tick_inactive e st :
  App.motionDetectionActive st = false -> App.tick e st = st.
Proof. intros H. unfold App.tick. rewrite H. reflexivity. Qed.

Lemma run_inactive es st :
  App.motionDetectionActive st = false -> App.run es st = st.
Proof.
  intros H. induction es as [ | e es IH ]; simpl.
  - reflexivity.
  - rewrite (tick_inactive e st H). exact IH.
Qed.

(** A tick with no stored frame raises nothing, whatever the frame. *)
Lemma tick_without_stored_frame e st :
  App.lastFrame st = None ->
  App.alerts (App.tick e st) = App.alerts st /\
  App.captures (App.tick e st) = App.captures st /\
  App.sessionCaptures (App.tick e st) = App.sessionCaptures st /\
  App.lastCaptureTime (App.tick e st) = App.lastCaptureTime st.
Proof.
  intros Hl. unfold App.tick.
  destruct (App.motionDetectionActive st); [ | repeat split; reflexivity ].
  destruct (App.video e) as [frame | ] eqn:Hv; [ | repeat split; reflexivity ].
  unfold App.detectMotion. rewrite Hv.
  destruct (App.hasMotionContext e); [ | repeat split; reflexivity ].
  simpl. rewrite Hl. repeat split; reflexivity.
Qed.

(** Three pages on which switching detection off keeps the stored frame.
    Without the status element the handler returns right after flipping the
    flag: the frame survives switching off and on, and the first frame
    afterwards, white after the stale black, raises an alert.  Without the
    text of the button the first write of the branch throws.  With the
    black screen up and its instructions missing, lifting the screen
    throws; here too the first frame after switching on again raises an
    alert. *)
Lemma toggle_without_status_keeps_frame :
  let start := (App.watching [black], BlackScreen.initial) in
  let off :=
    BlackScreen.toggleMotionDetection App.pageWithoutStatus
      BlackScreen.fullDom false start in
  let on :=
    BlackScreen.toggleMotionDetection App.pageWithoutStatus
      BlackScreen.fullDom false off in
  let noText := BlackScreen.mkDom true false in
  App.motionDetectionActive (fst start) = true /\
  App.motionDetectionActive (fst off) = false /\
  App.lastFrame (fst off) = Some [black] /\
  App.motionDetectionActive (fst on) = true /\
  map App.alert_id
    (App.alerts (App.tick (App.ready 1700000000000 [white]) (fst on)))
    = [1700000000000] /\
  App.lastFrame
    (fst (BlackScreen.toggleMotionDetection App.pageWithoutToggleText
            BlackScreen.fullDom false start)) = Some [black] /\
  App.lastFrame
    (fst (BlackScreen.steps App.fullPage noText
            [BlackScreen.Toggle true;
             BlackScreen.Frame (App.ready 1700000000000 [black]);
             BlackScreen.Toggle true]
            (App.initial, BlackScreen.initial))) = Some [black] /\
  map App.alert_id
    (App.alerts
       (fst (BlackScreen.steps App.fullPage noText
               [BlackScreen.Toggle true;
                BlackScreen.Frame (App.ready 1700000000000 [black]);
                BlackScreen.Toggle true;
                BlackScreen.Toggle true;
                BlackScreen.Frame (App.ready 1700000009000 [white])]
               (App.initial, BlackScreen.initial))))
    = [1700000009000].
Proof.
  cbv zeta. repeat split; vm_compute; reflexivity.
Qed.

(** C8, as the code has it: switching detection from enabled to disabled
    clears the stored frame when the toggle button, the text inside it and
    the status element are found and the black screen, if it is up, can be
    lifted (its overlay is missing or its instructions are there).  Nothing
    runs while detection is off, so after switching it on again, on
    whatever page, the first cycle has no stored frame and raises no event,
    whatever frame it is given. *)
Theorem disabling_clears_stored_frame :
  forall (page : App.Dom) (d : BlackScreen.Dom) (stealth : bool)
         (st : App.State) (s : BlackScreen.Screen),
    App.hasToggleButton page = true ->
    App.hasDetectionStatus page = true ->
    App.hasToggleText page = true ->
    (BlackScreen.blackScreenActive s = true ->
     BlackScreen.hasOverlay d = true -> BlackScreen.hasText d = true) ->
    App.motionDetectionActive st = true ->
    let off := BlackScreen.toggleMotionDetection page d stealth (st, s) in
    App.motionDetectionActive (fst off) = false /\
    App.lastFrame (fst off) = None /\
    (forall (idle : list App.Env) (page' : App.Dom) (d' : BlackScreen.Dom)
            (stealth' : bool) (s' : BlackScreen.Screen) (e : App.Env),
        let on :=
          BlackScreen.toggleMotionDetection page' d' stealth'
            (App.run idle (fst off), s') in
        App.motionDetectionActive (fst on) = true /\
        App.lastFrame (fst on) = None /\
        App.qualifies e (fst on) = false /\
        App.alerts (App.tick e (fst on)) = App.alerts st /\
        App.captures (App.tick e (fst on)) = App.captures st /\
        App.lastCaptureTime (App.tick e (fst on)) = App.lastCaptureTime st).
Proof.
  intros page d stealth st s Hb Hs Ht Hlift Ha off.
  assert (fst off
          = App.set_lastFrame None (App.set_motionDetectionActive false st))
    as Hoff.
  { unfold off, BlackScreen.toggleMotionDetection. cbn [fst snd].
    rewrite Hb, Hs, Ht, Ha. cbn [negb orb App.motionDetectionActive
                                  App.set_motionDetectionActive].
    destruct (BlackScreen.blackScreenActive s) eqn:Hup; cbn [andb];
      [ | reflexivity ].
    destruct (BlackScreen.hasOverlay d) eqn:Ho; cbn [andb];
      [ | reflexivity ].
    rewrite (Hlift eq_refl eq_refl). reflexivity. }
  rewrite Hoff. split; [ reflexivity | ]. split; [ reflexivity | ].
  intros idle page' d' stealth' s' e on.
  assert (fst on
          = App.set_motionDetectionActive true
              (App.set_lastFrame None
                 (App.set_motionDetectionActive false st))) as Hon.
  { unfold on. rewrite run_inactive by reflexivity.
    unfold BlackScreen.toggleMotionDetection. cbn [fst snd].
    cbn [negb App.motionDetectionActive App.set_motionDetectionActive
         App.set_lastFrame].
    destruct (negb (App.hasToggleButton page')
              || negb (App.hasDetectionStatus page')); [ reflexivity | ].
    destruct (negb (App.hasToggleText page')); reflexivity. }
  rewrite Hon.
  set (st' := App.set_motionDetectionActive true _).
  assert (App.lastFrame st' = None) as Hl by reflexivity.
  destruct (tick_without_stored_frame e st' Hl) as (H1 & H2 & _ & H4).
  rewrite H1, H2, H4.
  repeat split; trivial.
  unfold App.qualifies, App.measuredMotion. rewrite Hl.
  change (App.motionDetectionActive st') with true.
  destruct (App.hasMotionContext e); [ | reflexivity ].
  destruct (App.video e); reflexivity.
Qed.

Lemma disabling_clears_stored_frame_witness :
  App.hasToggleButton App.fullPage = true /\
  App.hasDetectionStatus App.fullPage = true /\
  App.hasToggleText App.fullPage = true /\
  App.motionDetectionActive (App.watching [black]) = true /\
  App.lastFrame
    (fst (BlackScreen.toggleMotionDetection App.fullPage BlackScreen.fullDom
            false (App.watching [black], BlackScreen.initial))) = None /\
  App.alerts
    (App.tick (App.ready 1700000000000 [white])
       (fst (BlackScreen.toggleMotionDetection App.fullPage
               BlackScreen.fullDom false
               (App.run [App.ready 1600000000000 [white]]
                  (fst (BlackScreen.toggleMotionDetection App.fullPage
                          BlackScreen.fullDom false
                          (App.watching [black], BlackScreen.initial))),
                BlackScreen.initial))))
    = [].
Proof.
  assert (BlackScreen.blackScreenActive BlackScreen.initial = true ->
          BlackScreen.hasOverlay BlackScreen.fullDom = true ->
          BlackScreen.hasText BlackScreen.fullDom = true) as Hlift
    by (intros _ _; reflexivity).
  destruct (disabling_clears_stored_frame App.fullPage BlackScreen.fullDom
              false (App.watching [black]) BlackScreen.initial
              eq_refl eq_refl eq_refl Hlift eq_refl) as (_ & Hl & Hafter).
  split; [ reflexivity | ]. split; [ reflexivity | ].
  split; [ reflexivity | ]. split; [ reflexivity | ].
  split; [ exact Hl | ].
  destruct (Hafter [App.ready 1600000000000 [white]] App.fullPage
              BlackScreen.fullDom false BlackScreen.initial
              (App.ready 1700000000000 [white])) as (_ & _ & _ & H & _).
  exact H.
Defined.





(** ** Runs of cycles and the cooldown *)

Section Cooldown_facts.

Import App.

(** One tick raises at most one alert, and only when the cooldown has
    elapsed since [lastCaptureTime], which it then moves to its clock. *)
Lemma tick_alerts e st :
  (alerts (tick e st) = alerts st /\
   lastCaptureTime (tick e st) = lastCaptureTime st) \/
  (exists level,
      alerts (tick e st) = mkAlert (alertId e) level false :: alerts st /\
      lastCaptureTime (tick e st) = now e /\
      cooldownPeriod st <= now e - lastCaptureTime st).
Proof.
  unfold tick.
  destruct (motionDetectionActive st); [ | left; split; reflexivity ].
  destruct (video e) as [frame | ] eqn:Hv; [ | left; split; reflexivity ].
  destruct (hasMotionContext e) eqn:Hc;
    [ | unfold detectMotion; rewrite Hc; left; split; reflexivity ].
  destruct (lastFrame st) as [last | ] eqn:Hl.
  - destruct (detectMotion_cycle e st frame last Hc Hv Hl) as [_ Hd].
    cbv zeta in Hd. rewrite Hd. clear Hd.
    destruct (gt _ _); [ | left; split; reflexivity ].
    rewrite onMotionDetected_canvas.
    set (pct := motionPercentage _ _).
    destruct (Z.lt_ge_cases (now e - lastCaptureTime st) (cooldownPeriod st))
      as [Hcool | Hcool].
    + rewrite (onMotionDetected_suppressed e pct st Hcool).
      left; split; reflexivity.
    + destruct (onMotionDetected_emits e pct st Hcool) as [Ha Ht].
      right. exists pct. simpl.
      rewrite Ha, Ht. repeat split; trivial.
  - rewrite (detectMotion_first e st frame Hc Hv Hl).
    left; split; reflexivity.
Qed.

(** The trigger time a tick contributes. *)
Lemma triggerTimes_cons e es st :
  triggerTimes (e :: es) st
  = triggerTimes es (tick e st)
    ++ (if (length (alerts st) <? length (alerts (tick e st)))%nat
        then [now e] else []).
Proof. reflexivity. Qed.

Lemma tick_trigger e st :
  (alerts (tick e st) = alerts st /\
   lastCaptureTime (tick e st) = lastCaptureTime st /\
   triggerTimes [e] st = []) \/
  (exists level,
      alerts (tick e st) = mkAlert (alertId e) level false :: alerts st /\
      lastCaptureTime (tick e st) = now e /\
      cooldownPeriod st <= now e - lastCaptureTime st /\
      triggerTimes [e] st = [now e]).
Proof.
  destruct (tick_alerts e st) as [[Ha Ht] | (level & Ha & Ht & Hcool)].
  - left. split; [ exact Ha | ]. split; [ exact Ht | ].
    cbn [triggerTimes app]. rewrite Ha, Nat.ltb_irrefl. reflexivity.
  - right. exists level. split; [ exact Ha | ]. split; [ exact Ht | ].
    split; [ exact Hcool | ].
    cbn [triggerTimes app]. rewrite Ha. cbn [length].
    rewrite (proj2 (Nat.ltb_lt _ _) (Nat.lt_succ_diag_r _)). reflexivity.
Qed.

Lemma separatedBy_snoc c new a :
  separatedBy c new ->
  Forall (fun x => c <= x - a) new ->
  separatedBy c (new ++ [a]).
Proof.
  unfold separatedBy. intros Hsep Hall.
  induction Hsep as [ | x l Hx Hl IH ]; simpl.
  - constructor; constructor.
  - inversion Hall as [ | ? ? Hxa Hla ]; subst.
    constructor.
    + apply Forall_app. split; [ exact Hx | ].
      constructor; [ exact Hxa | constructor ].
    + apply IH. exact Hla.
Qed.

Lemma hd_snoc {A : Type} (d a : A) (l : list A) :
  hd d (l ++ [a]) = hd a l.
Proof. destruct l; reflexivity. Qed.

(** The trigger times of a run: pairwise separated by the cooldown,
    separated from the trigger time the run started with, clock values of
    the run; each of them stands for one alert added, and the newest is
    the trigger time the run ends with. *)
Lemma run_triggers es : forall st,
  clockAdvances es ->
  separatedBy (cooldownPeriod st) (triggerTimes es st) /\
  Forall (fun t => cooldownPeriod st <= t - lastCaptureTime st)
    (triggerTimes es st) /\
  Forall (fun t => In t (map now es)) (triggerTimes es st) /\
  length (alerts (run es st))
    = (length (triggerTimes es st) + length (alerts st))%nat /\
  lastCaptureTime (run es st)
    = hd (lastCaptureTime st) (triggerTimes es st).
Proof.
  unfold clockAdvances.
  induction es as [ | e es IH ]; intros st Hsorted.
  - repeat split; constructor.
  - simpl in Hsorted. apply StronglySorted_inv in Hsorted.
    destruct Hsorted as [Htail Hhead].
    destruct (IH (tick e st) Htail) as (Hsep & Hlast & Hin & Hlen & Hend).
    destruct (tick_config e st) as (Hcfg & _). rewrite Hcfg in Hsep, Hlast.
    change (run (e :: es) st) with (run es (tick e st)).
    rewrite triggerTimes_cons.
    destruct (tick_trigger e st)
      as [(Ha & Ht & _) | (level & Ha & Ht & Hcool & _)].
    + rewrite Ha, Nat.ltb_irrefl, app_nil_r.
      rewrite Ha in Hlen. rewrite Ht in Hlast, Hend.
      repeat split; trivial.
      eapply Forall_impl; [ | exact Hin ]. intros x Hx. right. exact Hx.
    + rewrite Ha. cbn [length].
      rewrite (proj2 (Nat.ltb_lt _ _) (Nat.lt_succ_diag_r _)).
      rewrite Ha in Hlen. cbn [length] in Hlen.
      rewrite Ht in Hlast, Hend.
      split; [ apply separatedBy_snoc; assumption | ].
      split.
      { apply Forall_app. split.
        - rewrite Forall_forall in Hin, Hhead, Hlast |- *.
          intros x Hx. specialize (Hhead _ (Hin x Hx)).
          specialize (Hlast x Hx). simpl in Hlast. lia.
        - constructor; [ exact Hcool | constructor ]. }
      split.
      { apply Forall_app. split.
        - eapply Forall_impl; [ | exact Hin ]. intros x Hx. right. exact Hx.
        - constructor; [ left; reflexivity | constructor ]. }
      split.
      { rewrite Hlen, length_app. cbn [length]. lia. }
      rewrite Hend, hd_snoc. reflexivity.
Qed.

(** A qualifying cycle, decided by the cooldown alone. *)
Lemma qualifying_tick e st :
  qualifies e st = true ->
  (cooldownPeriod st <= now e - lastCaptureTime st ->
   map alert_id (alerts (tick e st)) = alertId e :: map alert_id (alerts st) /\
   lastCaptureTime (tick e st) = now e /\
   triggerTimes [e] st = [now e]) /\
  (now e - lastCaptureTime st < cooldownPeriod st ->
   alerts (tick e st) = alerts st /\
   lastCaptureTime (tick e st) = lastCaptureTime st /\
   triggerTimes [e] st = []).
Proof.
  intros Hq.
  assert (alerts (tick e st)
          = alerts (onMotionDetected e
                      (motionPercentage
                         (countChanged
                            (pixelChanged (pixelThreshold (sensitivity st)))
                            match video e with Some f => f | None => [] end
                            match lastFrame st with
                            | Some l => l | None => [] end)
                         (Z.of_nat
                            (length match video e with
                                    | Some f => f | None => [] end)))
                      st) /\
          lastCaptureTime (tick e st)
          = lastCaptureTime (onMotionDetected e
                      (motionPercentage
                         (countChanged
                            (pixelChanged (pixelThreshold (sensitivity st)))
                            match video e with Some f => f | None => [] end
                            match lastFrame st with
                            | Some l => l | None => [] end)
                         (Z.of_nat
                            (length match video e with
                                    | Some f => f | None => [] end)))
                      st)) as [Hal Hlt].
  { unfold qualifies, tick in *.
    destruct (motionDetectionActive st); [ | discriminate ].
    destruct (hasMotionContext e) eqn:Hc; [ | discriminate ].
    destruct (video e) as [frame | ] eqn:Hv; [ | discriminate ].
    destruct (lastFrame st) as [last | ] eqn:Hl;
      [ | unfold measuredMotion in Hq; rewrite Hl in Hq; discriminate ].
    destruct (detectMotion_cycle e st frame last Hc Hv Hl) as [Hm Hd].
    cbv zeta in Hm, Hd. rewrite Hm in Hq. rewrite Hd, Hq.
    rewrite onMotionDetected_canvas. split; reflexivity. }
  set (pct := motionPercentage _ _) in Hal, Hlt.
  split; intros Hcool.
  - destruct (onMotionDetected_emits e pct st Hcool) as [Ha Ht].
    rewrite Ha in Hal. rewrite Ht in Hlt.
    split; [ rewrite Hal; reflexivity | ]. split; [ exact Hlt | ].
    cbn [triggerTimes app]. rewrite Hal. cbn [length].
    rewrite (proj2 (Nat.ltb_lt _ _) (Nat.lt_succ_diag_r _)). reflexivity.
  - rewrite (onMotionDetected_suppressed e pct st Hcool) in Hal, Hlt.
    split; [ exact Hal | ]. split; [ exact Hlt | ].
    cbn [triggerTimes app]. rewrite Hal, Nat.ltb_irrefl. reflexivity.
Qed.

End Cooldown_facts.

(** C1: an event is emitted when a callback reaches the trigger handler
    with the cooldown elapsed; its time is the clock [now] the handler
    tested, which becomes [lastCaptureTime].  Over any run of cycles whose
    clock does not go backwards these trigger times are pairwise at least
    one cooldown apart, and as far from the trigger time the run started
    with, however many cycles exceed the area threshold in between; every
    one of them adds one alert.  A qualifying cycle emits as soon as the
    cooldown has elapsed since the last trigger time, and not before.
    With a cooldown of 5000 ms and a detector out of cooldown at [t0],
    qualifying cycles at [t0], [t0 + 3000] and [t0 + 5001] emit exactly
    two events, at [t0] and [t0 + 5001].  While detection is disabled a
    cycle does nothing at all. *)
Theorem at_most_one_event_per_cooldown :
  (forall (es : list App.Env) (st : App.State),
      App.clockAdvances es ->
      App.separatedBy (App.cooldownPeriod st) (App.triggerTimes es st) /\
      Forall (fun t => App.cooldownPeriod st <= t - App.lastCaptureTime st)
        (App.triggerTimes es st) /\
      length (App.alerts (App.run es st))
        = (length (App.triggerTimes es st) + length (App.alerts st))%nat /\
      App.lastCaptureTime (App.run es st)
        = hd (App.lastCaptureTime st) (App.triggerTimes es st)) /\
  (forall (e : App.Env) (st : App.State),
      App.qualifies e st = true ->
      (App.cooldownPeriod st <= App.now e - App.lastCaptureTime st ->
       map App.alert_id (App.alerts (App.tick e st))
         = App.alertId e :: map App.alert_id (App.alerts st) /\
       App.lastCaptureTime (App.tick e st) = App.now e /\
       App.triggerTimes [e] st = [App.now e]) /\
      (App.now e - App.lastCaptureTime st < App.cooldownPeriod st ->
       App.alerts (App.tick e st) = App.alerts st /\
       App.lastCaptureTime (App.tick e st) = App.lastCaptureTime st /\
       App.triggerTimes [e] st = [])) /\
  (forall (st : App.State) (e1 e2 e3 : App.Env) (t0 : Z),
      App.cooldownPeriod st = 5000 ->
      5000 <= t0 - App.lastCaptureTime st ->
      App.now e1 = t0 ->
      App.now e2 = t0 + 3000 ->
      App.now e3 = t0 + 5001 ->
      App.qualifies e1 st = true ->
      App.qualifies e2 (App.tick e1 st) = true ->
      App.qualifies e3 (App.tick e2 (App.tick e1 st)) = true ->
      App.triggerTimes [e1; e2; e3] st = [t0 + 5001; t0] /\
      map App.alert_id (App.alerts (App.run [e1; e2; e3] st))
      = [App.alertId e3; App.alertId e1] ++ map App.alert_id (App.alerts st)) /\
  (forall (es : list App.Env) (e : App.Env) (st : App.State),
      App.motionDetectionActive st = false ->
      App.tick e st = st /\ App.run es st = st /\
      App.triggerTimes es st = []).
Proof.
  split; [ | split; [ | split ] ].
  - intros es st Hclock.
    destruct (run_triggers es st Hclock) as (H1 & H2 & _ & H4 & H5).
    repeat split; assumption.
  - exact qualifying_tick.
  - intros st e1 e2 e3 t0 Hc Hout H1 H2 H3 Hq1 Hq2 Hq3.
    change (App.run [e1; e2; e3] st)
      with (App.tick e3 (App.tick e2 (App.tick e1 st))).
    destruct (tick_config e1 st) as (Hc1 & _).
    destruct (tick_config e2 (App.tick e1 st)) as (Hc2 & _).
    destruct (qualifying_tick e1 st Hq1) as [Hemit1 _].
    destruct Hemit1 as (Ha1 & Ht1 & Hg1); [ lia | ].
    destruct (qualifying_tick e2 _ Hq2) as [_ Hquiet2].
    destruct Hquiet2 as (Ha2 & Ht2 & Hg2); [ lia | ].
    destruct (qualifying_tick e3 _ Hq3) as [Hemit3 _].
    destruct Hemit3 as (Ha3 & _ & Hg3); [ lia | ].
    split.
    + rewrite triggerTimes_cons, triggerTimes_cons.
      change (App.triggerTimes [e3] (App.tick e2 (App.tick e1 st))
              ++ (if (length (App.alerts (App.tick e1 st))
                      <? length (App.alerts (App.tick e2 (App.tick e1 st))))%nat
                  then [App.now e2] else []))
        with (App.triggerTimes [e3] (App.tick e2 (App.tick e1 st))
              ++ App.triggerTimes [e2] (App.tick e1 st)).
      change (if (length (App.alerts st)
                  <? length (App.alerts (App.tick e1 st)))%nat
              then [App.now e1] else [])
        with (App.triggerTimes [e1] st).
      rewrite Hg3, Hg2, Hg1, H1, H3. reflexivity.
    + rewrite Ha3, Ha2, Ha1. reflexivity.
  - intros es e st H. split; [ apply tick_inactive; exact H | ].
    split; [ apply run_inactive; exact H | ].
    induction es as [ | e' es IH ]; [ reflexivity | ].
    rewrite triggerTimes_cons, (tick_inactive e' st H), IH, Nat.ltb_irrefl.
    reflexivity.
Qed.

Lemma at_most_one_event_per_cooldown_witness :
  let st := App.set_sensitivity (of_Z 100) (App.watching [black]) in
  let e1 := App.ready 1700000000000 [white] in
  let e2 := App.ready 1700000003000 [black] in
  let e3 := App.ready 1700000005001 [white] in
  App.clockAdvances [e1; e2; e3] /\
  App.qualifies e1 st = true /\
  App.qualifies e2 (App.tick e1 st) = true /\
  App.qualifies e3 (App.tick e2 (App.tick e1 st)) = true /\
  App.triggerTimes [e1; e2; e3] st = [1700000005001; 1700000000000] /\
  App.separatedBy 5000 (App.triggerTimes [e1; e2; e3] st).
Proof.
  cbv zeta.
  destruct at_most_one_event_per_cooldown as (Hrun & _ & Hexample & _).
  assert (App.clockAdvances
            [App.ready 1700000000000 [white]; App.ready 1700000003000 [black];
             App.ready 1700000005001 [white]]) as Hclock.
  { unfold App.clockAdvances. simpl.
    repeat (constructor; [ | repeat (constructor; try discriminate) ]).
    constructor. }
  split; [ exact Hclock | ].
  split; [ vm_compute; reflexivity | ].
  split; [ vm_compute; reflexivity | ].
  split; [ vm_compute; reflexivity | ].
  split.
  - apply (Hexample (App.set_sensitivity (of_Z 100) (App.watching [black]))
             (App.ready 1700000000000 [white])
             (App.ready 1700000003000 [black])
             (App.ready 1700000005001 [white]) 1700000000000);
      try reflexivity; try (vm_compute; reflexivity).
    vm_compute. discriminate.
  - destruct (Hrun _ (App.set_sensitivity (of_Z 100) (App.watching [black]))
                Hclock) as (Hsep & _).
    exact Hsep.
Defined.

(** ** Further properties of the code *)

(** *** Storage management *)

Section Storage_facts.

Import App.

Lemma firstn_length_le {A : Type} (n : nat) (l : list A) :
  (length (firstn n l) <= n)%nat.
Proof. rewrite length_firstn. apply Nat.le_min_l. Qed.

Lemma filter_length_le {A : Type} (p : A -> bool) (l : list A) :
  (length (filter p l) <= length l)%nat.
Proof.
  induction l as [ | a l IH ]; simpl; [ lia | ].
  destruct (p a); simpl; lia.
Qed.

(** The captures [manageStorage] leaves, written out. *)
Lemma manageStorage_captures e st :
  captures (manageStorage e st) =
  let len := Z.of_nat (length (captures st)) in
  let kept :=
    if maxStorageImages st <? len
    then firstn (Z.to_nat (if maxStorageImages st <? 0
                           then Z.max (len + maxStorageImages st) 0
                           else maxStorageImages st)) (captures st)
    else captures st in
  match retentionCutoff e with
  | Some cutoff => filter (fun c => cutoff <? capture_timestamp c) kept
  | None => kept
  end.
Proof.
  unfold manageStorage. cbv zeta.
  destruct (maxStorageImages st <? _); destruct (retentionCutoff e);
    reflexivity.
Qed.

Lemma sublist_refl {A : Type} (l : list A) : sublist l l.
Proof.
  induction l; [ apply sublist_nil | apply sublist_keep; assumption ].
Qed.

Lemma sublist_nil_l {A : Type} (l : list A) : sublist [] l.
Proof.
  induction l; [ apply sublist_nil | apply sublist_skip; assumption ].
Qed.

Lemma sublist_trans {A : Type} (l1 l2 l3 : list A) :
  sublist l1 l2 -> sublist l2 l3 -> sublist l1 l3.
Proof.
  intros H12 H23. revert l1 H12.
  induction H23 as [ | x l2 l3 H23 IH | x l2 l3 H23 IH ]; intros l1 H12.
  - exact H12.
  - constructor. apply IH. exact H12.
  - inversion H12 as [ | y k1 k2 Hk | y k1 k2 Hk ]; subst.
    + apply sublist_skip. apply IH. exact Hk.
    + apply sublist_keep. apply IH. exact Hk.
Qed.

Lemma sublist_firstn {A : Type} (l : list A) : forall n, sublist (firstn n l) l.
Proof.
  induction l as [ | a l IH ]; intros n.
  - destruct n; constructor.
  - destruct n as [ | n ]; [ apply sublist_nil_l | ].
    simpl. apply sublist_keep. apply IH.
Qed.

Lemma sublist_filter {A : Type} (p : A -> bool) (l : list A) :
  sublist (filter p l) l.
Proof.
  induction l as [ | a l IH ]; simpl; [ constructor | ].
  destruct (p a); [ apply sublist_keep | apply sublist_skip ]; exact IH.
Qed.

Lemma sublist_length {A : Type} (l1 l2 : list A) :
  sublist l1 l2 -> (length l1 <= length l2)%nat.
Proof. induction 1; simpl; lia. Qed.

(** When the save returns and when it does not. *)
Lemma saveCaptures_written_eq fuel setItem st :
  setItem (firstn 10 (captures st)) = Written ->
  saveCaptures (S fuel) setItem st
  = Returned st (Some (firstn 10 (captures st))).
Proof. intros H. cbn -[firstn]. rewrite H. reflexivity. Qed.

Lemma saveCaptures_other_eq fuel setItem st :
  setItem (firstn 10 (captures st)) = OtherFailure ->
  saveCaptures (S fuel) setItem st = Returned st None.
Proof. intros H. cbn -[firstn]. rewrite H. reflexivity. Qed.

Lemma saveCaptures_quota_eq fuel setItem st :
  setItem (firstn 10 (captures st)) = QuotaExceeded ->
  saveCaptures (S fuel) setItem st
  = saveCaptures fuel setItem (set_captures (firstn 5 (captures st)) st).
Proof. intros H. cbn -[firstn]. rewrite H. reflexivity. Qed.

Lemma saveCaptures_returns fuel setItem st :
  (2 <= fuel)%nat ->
  setItem (firstn 5 (captures st)) <> QuotaExceeded ->
  exists st' w, saveCaptures fuel setItem st = Returned st' w.
Proof.
  intros Hf H5. destruct fuel as [ | [ | fuel ] ]; [ lia | lia | ].
  destruct (setItem (firstn 10 (captures st))) eqn:H10.
  - rewrite saveCaptures_written_eq by exact H10. eauto.
  - rewrite saveCaptures_quota_eq by exact H10.
    destruct (setItem (firstn 5 (captures st))) eqn:H5'.
    + rewrite saveCaptures_written_eq; [ eauto | ].
      cbn -[firstn]. rewrite firstn_10_of_5. exact H5'.
    + congruence.
    + rewrite saveCaptures_other_eq; [ eauto | ].
      cbn -[firstn]. rewrite firstn_10_of_5. exact H5'.
  - rewrite saveCaptures_other_eq by exact H10. eauto.
Qed.


End Storage_facts.



(** X2: [manageStorage] only removes: what it leaves is the list it found
    with some captures left out, the others in the order they had.  When
    the auto-delete box is ticked every capture left has a timestamp after
    the cutoff; without it, a list within the limit is left as it is. *)
Theorem storage_management_only_removes :
  forall (e : App.Env) (st : App.State),
    sublist (App.captures (App.manageStorage e st)) (App.captures st) /\
    (forall cutoff,
        App.retentionCutoff e = Some cutoff ->
        Forall (fun c => cutoff < App.capture_timestamp c)
          (App.captures (App.manageStorage e st))) /\
    (App.retentionCutoff e = None ->
     Z.of_nat (length (App.captures st)) <= App.maxStorageImages st ->
     App.manageStorage e st = st).
Proof.
  intros e st. split; [ | split ].
  - rewrite manageStorage_captures. cbv zeta.
    set (len := Z.of_nat (length (App.captures st))).
    set (kept := if App.maxStorageImages st <? len then _ else _).
    assert (sublist kept (App.captures st)) as Hkept.
    { unfold kept. destruct (App.maxStorageImages st <? len);
        [ apply sublist_firstn | apply sublist_refl ]. }
    destruct (App.retentionCutoff e); [ | exact Hkept ].
    eapply sublist_trans; [ apply sublist_filter | exact Hkept ].
  - intros cutoff Hc. rewrite manageStorage_captures, Hc. cbv zeta.
    apply Forall_forall. intros x Hx.
    apply filter_In in Hx. destruct Hx as [_ Hx]. apply Z.ltb_lt. exact Hx.
  - intros Hc Hlen. unfold App.manageStorage. rewrite Hc.
    destruct (Z.ltb_spec (App.maxStorageImages st)
                (Z.of_nat (length (App.captures st)))); [ lia | reflexivity ].
Qed.

Lemma storage_management_only_removes_witness :
  let e :=
    App.mkEnv 1700000000000 None true true (Some 1699395200000)
      1700000000000 1700000000000 1700000000000 (fun _ => App.Written) 1000 in
  let st :=
    App.set_captures
      (map App.captureAt [1699999000000; 1699000000000]) App.initial in
  App.retentionCutoff e = Some 1699395200000 /\
  App.captures (App.manageStorage e st)
    = map App.captureAt [1699999000000] /\
  Forall (fun c => 1699395200000 < App.capture_timestamp c)
    (App.captures (App.manageStorage e st)).
Proof.
  cbv zeta. split; [ reflexivity | ]. split; [ reflexivity | ].
  destruct (storage_management_only_removes
              (App.mkEnv 1700000000000 None true true (Some 1699395200000)
                 1700000000000 1700000000000 1700000000000
                 (fun _ => App.Written) 1000)
              (App.set_captures
                 (map App.captureAt [1699999000000; 1699000000000])
                 App.initial)) as (_ & H & _).
  apply (H 1699395200000). reflexivity.
Defined.

(** X3: a negative [maxStorageImages], which nothing prevents, does not
    empty the list: [splice] counts a negative index from the end, so each
    pass of [manageStorage] removes the oldest [-maxStorageImages] captures
    and keeps the rest. *)
Theorem negative_limit_drops_the_oldest :
  forall (e : App.Env) (st : App.State),
    App.maxStorageImages st < 0 ->
    App.retentionCutoff e = None ->
    App.captures (App.manageStorage e st)
      = firstn (Z.to_nat (Z.of_nat (length (App.captures st))
                          + App.maxStorageImages st))
          (App.captures st) /\
    Z.of_nat (length (App.captures (App.manageStorage e st)))
      = Z.max (Z.of_nat (length (App.captures st)) + App.maxStorageImages st) 0.
Proof.
  intros e st Hneg Hcut. rewrite manageStorage_captures, Hcut. cbv zeta.
  set (len := Z.of_nat (length (App.captures st))).
  destruct (Z.ltb_spec (App.maxStorageImages st) len) as [_ | Hge]; [ | lia ].
  destruct (Z.ltb_spec (App.maxStorageImages st) 0) as [_ | Hge]; [ | lia ].
  replace (Z.to_nat (Z.max (len + App.maxStorageImages st) 0))
    with (Z.to_nat (len + App.maxStorageImages st)) by lia.
  split; [ reflexivity | ].
  rewrite length_firstn. unfold len. lia.
Qed.

Lemma negative_limit_drops_the_oldest_witness :
  App.maxStorageImages
    (App.set_maxStorageImages (-1)
       (App.set_captures (map App.captureAt [30; 20; 10]) App.initial))
    < 0 /\
  App.captures
    (App.manageStorage (App.ready 40 [black])
       (App.set_maxStorageImages (-1)
          (App.set_captures (map App.captureAt [30; 20; 10]) App.initial)))
    = map App.captureAt [30; 20].
Proof.
  split; [ reflexivity | ].
  destruct (negative_limit_drops_the_oldest (App.ready 40 [black])
              (App.set_maxStorageImages (-1)
                 (App.set_captures (map App.captureAt [30; 20; 10])
                    App.initial)))
    as [H _]; [ reflexivity | reflexivity | ].
  rewrite H. reflexivity.
Defined.

(** *** Frames of different sizes *)

Section Mismatch_facts.

Variable changed : Pixel -> option Pixel -> bool.

(** A test that rejects a pixel with no counterpart in the stored frame. *)
Hypothesis changed_needs_counterpart : forall c, changed c None = false.

Lemma countChanged_within_stored cur : forall last,
  countChanged changed cur last <= Z.of_nat (length last).
Proof.
  induction cur as [ | c rest IH ]; intros last; simpl countChanged.
  - lia.
  - destruct last as [ | l last' ]; simpl hd_error; simpl tl.
    + rewrite changed_needs_counterpart. specialize (IH []). simpl in IH. lia.
    + specialize (IH last'). simpl length.
      destruct (changed c (Some l)); lia.
Qed.

Lemma paintChanged_beyond_stored cur : forall last k,
  (length last <= k)%nat ->
  nth_error (paintChanged changed cur last) k = nth_error cur k.
Proof.
  induction cur as [ | c rest IH ]; intros last k Hk.
  - reflexivity.
  - destruct last as [ | l last' ]; simpl.
    + rewrite changed_needs_counterpart.
      destruct k as [ | k ]; [ reflexivity | ].
      simpl. apply IH. simpl. lia.
    + destruct k as [ | k ]; [ simpl in Hk; lia | ].
      simpl. apply IH. simpl in Hk. lia.
Qed.

Lemma marking_ignores_surplus cur : forall last,
  countChanged changed cur last
    = countChanged changed cur (firstn (length cur) last) /\
  paintChanged changed cur last
    = paintChanged changed cur (firstn (length cur) last).
Proof.
  induction cur as [ | c rest IH ]; intros last.
  - split; reflexivity.
  - destruct last as [ | l last' ]; simpl.
    + split; reflexivity.
    + destruct (IH last') as [IH1 IH2]. rewrite <- IH1, <- IH2.
      split; reflexivity.
Qed.

End Mismatch_facts.

(** Comparisons with NaN are false. *)
Lemma gt_NaN_l x : gt NaN x = false.
Proof. destruct x as [ [ | ] | [ | ] | | [ | ] m e ]; reflexivity. Qed.

Lemma gt_NaN_r x : gt x NaN = false.
Proof. reflexivity. Qed.

(** X4: when the stored frame and the current frame differ in size (the
    canvas was resized between two cycles), the loop compares them index by
    index.  A pixel past the end of the stored frame reads [undefined], its
    difference is NaN, and it is neither counted nor painted, so at most as
    many pixels are counted as the stored frame has; stored pixels past the
    end of the current frame are ignored.  The frame stored afterwards has
    the size of the current one.  Both variants. *)
Theorem size_mismatch_is_compared_index_by_index :
  forall (thr : number) (frame last : ImageData),
    fst (App.compareLoop thr frame last 0) <= Z.of_nat (length last) /\
    fst (Intro.compareLoop thr frame last 0) <= Z.of_nat (length last) /\
    (forall k, (length last <= k)%nat ->
       nth_error (snd (App.compareLoop thr frame last 0)) k = nth_error frame k
       /\
       nth_error (snd (Intro.compareLoop thr frame last 0)) k
         = nth_error frame k) /\
    App.compareLoop thr frame last 0
      = App.compareLoop thr frame (firstn (length frame) last) 0 /\
    Intro.compareLoop thr frame last 0
      = Intro.compareLoop thr frame (firstn (length frame) last) 0 /\
    (forall (e : App.Env) (st : App.State),
        App.hasMotionContext e = true -> App.video e = Some frame ->
        exists stored,
          App.lastFrame (App.detectMotion e st) = Some stored /\
          length stored = length frame).
Proof.
  intros thr frame last.
  assert (forall c, App.pixelChanged thr c None = false) as Happ
    by (intros c; apply gt_NaN_l).
  assert (forall c, Intro.pixelChanged thr c None = false) as Hintro
    by (intros c; apply gt_NaN_l).
  rewrite !app_compareLoop_spec, !intro_compareLoop_spec. simpl fst. simpl snd.
  split; [ apply countChanged_within_stored; exact Happ | ].
  split; [ apply countChanged_within_stored; exact Hintro | ].
  split.
  { intros k Hk.
    split; apply paintChanged_beyond_stored; assumption. }
  split.
  { destruct (marking_ignores_surplus (App.pixelChanged thr) frame last)
      as [H1 H2]. rewrite <- H1, <- H2. reflexivity. }
  split.
  { destruct (marking_ignores_surplus (Intro.pixelChanged thr) frame last)
      as [H1 H2]. rewrite <- H1, <- H2. reflexivity. }
  intros e st Hc Hv.
  destruct (App.lastFrame st) as [old | ] eqn:Hl.
  - destruct (detectMotion_cycle e st frame old Hc Hv Hl) as [_ Hd].
    cbv zeta in Hd. rewrite Hd. eexists. split; [ reflexivity | ].
    apply paintChanged_length.
  - rewrite (detectMotion_first e st frame Hc Hv Hl).
    exists frame. split; reflexivity.
Qed.

Lemma size_mismatch_is_compared_index_by_index_witness :
  App.hasMotionContext (App.ready 1700000000000 [white; white; white]) = true
  /\
  fst (App.compareLoop (pixelThreshold (of_Z 30)) [white; white; white]
         [black] 0) = 1 /\
  App.lastFrame (App.detectMotion (App.ready 1700000000000 [white; white; white])
                   (App.watching [black]))
    = Some [pureRed; white; white].
Proof.
  split; [ reflexivity | ].
  destruct (size_mismatch_is_compared_index_by_index
              (pixelThreshold (of_Z 30)) [white; white; white] [black])
    as (Hle & _ & _ & _ & _ & Hstored).
  split.
  - assert (1 <= fst (App.compareLoop (pixelThreshold (of_Z 30))
                        [white; white; white] [black] 0))
      by (vm_compute; discriminate).
    simpl length in Hle. lia.
  - destruct (Hstored (App.ready 1700000000000 [white; white; white])
                (App.watching [black]) eq_refl eq_refl) as (stored & Hs & _).
    vm_compute. reflexivity.
Defined.

(** *** Resetting, silent configurations, what a run leaves alone *)

(** X5: [clearMotionArea] forgets the stored frame and blanks the canvas
    without resizing it; the next cycle, whatever frame it gets, only
    stores that frame: no alert, no capture, no change of the trigger
    time. *)
Theorem clearing_the_area_restarts_the_baseline :
  forall (st : App.State) (e : App.Env),
    App.lastFrame (App.clearMotionArea st) = None /\
    length (App.motionCanvas (App.clearMotionArea st))
      = length (App.motionCanvas st) /\
    Forall (fun p => p = mkPixel Byte.x00 Byte.x00 Byte.x00 Byte.x00)
      (App.motionCanvas (App.clearMotionArea st)) /\
    App.qualifies e (App.clearMotionArea st) = false /\
    App.alerts (App.tick e (App.clearMotionArea st)) = App.alerts st /\
    App.captures (App.tick e (App.clearMotionArea st)) = App.captures st /\
    App.lastCaptureTime (App.tick e (App.clearMotionArea st))
      = App.lastCaptureTime st /\
    (App.motionDetectionActive st = true ->
     App.hasMotionContext e = true ->
     forall frame, App.video e = Some frame ->
       App.lastFrame (App.tick e (App.clearMotionArea st)) = Some frame).
Proof.
  intros st e.
  assert (App.lastFrame (App.clearMotionArea st) = None) as Hl by reflexivity.
  destruct (tick_without_stored_frame e (App.clearMotionArea st) Hl)
    as (H1 & H2 & _ & H4).
  split; [ exact Hl | ].
  split; [ unfold App.clearMotionArea; simpl; apply length_map | ].
  split.
  { unfold App.clearMotionArea. simpl. apply Forall_forall. intros p Hp.
    apply in_map_iff in Hp. destruct Hp as (q & Hq & _). symmetry. exact Hq. }
  split.
  { unfold App.qualifies, App.measuredMotion. rewrite Hl.
    destruct (App.motionDetectionActive _); [ | reflexivity ].
    destruct (App.hasMotionContext e); [ | reflexivity ].
    destruct (App.video e); reflexivity. }
  rewrite H1, H2, H4.
  repeat split; try reflexivity.
  intros Ha Hc frame Hv. unfold App.tick.
  change (App.motionDetectionActive (App.clearMotionArea st))
    with (App.motionDetectionActive st).
  rewrite Ha, Hv.
  rewrite (detectMotion_first e _ frame Hc Hv Hl). reflexivity.
Qed.

Lemma clearing_the_area_restarts_the_baseline_witness :
  App.motionDetectionActive (App.watching [black]) = true /\
  App.lastFrame (App.tick (App.ready 1700000000000 [white])
                   (App.clearMotionArea (App.watching [black])))
    = Some [white] /\
  App.alerts (App.tick (App.ready 1700000000000 [white])
                (App.clearMotionArea (App.watching [black]))) = [].
Proof.
  split; [ reflexivity | ].
  destruct (clearing_the_area_restarts_the_baseline (App.watching [black])
              (App.ready 1700000000000 [white]))
    as (_ & _ & _ & _ & Ha & _ & _ & Hf).
  split; [ apply (Hf eq_refl eq_refl [white] eq_refl) | exact Ha ].
Defined.

(** X6: a configuration value that is not a number silences the detector.
    With an area threshold of NaN (a threshold field [parseFloat] cannot
    read) no cycle ever reaches the trigger handler, whatever the frames;
    with a sensitivity of NaN the per-pixel threshold is NaN, no pixel is
    counted, and a non-empty frame measures 0. *)
Theorem nan_configuration_silences_detection :
  (forall (e : App.Env) (st : App.State),
      App.motionThreshold st = NaN ->
      App.qualifies e st = false /\
      App.alerts (App.tick e st) = App.alerts st /\
      App.captures (App.tick e st) = App.captures st /\
      App.lastCaptureTime (App.tick e st) = App.lastCaptureTime st) /\
  (forall (st : App.State) (frame last : ImageData),
      App.sensitivity st = NaN ->
      App.lastFrame st = Some last ->
      frame <> [] ->
      fst (App.compareLoop (pixelThreshold (App.sensitivity st)) frame last 0)
        = 0 /\
      App.measuredMotion st frame = Some zero).
Proof.
  split.
  - intros e st Hnan.
    assert (App.qualifies e st = false) as Hq.
    { unfold App.qualifies. rewrite Hnan.
      destruct (App.motionDetectionActive st); [ | reflexivity ].
      destruct (App.hasMotionContext e); [ | reflexivity ].
      destruct (App.video e); [ | reflexivity ].
      destruct (App.measuredMotion st i); reflexivity. }
    split; [ exact Hq | ].
    unfold App.tick.
    destruct (App.motionDetectionActive st); [ | repeat split; reflexivity ].
    destruct (App.video e) as [frame | ] eqn:Hv;
      [ | repeat split; reflexivity ].
    destruct (App.hasMotionContext e) eqn:Hc;
      [ | unfold App.detectMotion; rewrite Hc; repeat split; reflexivity ].
    destruct (App.lastFrame st) as [last | ] eqn:Hl.
    + destruct (detectMotion_cycle e st frame last Hc Hv Hl) as [_ Hd].
      cbv zeta in Hd. rewrite Hd, Hnan. rewrite gt_NaN_r.
      repeat split; reflexivity.
    + rewrite (detectMotion_first e st frame Hc Hv Hl).
      repeat split; reflexivity.
  - intros st frame last Hs Hl Hne.
    assert (forall cur old,
              countChanged (App.pixelChanged (pixelThreshold NaN)) cur old = 0)
      as Hcount.
    { assert (forall c l, App.pixelChanged (pixelThreshold NaN) c l = false)
        as Hno by reflexivity.
      induction cur as [ | c rest IH ]; intros old;
        cbn [countChanged]; [ reflexivity | ].
      rewrite IH, Hno. reflexivity. }
    rewrite Hs. rewrite app_compareLoop_spec. simpl fst.
    rewrite Hcount. split; [ reflexivity | ].
    unfold App.measuredMotion. rewrite Hl, Hs, app_compareLoop_spec.
    simpl fst. rewrite Hcount. f_equal.
    apply motionPercentage_none.
    destruct frame; [ congruence | simpl length; lia ].
Qed.

Lemma nan_configuration_silences_detection_witness :
  App.motionThreshold (App.set_motionThreshold NaN (App.watching [black]))
    = NaN /\
  App.alerts (App.tick (App.ready 1700000000000 [white])
                (App.set_motionThreshold NaN (App.watching [black]))) = [] /\
  App.measuredMotion (App.set_sensitivity NaN (App.watching [black])) [white]
    = Some zero.
Proof.
  destruct nan_configuration_silences_detection as [Hthr Hsens].
  split; [ reflexivity | ]. split.
  - destruct (Hthr (App.ready 1700000000000 [white])
                (App.set_motionThreshold NaN (App.watching [black])) eq_refl)
      as (_ & H & _). exact H.
  - destruct (Hsens (App.set_sensitivity NaN (App.watching [black]))
                [white] [black] eq_refl eq_refl) as [_ H];
      [ discriminate | exact H ].
Defined.

Section Run_facts.

Import App.

Lemma run_cons e es st : run (e :: es) st = run es (tick e st).
Proof. reflexivity. Qed.

Lemma run_config es : forall st,
  cooldownPeriod (run es st) = cooldownPeriod st /\
  motionThreshold (run es st) = motionThreshold st /\
  sensitivity (run es st) = sensitivity st /\
  motionDetectionActive (run es st) = motionDetectionActive st.
Proof.
  induction es as [ | e es IH ]; intros st.
  - repeat split; reflexivity.
  - rewrite run_cons.
    destruct (IH (tick e st)) as (H1 & H2 & H3 & H4).
    destruct (tick_config e st) as (T1 & T2 & T3 & T4).
    rewrite H1, H2, H3, H4. repeat split; assumption.
Qed.

Lemma tick_maxStorageImages e st :
  maxStorageImages (tick e st) = maxStorageImages st.
Proof.
  unfold tick.
  destruct (motionDetectionActive st); [ | reflexivity ].
  destruct (video e) as [frame | ] eqn:Hv; [ | reflexivity ].
  unfold detectMotion. rewrite Hv.
  destruct (hasMotionContext e); [ | reflexivity ].
  simpl. destruct (lastFrame st) as [last | ]; [ | reflexivity ].
  destruct (compareLoop _ _ _ _) as [n painted]. simpl.
  destruct (gt _ _); [ | reflexivity ].
  unfold onMotionDetected. simpl. destruct (_ <? _); [ reflexivity | ].
  match goal with
  | |- context [ captureMotionImage e ?s ] =>
      destruct (captureMotionImage_shape e s) as (c & k & ->)
  end.
  reflexivity.
Qed.

(** One tick adds nothing or one unread alert stamped with the clock. *)
Lemma tick_new_alert e st :
  alerts (tick e st) = alerts st \/
  exists level,
    alerts (tick e st) = mkAlert (alertId e) level false :: alerts st /\
    video e <> None.
Proof.
  unfold tick.
  destruct (motionDetectionActive st); [ | left; reflexivity ].
  destruct (video e) as [frame | ] eqn:Hv; [ | left; reflexivity ].
  destruct (hasMotionContext e) eqn:Hc;
    [ | unfold detectMotion; rewrite Hc; left; reflexivity ].
  destruct (lastFrame st) as [last | ] eqn:Hl.
  - destruct (detectMotion_cycle e st frame last Hc Hv Hl) as [_ Hd].
    cbv zeta in Hd. rewrite Hd. clear Hd.
    destruct (gt _ _); [ | left; reflexivity ].
    rewrite onMotionDetected_canvas.
    set (pct := motionPercentage _ _).
    destruct (Z.lt_ge_cases (now e - lastCaptureTime st) (cooldownPeriod st))
      as [Hcool | Hcool].
    + rewrite (onMotionDetected_suppressed e pct st Hcool). left; reflexivity.
    + destruct (onMotionDetected_emits e pct st Hcool) as [Ha _].
      right. exists pct. simpl. rewrite Ha. split; [ reflexivity | discriminate ].
  - rewrite (detectMotion_first e st frame Hc Hv Hl). left; reflexivity.
Qed.

End Run_facts.

(** X7: detection cycles never reconfigure the detector: over any run of
    timer callbacks the sensitivity, the area threshold, the cooldown, the
    image limit and the enabled flag are what they were at the start. *)
Theorem cycles_never_change_the_configuration :
  forall (es : list App.Env) (st : App.State),
    App.sensitivity (App.run es st) = App.sensitivity st /\
    App.motionThreshold (App.run es st) = App.motionThreshold st /\
    App.cooldownPeriod (App.run es st) = App.cooldownPeriod st /\
    App.maxStorageImages (App.run es st) = App.maxStorageImages st /\
    App.motionDetectionActive (App.run es st) = App.motionDetectionActive st.
Proof.
  intros es st.
  destruct (run_config es st) as (H1 & H2 & H3 & H4).
  repeat split; trivial.
  clear H1 H2 H3 H4.
  revert st. induction es as [ | e es IH ]; intros st; [ reflexivity | ].
  rewrite run_cons, IH. apply tick_maxStorageImages.
Qed.

(** X8: detection only ever puts new alerts in front of the list.  After
    any run the alerts that were there are still there, unchanged and in
    the same order, behind the new ones; every new alert is unread and
    stamped with the clock as a callback that had a frame ready read it
    for the alert, and there are at most as many new alerts as such
    callbacks. *)
Theorem cycles_only_prepend_unread_alerts :
  forall (es : list App.Env) (st : App.State),
    exists new,
      App.alerts (App.run es st) = new ++ App.alerts st /\
      Forall (fun a => App.alert_read a = false) new /\
      Forall (fun a => exists e, In e es /\ App.video e <> None /\
                                 App.alert_id a = App.alertId e) new /\
      (length new
       <= length (filter (fun e => match App.video e with
                                   | Some _ => true
                                   | None => false
                                   end) es))%nat.
Proof.
  induction es as [ | e es IH ]; intros st.
  - exists []. repeat split; constructor.
  - rewrite run_cons.
    destruct (IH (App.tick e st)) as (new & Hnew & Hread & Hfrom & Hlen).
    assert (Forall (fun a => exists e0, In e0 (e :: es) /\
                       App.video e0 <> None /\
                       App.alert_id a = App.alertId e0) new)
      as Hfrom'.
    { eapply Forall_impl; [ | exact Hfrom ].
      intros a (e0 & Hin & Hv & Hid). exists e0.
      split; [ right; exact Hin | split; assumption ]. }
    destruct (tick_new_alert e st) as [Ha | (level & Ha & Hv)].
    + exists new. rewrite Hnew, Ha.
      split; [ reflexivity | ]. split; [ exact Hread | ].
      split; [ exact Hfrom' | ].
      simpl. destruct (App.video e); simpl; lia.
    + exists (new ++ [App.mkAlert (App.alertId e) level false]).
      rewrite Hnew, Ha, <- app_assoc.
      split; [ reflexivity | ].
      split; [ apply Forall_app; split;
               [ exact Hread | constructor; [ reflexivity | constructor ] ] | ].
      split.
      * apply Forall_app. split; [ exact Hfrom' | ].
        constructor; [ | constructor ].
        exists e. split; [ left; reflexivity | split; [ exact Hv | reflexivity ] ].
      * rewrite length_app. simpl.
        destruct (App.video e); [ simpl; lia | congruence ].
Qed.

(** X9: with a cooldown of zero or less (the delay slider at 0) nothing is
    ever suppressed: every qualifying cycle whose clock is not behind the
    last trigger time raises an alert, stamped with the clock as it is read
    for the alert, and moves the trigger time to the clock the handler
    tested. *)
Theorem no_cooldown_means_every_qualifying_cycle_alerts :
  forall (e : App.Env) (st : App.State),
    App.cooldownPeriod st <= 0 ->
    App.lastCaptureTime st <= App.now e ->
    App.qualifies e st = true ->
    map App.alert_id (App.alerts (App.tick e st))
      = App.alertId e :: map App.alert_id (App.alerts st) /\
    App.lastCaptureTime (App.tick e st) = App.now e /\
    App.triggerTimes [e] st = [App.now e].
Proof.
  intros e st Hc Ht Hq.
  destruct (qualifying_tick e st Hq) as [Hemit _].
  apply Hemit. lia.
Qed.

Lemma no_cooldown_means_every_qualifying_cycle_alerts_witness :
  let st :=
    App.onCaptureDelayInput (App.mkSeconds 0 eq_refl) (App.watching [black]) in
  let e1 := App.readyTicking 1700000000000 [white] in
  App.cooldownPeriod st <= 0 /\
  App.qualifies e1 st = true /\
  map App.alert_id (App.alerts (App.tick e1 st)) = [1700000000004] /\
  App.lastCaptureTime (App.tick e1 st) = 1700000000000 /\
  App.triggerTimes [e1] st = [1700000000000].
Proof.
  cbv zeta. split; [ discriminate | ]. split; [ vm_compute; reflexivity | ].
  assert (App.qualifies (App.readyTicking 1700000000000 [white])
            (App.onCaptureDelayInput (App.mkSeconds 0 eq_refl)
               (App.watching [black])) = true) as Hq
    by (vm_compute; reflexivity).
  assert (App.lastCaptureTime
            (App.onCaptureDelayInput (App.mkSeconds 0 eq_refl)
               (App.watching [black]))
          <= App.now (App.readyTicking 1700000000000 [white])) as Ht
    by discriminate.
  assert (App.cooldownPeriod
            (App.onCaptureDelayInput (App.mkSeconds 0 eq_refl)
               (App.watching [black]))
          <= 0) as Hc by discriminate.
  exact (no_cooldown_means_every_qualifying_cycle_alerts _ _ Hc Ht Hq).
Defined.

(** *** A scene that does not change *)

Section Static_facts.

Import App.

Lemma in_combine_same {A : Type} (xs : list A) (x y : A) :
  In (x, y) (combine xs xs) -> x = y.
Proof.
  induction xs as [ | a xs IH ]; simpl; intros H.
  - contradiction.
  - destruct H as [H | H]; [ congruence | auto ].
Qed.

(** A frame compared with itself under a threshold that is not negative:
    nothing is counted and nothing is painted. *)
Lemma identical_frames_count s frame :
  lt (pixelThreshold s) zero = false ->
  countChanged (pixelChanged (pixelThreshold s)) frame frame = 0 /\
  paintChanged (pixelChanged (pixelThreshold s)) frame frame = frame.
Proof.
  intros H. apply nothing_changed; [ | reflexivity ].
  intros c l Hin. apply in_combine_same in Hin. subst l.
  unfold pixelChanged. rewrite app_totalDiff_same. exact H.
Qed.

(** No changed pixel never exceeds an area threshold that is not negative:
    the percentage is +0, or NaN when the frame has no pixel. *)
Lemma nothing_counted_is_below n thr :
  0 <= n -> lt thr zero = false -> gt (motionPercentage 0 n) thr = false.
Proof.
  intros Hn Hthr. destruct (Z.eq_dec n 0) as [-> | Hne].
  - destruct thr as [ [ | ] | [ | ] | | [ | ] m e ]; reflexivity.
  - rewrite motionPercentage_none by lia. exact Hthr.
Qed.

Lemma tick_static e st frame :
  valid (sensitivity st) = true ->
  lt hundred (sensitivity st) = false ->
  lt (motionThreshold st) zero = false ->
  lastFrame st = Some frame ->
  video e = Some frame \/ video e = None ->
  exists c, tick e st = set_motionCanvas c st.
Proof.
  intros Hv Hs Ht Hl Hvideo.
  assert (set_motionCanvas (motionCanvas st) st = st) as Hsame
    by (destruct st; reflexivity).
  unfold tick.
  destruct (motionDetectionActive st);
    [ | exists (motionCanvas st); symmetry; exact Hsame ].
  destruct Hvideo as [Hvideo | Hvideo]; rewrite Hvideo;
    [ | exists (motionCanvas st); symmetry; exact Hsame ].
  destruct (hasMotionContext e) eqn:Hc.
  - destruct (detectMotion_cycle e st frame frame Hc Hvideo Hl) as [_ Hd].
    cbv zeta in Hd.
    destruct (identical_frames_count (sensitivity st) frame
                (pixelThreshold_not_negative _ Hv Hs)) as [Hcount Hpaint].
    rewrite Hcount, Hpaint in Hd.
    rewrite nothing_counted_is_below in Hd by (trivial; lia).
    exists frame. rewrite Hd.
    destruct st; cbn in *; subst; reflexivity.
  - exists (motionCanvas st). unfold detectMotion. rewrite Hc.
    symmetry; exact Hsame.
Qed.

Lemma run_static es : forall st frame,
  valid (sensitivity st) = true ->
  lt hundred (sensitivity st) = false ->
  lt (motionThreshold st) zero = false ->
  lastFrame st = Some frame ->
  Forall (fun e => video e = Some frame \/ video e = None) es ->
  exists c, run es st = set_motionCanvas c st.
Proof.
  induction es as [ | e es IH ]; intros st frame Hv Hs Ht Hl Hes.
  - exists (motionCanvas st). destruct st; reflexivity.
  - inversion Hes as [ | ? ? He Hrest ]; subst.
    destruct (tick_static e st frame Hv Hs Ht Hl He) as [c Hc].
    rewrite run_cons, Hc.
    destruct (IH (set_motionCanvas c st) frame Hv Hs Ht Hl Hrest) as [c' Hc'].
    exists c'. rewrite Hc'. reflexivity.
Qed.

End Static_facts.

(** X24: a scene that does not change stays quiet.  With a sensitivity that
    is a number not above 100 and an area threshold that is not negative,
    once the stored frame is the frame the camera delivers, any run of
    callbacks that deliver that same frame (or find the video not ready)
    raises no alert, takes no capture, leaves the trigger time alone and
    keeps that frame stored: nothing is painted, so every cycle compares
    the frame with itself and, when it has a pixel, measures 0. *)
Theorem static_scene_stays_quiet :
  forall (es : list App.Env) (st : App.State) (frame : ImageData),
    valid (App.sensitivity st) = true ->
    lt hundred (App.sensitivity st) = false ->
    lt (App.motionThreshold st) zero = false ->
    App.lastFrame st = Some frame ->
    Forall (fun e => App.video e = Some frame \/ App.video e = None) es ->
    App.alerts (App.run es st) = App.alerts st /\
    App.captures (App.run es st) = App.captures st /\
    App.sessionCaptures (App.run es st) = App.sessionCaptures st /\
    App.lastCaptureTime (App.run es st) = App.lastCaptureTime st /\
    App.lastFrame (App.run es st) = Some frame /\
    (frame <> [] -> App.measuredMotion (App.run es st) frame = Some zero).
Proof.
  intros es st frame Hv Hs Ht Hl Hes.
  destruct (run_static es st frame Hv Hs Ht Hl Hes) as [c Hc].
  rewrite Hc. cbn [App.alerts App.captures App.sessionCaptures
                   App.lastCaptureTime App.lastFrame App.set_motionCanvas].
  repeat (split; [ reflexivity | ]).
  split; [ exact Hl | ].
  intros Hne. unfold App.measuredMotion.
  cbn [App.lastFrame App.sensitivity App.set_motionCanvas]. rewrite Hl.
  rewrite app_compareLoop_spec. cbn [fst].
  destruct (identical_frames_count (App.sensitivity st) frame
              (pixelThreshold_not_negative _ Hv Hs)) as [Hcount _].
  replace (0 + countChanged
                 (App.pixelChanged (pixelThreshold (App.sensitivity st)))
                 frame frame) with 0 by lia.
  rewrite motionPercentage_none; [ reflexivity | ].
  destruct frame; [ congruence | simpl length; lia ].
Qed.

Lemma static_scene_stays_quiet_witness :
  let st := App.watching [white; black] in
  let es :=
    [App.ready 1700000000000 [white; black];
     App.ready 1700000000100 [white; black];
     App.ready 1700000006000 [white; black]] in
  valid (App.sensitivity st) = true /\
  App.alerts (App.run es st) = [] /\
  App.lastFrame (App.run es st) = Some [white; black] /\
  App.measuredMotion (App.run es st) [white; black] = Some zero.
Proof.
  cbv zeta.
  destruct (static_scene_stays_quiet
              [App.ready 1700000000000 [white; black];
               App.ready 1700000000100 [white; black];
               App.ready 1700000006000 [white; black]]
              (App.watching [white; black]) [white; black])
    as (Ha & _ & _ & _ & Hl & Hm);
    try (vm_compute; reflexivity).
  - repeat constructor.
  - split; [ vm_compute; reflexivity | ]. split; [ exact Ha | ].
    split; [ exact Hl | ]. apply Hm. discriminate.
Defined.

(** *** Alerts, captures and what survives a reload *)

Section Panel_facts.

Import App Panel.

Lemma removeFirst_spec {A : Type} (test : A -> bool) (l : list A) :
  existsb test l = true ->
  exists pre a post,
    l = pre ++ a :: post /\ test a = true /\
    Forall (fun x => test x = false) pre /\
    removeFirst test l = pre ++ post.
Proof.
  induction l as [ | x l IH ]; simpl; intros H; [ discriminate | ].
  destruct (test x) eqn:Hx.
  - exists [], x, l. repeat split; trivial.
  - simpl in H. destruct (IH H) as (pre & a & post & Hl & Ha & Hpre & Hrem).
    exists (x :: pre), a, post. rewrite Hl at 1. rewrite Hrem.
    repeat split; trivial. constructor; assumption.
Qed.

Lemma removeFirst_absent {A : Type} (test : A -> bool) (l : list A) :
  existsb test l = false -> removeFirst test l = l.
Proof.
  induction l as [ | x l IH ]; simpl; intros H; [ reflexivity | ].
  apply orb_false_iff in H. destruct H as [Hx Hl].
  rewrite Hx, IH by exact Hl. reflexivity.
Qed.

Lemma markFirstRead_ids id l :
  map alert_id (markFirstRead id l) = map alert_id l /\
  map alert_motionLevel (markFirstRead id l) = map alert_motionLevel l.
Proof.
  induction l as [ | a l [IH1 IH2] ]; simpl; [ split; reflexivity | ].
  destruct (alert_id a =? id); simpl; [ split; reflexivity | ].
  rewrite IH1, IH2. split; reflexivity.
Qed.

Lemma markFirstRead_spec id l :
  existsb (fun a => alert_id a =? id) l = true ->
  exists pre a post,
    l = pre ++ a :: post /\ alert_id a = id /\
    Forall (fun x => alert_id x <> id) pre /\
    markFirstRead id l
      = pre ++ mkAlert (alert_id a) (alert_motionLevel a) true :: post.
Proof.
  induction l as [ | x l IH ]; simpl; intros H; [ discriminate | ].
  destruct (Z.eqb_spec (alert_id x) id) as [Hx | Hx].
  - exists [], x, l. repeat split; trivial.
  - simpl in H. destruct (IH H) as (pre & a & post & Hl & Ha & Hpre & Hm).
    exists (x :: pre), a, post. rewrite Hl at 1. rewrite Hm.
    repeat split; trivial. constructor; assumption.
Qed.

Lemma unread_app l1 l2 :
  length (filter (fun a => negb (alert_read a)) (l1 ++ l2))
  = (length (filter (fun a => negb (alert_read a)) l1)
     + length (filter (fun a => negb (alert_read a)) l2))%nat.
Proof. rewrite filter_app, length_app. reflexivity. Qed.

End Panel_facts.

(** X10: the badge counts the unread alerts and is shown exactly when there
    is one.  Every alert the detector raises is unread, so a cycle that
    raises one moves the badge up by one, and a cycle that raises none
    leaves it where it was. *)
Theorem badge_follows_the_alerts :
  forall (e : App.Env) (st : App.State),
    Panel.updateNotificationBadge true st
      = Some (Panel.unreadCount st, 0 <? Panel.unreadCount st) /\
    0 <= Panel.unreadCount st <= Z.of_nat (length (App.alerts st)) /\
    (Panel.unreadCount st = 0 <->
     Forall (fun a => App.alert_read a = true) (App.alerts st)) /\
    (App.qualifies e st = true ->
     App.cooldownPeriod st <= App.now e - App.lastCaptureTime st ->
     Panel.unreadCount (App.tick e st) = Panel.unreadCount st + 1) /\
    (App.alerts (App.tick e st) = App.alerts st ->
     Panel.unreadCount (App.tick e st) = Panel.unreadCount st).
Proof.
  intros e st. split; [ reflexivity | ].
  unfold Panel.unreadCount. split.
  { pose proof (filter_length_le (fun a => negb (App.alert_read a))
                  (App.alerts st)). lia. }
  split.
  { split.
    - intros H0. apply Forall_forall. intros a Ha.
      destruct (App.alert_read a) eqn:Hr; [ reflexivity | ].
      assert (In a (filter (fun a => negb (App.alert_read a)) (App.alerts st)))
        as Hin by (apply filter_In; split; [ exact Ha | rewrite Hr; reflexivity ]).
      destruct (filter _ (App.alerts st)); [ contradiction | simpl in H0; lia ].
    - intros Hall. induction (App.alerts st) as [ | a l IH ]; [ reflexivity | ].
      inversion Hall as [ | ? ? Ha Hl ]; subst. simpl. rewrite Ha. simpl.
      apply IH. exact Hl. }
  split.
  - intros Hq Hcool.
    destruct (tick_new_alert e st) as [Hsame | (level & Hnew & _)].
    + destruct (qualifying_tick e st Hq) as [Hemit _].
      destruct (Hemit Hcool) as [Hids _].
      rewrite Hsame in Hids.
      assert (length (App.alertId e :: map App.alert_id (App.alerts st))
              = length (map App.alert_id (App.alerts st))) as Hlen
        by (rewrite <- Hids; reflexivity).
      simpl in Hlen. lia.
    + rewrite Hnew. simpl. lia.
  - intros Hsame. rewrite Hsame. reflexivity.
Qed.

Lemma badge_follows_the_alerts_witness :
  App.qualifies (App.ready 1700000000000 [white]) (App.watching [black])
    = true /\
  Panel.unreadCount (App.tick (App.ready 1700000000000 [white])
                       (App.watching [black])) = 1.
Proof.
  split; [ vm_compute; reflexivity | ].
  destruct (badge_follows_the_alerts (App.ready 1700000000000 [white])
              (App.watching [black])) as (_ & _ & _ & H & _).
  apply H; [ vm_compute; reflexivity | discriminate ].
Defined.

(** X11: [deleteAlert] with an id no alert carries changes neither the list
    nor the storage.  Otherwise it removes exactly one alert, the first one
    with that id; the others keep their order, and what is then written is
    the first 100 of them. *)
Theorem deleting_an_alert_removes_the_first_match :
  forall (setItem : list App.Alert -> bool) (id : Z)
         (st : App.State) (sto : Panel.Storage),
    (~ In id (map App.alert_id (App.alerts st)) ->
     Panel.deleteAlert setItem id st sto = (st, sto)) /\
    (In id (map App.alert_id (App.alerts st)) ->
     exists pre a post,
       App.alerts st = pre ++ a :: post /\
       App.alert_id a = id /\
       ~ In id (map App.alert_id pre) /\
       App.alerts (fst (Panel.deleteAlert setItem id st sto)) = pre ++ post /\
       length (App.alerts (fst (Panel.deleteAlert setItem id st sto)))
         = pred (length (App.alerts st)) /\
       (setItem (firstn 100 (pre ++ post)) = true ->
        Panel.storedAlerts (snd (Panel.deleteAlert setItem id st sto))
          = Panel.Holds (firstn 100 (pre ++ post)))).
Proof.
  intros setItem id st sto.
  assert (existsb (fun a => App.alert_id a =? id) (App.alerts st) = true
          <-> In id (map App.alert_id (App.alerts st))) as Hex.
  { rewrite existsb_exists, in_map_iff. split.
    - intros (a & Ha & Hid). exists a. apply Z.eqb_eq in Hid. auto.
    - intros (a & Hid & Ha). exists a. split; [ exact Ha | ].
      apply Z.eqb_eq. exact Hid. }
  unfold Panel.deleteAlert. split.
  - intros Hnot.
    destruct (existsb _ (App.alerts st)) eqn:He; [ | reflexivity ].
    exfalso. apply Hnot, Hex. reflexivity.
  - intros Hin. apply Hex in Hin. rewrite Hin.
    destruct (removeFirst_spec _ _ Hin) as (pre & a & post & Hl & Ha & Hpre & Hr).
    exists pre, a, post. cbn -[firstn]. rewrite Hr.
    split; [ exact Hl | ]. split; [ apply Z.eqb_eq; exact Ha | ].
    split.
    { intros Hi. apply in_map_iff in Hi. destruct Hi as (x & Hx & Hxin).
      rewrite Forall_forall in Hpre. specialize (Hpre x Hxin).
      apply Z.eqb_neq in Hpre. contradiction. }
    split; [ reflexivity | ].
    split; [ rewrite Hl, !length_app; simpl; lia | ].
    intros Hset. unfold Panel.saveAlerts. cbn -[firstn].
    rewrite ?Hr, Hset. reflexivity.
Qed.

Lemma deleting_an_alert_removes_the_first_match_witness :
  let a1 := App.mkAlert 30 (of_Z 5) false in
  let a2 := App.mkAlert 20 (of_Z 7) false in
  let a3 := App.mkAlert 20 (of_Z 9) true in
  let st := App.set_alerts [a1; a2; a3] App.initial in
  In 20 (map App.alert_id (App.alerts st)) /\
  App.alerts (fst (Panel.deleteAlert (fun _ => true) 20 st Panel.emptyStorage))
    = [a1; a3] /\
  length (App.alerts
            (fst (Panel.deleteAlert (fun _ => true) 20 st Panel.emptyStorage)))
    = 2%nat.
Proof.
  cbv zeta.
  assert (In 20 (map App.alert_id
                   (App.alerts
                      (App.set_alerts
                         [App.mkAlert 30 (of_Z 5) false;
                          App.mkAlert 20 (of_Z 7) false;
                          App.mkAlert 20 (of_Z 9) true] App.initial)))) as Hin
    by (right; left; reflexivity).
  split; [ exact Hin | ]. split; [ reflexivity | ].
  destruct (deleting_an_alert_removes_the_first_match (fun _ => true) 20
              (App.set_alerts
                 [App.mkAlert 30 (of_Z 5) false; App.mkAlert 20 (of_Z 7) false;
                  App.mkAlert 20 (of_Z 9) true] App.initial)
              Panel.emptyStorage) as [_ H].
  destruct (H Hin) as (pre & a & post & _ & _ & _ & _ & Hlen & _).
  exact Hlen.
Defined.

(** X12: [markAlertRead] marks the first alert with the id and nothing
    else: ids, levels and order of the list are unchanged, the badge goes
    down by one if that alert was unread and stays put if it was read
    already or if no alert has the id; doing it twice is doing it once. *)
Theorem marking_an_alert_read :
  forall (setItem : list App.Alert -> bool) (id : Z)
         (st : App.State) (sto : Panel.Storage),
    let st' := fst (Panel.markAlertRead setItem id st sto) in
    map App.alert_id (App.alerts st') = map App.alert_id (App.alerts st) /\
    map App.alert_motionLevel (App.alerts st')
      = map App.alert_motionLevel (App.alerts st) /\
    (~ In id (map App.alert_id (App.alerts st)) ->
     Panel.markAlertRead setItem id st sto = (st, sto)) /\
    (In id (map App.alert_id (App.alerts st)) ->
     exists pre a post,
       App.alerts st = pre ++ a :: post /\
       App.alert_id a = id /\
       ~ In id (map App.alert_id pre) /\
       App.alerts st'
         = pre ++ App.mkAlert id (App.alert_motionLevel a) true :: post /\
       Panel.unreadCount st'
         = Panel.unreadCount st - (if App.alert_read a then 0 else 1)) /\
    App.alerts (fst (Panel.markAlertRead setItem id st' sto)) = App.alerts st'.
Proof.
  intros setItem id st sto st'.
  assert (existsb (fun a => App.alert_id a =? id) (App.alerts st) = true
          <-> In id (map App.alert_id (App.alerts st))) as Hex.
  { rewrite existsb_exists, in_map_iff. split.
    - intros (a & Ha & Hid). exists a. apply Z.eqb_eq in Hid. auto.
    - intros (a & Hid & Ha). exists a. split; [ exact Ha | ].
      apply Z.eqb_eq. exact Hid. }
  assert (App.alerts st' = Panel.markFirstRead id (App.alerts st)) as Hst'.
  { unfold st', Panel.markAlertRead.
    destruct (existsb _ (App.alerts st)) eqn:He; [ reflexivity | ].
    simpl. clear Hex. induction (App.alerts st) as [ | a l IH ];
      [ reflexivity | ].
    simpl in He. apply orb_false_iff in He. destruct He as [Ha Hl].
    simpl. rewrite Ha, <- IH by exact Hl. reflexivity. }
  destruct (markFirstRead_ids id (App.alerts st)) as [Hids Hlevels].
  split; [ rewrite Hst'; exact Hids | ].
  split; [ rewrite Hst'; exact Hlevels | ].
  split.
  { intros Hnot. unfold Panel.markAlertRead.
    destruct (existsb _ (App.alerts st)) eqn:He; [ | reflexivity ].
    exfalso. apply Hnot, Hex. reflexivity. }
  split.
  { intros Hin. apply Hex in Hin.
    destruct (markFirstRead_spec id _ Hin) as (pre & a & post & Hl & Ha & Hpre & Hm).
    exists pre, a, post.
    split; [ exact Hl | ]. split; [ exact Ha | ].
    split.
    { intros Hi. apply in_map_iff in Hi. destruct Hi as (x & Hx & Hxin).
      rewrite Forall_forall in Hpre. apply (Hpre x Hxin). exact Hx. }
    split; [ rewrite Hst', Hm, Ha; reflexivity | ].
    unfold Panel.unreadCount. rewrite Hst', Hm, Hl, !unread_app. simpl.
    destruct (App.alert_read a); simpl; lia. }
  unfold Panel.markAlertRead at 1.
  destruct (existsb _ (App.alerts st')) eqn:He; [ | reflexivity ].
  simpl. rewrite Hst'. clear.
  induction (App.alerts st) as [ | a l IH ]; [ reflexivity | ].
  simpl. destruct (Z.eqb_spec (App.alert_id a) id) as [Ha | Ha]; simpl.
  - rewrite Ha, Z.eqb_refl. reflexivity.
  - destruct (Z.eqb_spec (App.alert_id a) id); [ contradiction | ].
    rewrite IH. reflexivity.
Qed.

Lemma marking_an_alert_read_witness :
  let a1 := App.mkAlert 30 (of_Z 5) false in
  let a2 := App.mkAlert 20 (of_Z 7) false in
  let st := App.set_alerts [a1; a2] App.initial in
  In 20 (map App.alert_id (App.alerts st)) /\
  Panel.unreadCount st = 2 /\
  Panel.unreadCount
    (fst (Panel.markAlertRead (fun _ => true) 20 st Panel.emptyStorage)) = 1 /\
  map App.alert_id
    (App.alerts
       (fst (Panel.markAlertRead (fun _ => true) 20 st Panel.emptyStorage)))
    = [30; 20].
Proof.
  cbv zeta.
  assert (In 20 (map App.alert_id
                   (App.alerts
                      (App.set_alerts
                         [App.mkAlert 30 (of_Z 5) false;
                          App.mkAlert 20 (of_Z 7) false] App.initial)))) as Hin
    by (right; left; reflexivity).
  split; [ exact Hin | ]. split; [ reflexivity | ].
  split; [ reflexivity | ].
  destruct (marking_an_alert_read (fun _ => true) 20
              (App.set_alerts
                 [App.mkAlert 30 (of_Z 5) false; App.mkAlert 20 (of_Z 7) false]
                 App.initial) Panel.emptyStorage) as (Hids & _).
  exact Hids.
Defined.

(** *** Saving captures under a storage quota *)

Section Quota_facts.

Import App Panel.

Lemma saveCaptures_written fuel setItem st sto :
  setItem (firstn 10 (captures st)) = Written ->
  saveCaptures (S fuel) setItem st sto
  = Some (st, mkStorage (Holds (firstn 10 (captures st))) (storedAlerts sto)
                (storedSettings sto)).
Proof.
  intros H. unfold saveCaptures.
  rewrite saveCaptures_written_eq by exact H. reflexivity.
Qed.

Lemma saveCaptures_other fuel setItem st sto :
  setItem (firstn 10 (captures st)) = OtherFailure ->
  saveCaptures (S fuel) setItem st sto = Some (st, sto).
Proof.
  intros H. unfold saveCaptures.
  rewrite saveCaptures_other_eq by exact H. reflexivity.
Qed.

Lemma saveCaptures_quota fuel setItem st sto :
  setItem (firstn 10 (captures st)) = QuotaExceeded ->
  saveCaptures (S fuel) setItem st sto
  = saveCaptures fuel setItem (set_captures (firstn 5 (captures st)) st) sto.
Proof.
  intros H. unfold saveCaptures.
  rewrite saveCaptures_quota_eq by exact H. reflexivity.
Qed.

Lemma saveCaptures_stuck setItem sto :
  forall fuel st,
    setItem (firstn 10 (captures st)) = QuotaExceeded ->
    setItem (firstn 5 (captures st)) = QuotaExceeded ->
    saveCaptures fuel setItem st sto = None.
Proof.
  induction fuel as [ | fuel IH ]; intros st H10 H5; [ reflexivity | ].
  rewrite saveCaptures_quota by exact H10.
  apply IH; cbn -[firstn].
  - rewrite firstn_10_of_5. exact H5.
  - rewrite firstn_5_of_5. exact H5.
Qed.

End Quota_facts.

(** X13: [saveCaptures] returns after at most two attempts unless the
    storage rejects even the five newest captures for lack of space.  It
    then leaves every field but the capture list alone; the list is kept,
    or cut to its first five when the first attempt hit the quota; the
    stored text is the first ten of the list as it then is, or, after a
    failure of another kind, what it was. *)
Theorem saving_captures_returns_within_two_attempts :
  forall (setItem : list App.Capture -> App.SetResult)
         (st : App.State) (sto : Panel.Storage),
    setItem (firstn 5 (App.captures st)) <> App.QuotaExceeded ->
    exists st' sto',
      (forall fuel, (2 <= fuel)%nat ->
         Panel.saveCaptures fuel setItem st sto = Some (st', sto')) /\
      st' = App.set_captures (App.captures st') st /\
      (setItem (firstn 10 (App.captures st)) <> App.QuotaExceeded ->
       st' = st) /\
      (setItem (firstn 10 (App.captures st)) = App.QuotaExceeded ->
       App.captures st' = firstn 5 (App.captures st)) /\
      Panel.storedAlerts sto' = Panel.storedAlerts sto /\
      Panel.storedSettings sto' = Panel.storedSettings sto /\
      (setItem (firstn 10 (App.captures st')) = App.Written /\
       Panel.storedCaptures sto' = Panel.Holds (firstn 10 (App.captures st'))
       \/
       setItem (firstn 10 (App.captures st')) = App.OtherFailure /\
       sto' = sto).
Proof.
  intros setItem st sto H5.
  destruct (setItem (firstn 10 (App.captures st))) eqn:H10.
  - exists st. eexists. split.
    { intros [ | fuel ] Hf; [ lia | ].
      apply saveCaptures_written. exact H10. }
    split; [ symmetry; apply set_captures_same | ].
    split; [ reflexivity | ]. split; [ discriminate | ].
    split; [ reflexivity | ]. split; [ reflexivity | ].
    left. split; [ exact H10 | reflexivity ].
  - destruct (setItem (firstn 5 (App.captures st))) eqn:H5'.
    + exists (App.set_captures (firstn 5 (App.captures st)) st). eexists.
      split.
      { intros [ | [ | fuel ] ] Hf; [ lia | lia | ].
        rewrite saveCaptures_quota by exact H10.
        apply saveCaptures_written. cbn -[firstn].
        rewrite firstn_10_of_5. exact H5'. }
      split; [ destruct st; reflexivity | ].
      split; [ intros Hn; congruence | ].
      split; [ reflexivity | ].
      split; [ reflexivity | ]. split; [ reflexivity | ].
      left. cbn -[firstn]. rewrite firstn_10_of_5.
      split; [ exact H5' | reflexivity ].
    + congruence.
    + exists (App.set_captures (firstn 5 (App.captures st)) st), sto.
      split.
      { intros [ | [ | fuel ] ] Hf; [ lia | lia | ].
        rewrite saveCaptures_quota by exact H10.
        apply saveCaptures_other. cbn -[firstn].
        rewrite firstn_10_of_5. exact H5'. }
      split; [ destruct st; reflexivity | ].
      split; [ intros Hn; congruence | ].
      split; [ reflexivity | ].
      split; [ reflexivity | ]. split; [ reflexivity | ].
      right. cbn -[firstn]. rewrite firstn_10_of_5.
      split; [ exact H5' | reflexivity ].
  - exists st, sto. split.
    { intros [ | fuel ] Hf; [ lia | ].
      apply saveCaptures_other. exact H10. }
    split; [ symmetry; apply set_captures_same | ].
    split; [ reflexivity | ]. split; [ discriminate | ].
    split; [ reflexivity | ]. split; [ reflexivity | ].
    right. split; [ exact H10 | reflexivity ].
Qed.

Lemma saving_captures_returns_within_two_attempts_witness :
  let setItem := fun l : list App.Capture =>
    if (5 <? Z.of_nat (length l)) then App.QuotaExceeded
    else App.Written in
  let st := App.set_captures (map App.captureAt [8; 7; 6; 5; 4; 3; 2; 1])
                App.initial in
  setItem (firstn 5 (App.captures st)) <> App.QuotaExceeded /\
  exists st' sto',
    Panel.saveCaptures 2 setItem st Panel.emptyStorage = Some (st', sto') /\
    App.captures st' = map App.captureAt [8; 7; 6; 5; 4].
Proof.
  cbv zeta.
  assert ((fun l : list App.Capture =>
             if (5 <? Z.of_nat (length l)) then App.QuotaExceeded
             else App.Written)
            (firstn 5 (App.captures
                         (App.set_captures
                            (map App.captureAt [8; 7; 6; 5; 4; 3; 2; 1])
                            App.initial)))
          <> App.QuotaExceeded) as H5 by (vm_compute; discriminate).
  split; [ exact H5 | ].
  destruct (saving_captures_returns_within_two_attempts _ _
              Panel.emptyStorage H5)
    as (st' & sto' & Hret & _ & _ & Hcut & _).
  exists st', sto'. split; [ apply Hret; lia | ].
  apply Hcut. reflexivity.
Defined.

(** X14: the retry of [saveCaptures] has no last attempt of its own.  From
    the second attempt on it offers the same five captures again, so when
    the storage rejects those for lack of space as well, no depth of
    recursion is enough for the call to come back; in a browser it goes on
    until the call stack is used up. *)
Theorem saving_captures_has_no_last_attempt :
  forall (setItem : list App.Capture -> App.SetResult)
         (st : App.State) (sto : Panel.Storage),
    setItem (firstn 10 (App.captures st)) = App.QuotaExceeded ->
    setItem (firstn 5 (App.captures st)) = App.QuotaExceeded ->
    forall fuel, Panel.saveCaptures fuel setItem st sto = None.
Proof.
  intros setItem st sto H10 H5 fuel.
  apply saveCaptures_stuck; assumption.
Qed.

Lemma saving_captures_has_no_last_attempt_witness :
  Panel.saveCaptures 1000 (fun _ => App.QuotaExceeded)
    (App.set_captures (map App.captureAt [3; 2; 1]) App.initial) Panel.emptyStorage = None /\
  Panel.clearAllCaptures 1000 (fun _ => App.QuotaExceeded) true
    (App.set_captures (map App.captureAt [3; 2; 1]) App.initial) Panel.emptyStorage = None.
Proof.
  split.
  - apply (saving_captures_has_no_last_attempt (fun _ => App.QuotaExceeded)
             (App.set_captures (map App.captureAt [3; 2; 1]) App.initial) Panel.emptyStorage);
      reflexivity.
  - apply (saving_captures_has_no_last_attempt (fun _ => App.QuotaExceeded)
             (App.set_captures [] (App.set_captures (map App.captureAt [3; 2; 1]) App.initial))
             Panel.emptyStorage);
      reflexivity.
Defined.

(** X15: [deleteCapture] does nothing unless the user confirms, and with an
    id that no capture carries it leaves list and storage alone without
    attempting a write.  Otherwise it takes out the first capture with
    that id, the others keeping their order, and saves what is left.
    When the write is accepted the storage holds the first ten of the
    remaining captures.  When the storage is out of space for them but
    takes five, the save cuts the list in memory to the first five of the
    remaining captures: one deletion then removes more than one
    capture. *)
Theorem deleting_a_capture_removes_the_first_match :
  forall (fuel : nat) (setItem : list App.Capture -> App.SetResult) (id : Z)
         (st : App.State) (sto : Panel.Storage),
    Panel.deleteCapture fuel setItem false id st sto = Some (st, sto) /\
    (~ In id (map App.capture_id (App.captures st)) ->
     Panel.deleteCapture fuel setItem true id st sto = Some (st, sto)) /\
    (In id (map App.capture_id (App.captures st)) ->
     exists pre c post,
       App.captures st = pre ++ c :: post /\
       App.capture_id c = id /\
       ~ In id (map App.capture_id pre) /\
       Panel.deleteCapture fuel setItem true id st sto
       = Panel.saveCaptures fuel setItem
           (App.set_captures (pre ++ post) st) sto /\
       (setItem (firstn 10 (pre ++ post)) = App.Written ->
        Panel.deleteCapture (S fuel) setItem true id st sto
        = Some (App.set_captures (pre ++ post) st,
                Panel.mkStorage (Panel.Holds (firstn 10 (pre ++ post)))
                  (Panel.storedAlerts sto) (Panel.storedSettings sto))) /\
       (setItem (firstn 10 (pre ++ post)) = App.QuotaExceeded ->
        setItem (firstn 5 (pre ++ post)) = App.Written ->
        Panel.deleteCapture (S (S fuel)) setItem true id st sto
        = Some (App.set_captures (firstn 5 (pre ++ post)) st,
                Panel.mkStorage (Panel.Holds (firstn 5 (pre ++ post)))
                  (Panel.storedAlerts sto) (Panel.storedSettings sto)))).
Proof.
  intros fuel setItem id st sto.
  assert (existsb (fun c => App.capture_id c =? id) (App.captures st) = true
          <-> In id (map App.capture_id (App.captures st))) as Hex.
  { rewrite existsb_exists, in_map_iff. split.
    - intros (c & Hc & Hid). exists c. apply Z.eqb_eq in Hid. auto.
    - intros (c & Hid & Hc). exists c. split; [ exact Hc | ].
      apply Z.eqb_eq. exact Hid. }
  split; [ reflexivity | ].
  assert (forall f,
            Panel.deleteCapture f setItem true id st sto
            = if existsb (fun c => App.capture_id c =? id) (App.captures st)
              then Panel.saveCaptures f setItem
                     (App.set_captures
                        (Panel.removeFirst (fun c => App.capture_id c =? id)
                           (App.captures st)) st) sto
              else Some (st, sto)) as Hdel by reflexivity.
  split.
  - intros Hnot. rewrite Hdel.
    destruct (existsb _ (App.captures st)) eqn:He; [ | reflexivity ].
    exfalso. apply Hnot, Hex. reflexivity.
  - intros Hin. apply Hex in Hin.
    destruct (removeFirst_spec _ _ Hin)
      as (pre & c & post & Hl & Hc & Hpre & Hr).
    exists pre, c, post. split; [ exact Hl | ].
    split; [ apply Z.eqb_eq; exact Hc | ].
    split.
    { intros Hi. apply in_map_iff in Hi. destruct Hi as (x & Hx & Hxin).
      rewrite Forall_forall in Hpre. specialize (Hpre x Hxin).
      apply Z.eqb_neq in Hpre. contradiction. }
    rewrite !Hdel, Hin, Hr.
    split; [ reflexivity | ]. split.
    + intros Hset. apply saveCaptures_written. exact Hset.
    + intros H10 H5. rewrite saveCaptures_quota by exact H10.
      rewrite saveCaptures_written.
      * cbn -[firstn]. rewrite firstn_10_of_5.
        destruct st. reflexivity.
      * cbn -[firstn]. rewrite firstn_10_of_5. exact H5.
Qed.

Lemma deleting_a_capture_removes_the_first_match_witness :
  let tight := fun l : list App.Capture =>
    if (5 <? Z.of_nat (length l)) then App.QuotaExceeded
    else App.Written in
  let st :=
    App.set_captures (map App.captureAt [80; 70; 60; 50; 40; 30; 20; 10])
      App.initial in
  In 20 (map App.capture_id (App.captures st)) /\
  Panel.deleteCapture 2 tight true 20 st Panel.emptyStorage
  = Some (App.set_captures (map App.captureAt [80; 70; 60; 50; 40]) st,
          Panel.mkStorage
            (Panel.Holds (map App.captureAt [80; 70; 60; 50; 40]))
            Panel.Absent Panel.Absent) /\
  Panel.deleteCapture 1 Panel.roomy true 20 st Panel.emptyStorage
  = Some (App.set_captures (map App.captureAt [80; 70; 60; 50; 40; 30; 10]) st,
          Panel.mkStorage
            (Panel.Holds (map App.captureAt [80; 70; 60; 50; 40; 30; 10]))
            Panel.Absent Panel.Absent).
Proof.
  cbv zeta.
  set (tight := fun l : list App.Capture =>
                  if (5 <? Z.of_nat (length l)) then App.QuotaExceeded
                  else App.Written).
  set (st := App.set_captures
               (map App.captureAt [80; 70; 60; 50; 40; 30; 20; 10])
               App.initial).
  assert (In 20 (map App.capture_id (App.captures st))) as Hin
    by (vm_compute; tauto).
  split; [ exact Hin | ].
  assert (forall pre c post,
            App.captures st = pre ++ c :: post ->
            App.capture_id c = 20 ->
            ~ In 20 (map App.capture_id pre) ->
            pre ++ post = map App.captureAt [80; 70; 60; 50; 40; 30; 10])
    as Hrest.
  { intros pre c post Hl Hc Hpre.
    assert (forall k, (k < 6)%nat ->
              exists p, nth_error (App.captures st) k = Some p /\
                        App.capture_id p <> 20) as Hk.
    { intros k Hlt.
      do 6 (destruct k as [ | k ];
            [ eexists; split; [ reflexivity | discriminate ] | ]).
      lia. }
    assert (length pre = 6%nat) as Hlen.
    { destruct (Nat.lt_trichotomy (length pre) 6) as [Hlt | [Heq | Hgt]].
      - destruct (Hk _ Hlt) as (p & Hp & Hne).
        rewrite Hl, nth_error_app2, Nat.sub_diag in Hp by lia.
        injection Hp as <-. contradiction.
      - exact Heq.
      - exfalso. apply Hpre.
        assert (nth_error (App.captures st) 6 = Some (App.captureAt 20))
          as H6 by reflexivity.
        rewrite Hl, nth_error_app1 in H6 by lia.
        apply nth_error_In in H6.
        apply (in_map App.capture_id) in H6. exact H6. }
    do 6 (destruct pre as [ | ? pre ]; [ discriminate Hlen | ]).
    destruct pre; [ | discriminate Hlen ].
    injection Hl as <- <- <- <- <- <- <- <-. reflexivity. }
  destruct (deleting_a_capture_removes_the_first_match 0 tight 20 st
              Panel.emptyStorage) as (_ & _ & H).
  destruct (H Hin) as (pre & c & post & Hl & Hc & Hpre & _ & _ & Hquota).
  destruct (deleting_a_capture_removes_the_first_match 0 Panel.roomy 20 st
              Panel.emptyStorage) as (_ & _ & H').
  destruct (H' Hin)
    as (pre' & c' & post' & Hl' & Hc' & Hpre' & _ & Hwritten & _).
  rewrite (Hrest pre c post Hl Hc Hpre) in Hquota.
  rewrite (Hrest pre' c' post' Hl' Hc' Hpre') in Hwritten.
  split; [ apply Hquota; reflexivity | apply Hwritten; reflexivity ].
Defined.

(** X16: what a reload brings back.  After the alerts and the captures
    were written to an accepting storage, loading them into a fresh object
    gives the first 100 alerts and the first 10 captures, the newest ones:
    a longer list loses its tail, a list within the limit comes back whole.
    The limit [maxStorageImages] (100 by default) of the list in memory
    plays no part in it. *)
Theorem a_reload_keeps_the_newest :
  forall (st fresh : App.State) (sto : Panel.Storage),
  exists sto',
    (forall fuel,
       Panel.saveCaptures (S fuel) Panel.roomy st
         (Panel.saveAlerts (fun _ => true) st sto) = Some (st, sto')) /\
    App.alerts (Panel.loadSavedData sto' fresh) = firstn 100 (App.alerts st) /\
    App.captures (Panel.loadSavedData sto' fresh)
      = firstn 10 (App.captures st) /\
    ((length (App.alerts st) <= 100)%nat ->
     App.alerts (Panel.loadSavedData sto' fresh) = App.alerts st) /\
    ((length (App.captures st) <= 10)%nat ->
     App.captures (Panel.loadSavedData sto' fresh) = App.captures st) /\
    ((10 < length (App.captures st))%nat ->
     length (App.captures (Panel.loadSavedData sto' fresh)) = 10%nat) /\
    Panel.storedSettings sto' = Panel.storedSettings sto.
Proof.
  intros st fresh sto. eexists. split.
  { intros fuel. apply saveCaptures_written. reflexivity. }
  assert (forall s, App.alerts
            (Panel.loadSavedData
               (Panel.mkStorage (Panel.Holds (firstn 10 (App.captures st)))
                  (Panel.Holds (firstn 100 (App.alerts st))) s) fresh)
          = firstn 100 (App.alerts st)) as Ha by reflexivity.
  assert (forall s, App.captures
            (Panel.loadSavedData
               (Panel.mkStorage (Panel.Holds (firstn 10 (App.captures st)))
                  (Panel.Holds (firstn 100 (App.alerts st))) s) fresh)
          = firstn 10 (App.captures st)) as Hc by reflexivity.
  unfold Panel.saveAlerts. cbn -[firstn Panel.loadSavedData].
  rewrite Ha, Hc.
  split; [ reflexivity | ]. split; [ reflexivity | ].
  split; [ intros Hlen; apply firstn_all2; exact Hlen | ].
  split; [ intros Hlen; apply firstn_all2; exact Hlen | ].
  split; [ intros Hlen; rewrite length_firstn; lia | ].
  reflexivity.
Qed.

Lemma a_reload_keeps_the_newest_witness :
  let st := App.set_captures
                (map App.captureAt [12; 11; 10; 9; 8; 7; 6; 5; 4; 3; 2; 1])
              App.initial in
  (10 < length (App.captures st))%nat /\
  exists sto',
    Panel.saveCaptures 1 Panel.roomy st
      (Panel.saveAlerts (fun _ => true) st Panel.emptyStorage)
      = Some (st, sto') /\
    length (App.captures (Panel.loadSavedData sto' App.initial)) = 10%nat.
Proof.
  cbv zeta. split; [ vm_compute; lia | ].
  destruct (a_reload_keeps_the_newest
              (App.set_captures
                (map App.captureAt [12; 11; 10; 9; 8; 7; 6; 5; 4; 3; 2; 1])
                 App.initial) App.initial Panel.emptyStorage)
    as (sto' & Hsave & _ & _ & _ & _ & Hlen & _).
  exists sto'. split; [ apply Hsave | ].
  apply Hlen. vm_compute. lia.
Defined.

(** X17: what [saveSettings] writes, [loadSettings] reads back: a fresh
    object that loads the stored settings gets the area threshold, the
    cooldown and the image limit just applied.  The sensitivity is not among
    the saved fields, so the fresh object keeps its own.  When the write
    fails the fields are applied all the same and the next load returns the
    settings stored before; after a confirmed reset there is nothing to
    load. *)
Theorem saved_settings_come_back :
  forall (threshold : number) (cooldownSeconds : App.Seconds) (maxImages : Z)
         (st fresh : App.State) (sto : Panel.Storage),
    let saved :=
      Panel.saveSettingsStored threshold cooldownSeconds maxImages true st sto in
    let failed :=
      Panel.saveSettingsStored threshold cooldownSeconds maxImages false st
        sto in
    let reloaded := Panel.loadSettings (snd saved) fresh in
    App.motionThreshold reloaded = App.motionThreshold (fst saved) /\
    App.cooldownPeriod reloaded = App.cooldownPeriod (fst saved) /\
    App.maxStorageImages reloaded = App.maxStorageImages (fst saved) /\
    reloaded
      = App.saveSettings threshold cooldownSeconds maxImages fresh /\
    App.sensitivity reloaded = App.sensitivity fresh /\
    fst failed = fst saved /\
    Panel.loadSettings (snd failed) fresh = Panel.loadSettings sto fresh /\
    Panel.loadSettings (snd (Panel.resetSettingsStored true st sto)) fresh
      = fresh.
Proof.
  intros threshold cooldownSeconds maxImages st fresh sto.
  cbv zeta. repeat split; reflexivity.
Qed.

Section Capture_facts.

Import App Panel.

Lemma withoutCaptures_manageStorage e st :
  withoutCaptures (manageStorage e st) = withoutCaptures st.
Proof.
  unfold manageStorage.
  destruct (maxStorageImages st <? Z.of_nat (length (captures st)));
    destruct (retentionCutoff e); reflexivity.
Qed.

Lemma withoutCaptures_captureMotionImage e st :
  withoutCaptures (captureMotionImage e st) = withoutCaptures st.
Proof.
  destruct (captureMotionImage_shape e st) as (c & n & ->). reflexivity.
Qed.

Lemma withoutCaptures_fields st st' :
  withoutCaptures st = withoutCaptures st' ->
  motionDetectionActive st = motionDetectionActive st' /\
  motionCanvas st = motionCanvas st' /\
  lastFrame st = lastFrame st' /\
  alerts st = alerts st' /\
  sensitivity st = sensitivity st' /\
  lastCaptureTime st = lastCaptureTime st' /\
  cooldownPeriod st = cooldownPeriod st' /\
  motionThreshold st = motionThreshold st' /\
  maxStorageImages st = maxStorageImages st'.
Proof.
  destruct st, st'. unfold withoutCaptures. cbn. intros H.
  injection H as -> -> -> -> -> -> -> -> ->. repeat split.
Qed.

Lemma withoutCaptures_set_motionCanvas c st st' :
  withoutCaptures st = withoutCaptures st' ->
  withoutCaptures (set_motionCanvas c st)
  = withoutCaptures (set_motionCanvas c st').
Proof.
  intros H. apply withoutCaptures_fields in H.
  destruct H as (H1 & H2 & H3 & H4 & H5 & H6 & H7 & H8 & H9).
  destruct st, st'. cbn in *. subst. reflexivity.
Qed.

Lemma withoutCaptures_set_lastFrame f st st' :
  withoutCaptures st = withoutCaptures st' ->
  withoutCaptures (set_lastFrame f st) = withoutCaptures (set_lastFrame f st').
Proof.
  intros H. apply withoutCaptures_fields in H.
  destruct H as (H1 & H2 & H3 & H4 & H5 & H6 & H7 & H8 & H9).
  destruct st, st'. cbn in *. subst. reflexivity.
Qed.

Lemma withoutCaptures_onMotionDetected e level st st' :
  withoutCaptures st = withoutCaptures st' ->
  withoutCaptures (onMotionDetected e level st)
  = withoutCaptures (onMotionDetected e level st').
Proof.
  intros H. pose proof (withoutCaptures_fields _ _ H)
    as (H1 & H2 & H3 & H4 & H5 & H6 & H7 & H8 & H9).
  unfold onMotionDetected. rewrite H6, H7.
  destruct (now e - lastCaptureTime st' <? cooldownPeriod st');
    [ exact H | ].
  pose proof (withoutCaptures_captureMotionImage e st) as Hc.
  pose proof (withoutCaptures_captureMotionImage e st') as Hc'.
  assert (withoutCaptures (captureMotionImage e st)
          = withoutCaptures (captureMotionImage e st')) as Heq
    by congruence.
  apply withoutCaptures_fields in Heq.
  destruct Heq as (G1 & G2 & G3 & G4 & G5 & G6 & G7 & G8 & G9).
  destruct (captureMotionImage e st), (captureMotionImage e st').
  cbn in *. subst. reflexivity.
Qed.

Lemma withoutCaptures_tick e st st' :
  withoutCaptures st = withoutCaptures st' ->
  withoutCaptures (tick e st) = withoutCaptures (tick e st').
Proof.
  intros H. pose proof (withoutCaptures_fields _ _ H)
    as (H1 & H2 & H3 & H4 & H5 & H6 & H7 & H8 & H9).
  unfold tick. rewrite H1.
  destruct (motionDetectionActive st'); [ | exact H ].
  destruct (video e) as [ frame | ] eqn:Hv; [ | exact H ].
  unfold detectMotion. rewrite Hv.
  destruct (hasMotionContext e); [ | exact H ].
  cbn [lastFrame set_motionCanvas motionCanvas sensitivity motionThreshold].
  rewrite H3, H5, H8.
  destruct (lastFrame st') as [ last | ].
  - destruct (compareLoop (pixelThreshold (sensitivity st')) frame last 0)
      as [changedPixels highlighted].
    destruct (gt _ (motionThreshold st')).
    + assert (withoutCaptures
                (onMotionDetected e
                   (motionPercentage changedPixels (Z.of_nat (length frame)))
                   (set_motionCanvas highlighted (set_motionCanvas frame st)))
              = withoutCaptures
                  (onMotionDetected e
                     (motionPercentage changedPixels (Z.of_nat (length frame)))
                     (set_motionCanvas highlighted
                        (set_motionCanvas frame st')))) as Ho.
      { apply withoutCaptures_onMotionDetected.
        do 2 apply withoutCaptures_set_motionCanvas. exact H. }
      pose proof (withoutCaptures_fields _ _ Ho) as (_ & G2 & _).
      rewrite G2. apply withoutCaptures_set_lastFrame. exact Ho.
    + cbn [motionCanvas set_motionCanvas].
      apply withoutCaptures_set_lastFrame.
      do 2 apply withoutCaptures_set_motionCanvas. exact H.
  - cbn [motionCanvas set_motionCanvas].
    apply withoutCaptures_set_lastFrame.
    apply withoutCaptures_set_motionCanvas. exact H.
Qed.

Lemma withoutCaptures_run es :
  forall st st',
    withoutCaptures st = withoutCaptures st' ->
    withoutCaptures (run es st) = withoutCaptures (run es st').
Proof.
  induction es as [ | e es IH ]; intros st st' H; [ exact H | ].
  cbn [run fold_left]. apply IH. apply withoutCaptures_tick. exact H.
Qed.

End Capture_facts.

(** X18: a capture made by hand stays outside detection.  [manualCapture]
    asks no cooldown and writes neither an alert nor [lastCaptureTime], so
    every later cycle measures, alerts and stores its frame exactly as if
    the capture had not been made; all it changes is the capture list and
    the session counter.  The counter goes up by one when the capture
    elements are ready and the save returns, as it does when the storage
    has room for five captures; without a ready video nothing changes. *)
Theorem manual_capture_leaves_detection_alone :
  forall (e : App.Env) (es : list App.Env) (st : App.State),
    let st' := Panel.manualCapture e st in
    App.alerts (App.run es st') = App.alerts (App.run es st) /\
    App.lastCaptureTime (App.run es st') = App.lastCaptureTime (App.run es st) /\
    App.lastFrame (App.run es st') = App.lastFrame (App.run es st) /\
    Panel.withoutCaptures (App.run es st')
      = Panel.withoutCaptures (App.run es st) /\
    (App.video e <> None -> App.captureReady e = true ->
     (2 <= App.stackDepth e)%nat ->
     (forall l, (length l <= 5)%nat ->
                App.setCaptures e l <> App.QuotaExceeded) ->
     App.sessionCaptures st' = App.sessionCaptures st + 1) /\
    (App.video e = None -> st' = st).
Proof.
  intros e es st st'.
  assert (Panel.withoutCaptures st' = Panel.withoutCaptures st) as H0.
  { unfold st', Panel.manualCapture.
    destruct (App.video e); [ | reflexivity ].
    apply withoutCaptures_captureMotionImage. }
  pose proof (withoutCaptures_run es _ _ H0) as Hrun.
  pose proof (withoutCaptures_fields _ _ Hrun)
    as (_ & _ & G3 & G4 & _ & G6 & _).
  split; [ exact G4 | ]. split; [ exact G6 | ]. split; [ exact G3 | ].
  split; [ exact Hrun | ].
  split.
  - intros Hv Hr Hdepth Hroom. unfold st', Panel.manualCapture.
    destruct (App.video e); [ | contradiction ].
    unfold App.captureMotionImage. rewrite Hr. cbn [negb].
    set (st1 := App.set_captures _ st).
    pose proof (manageStorage_shape e st1) as Hshape.
    remember (App.manageStorage e st1) as st2 eqn:Hst2. clear Hst2.
    assert (App.sessionCaptures st2 = App.sessionCaptures st) as Hcount
      by (rewrite Hshape; reflexivity).
    destruct (saveCaptures_shape (App.setCaptures e) (App.stackDepth e) st2)
      as [Hs _].
    destruct (saveCaptures_returns (App.stackDepth e) (App.setCaptures e)
                st2 Hdepth) as (st3 & w & Hret).
    { apply Hroom. apply firstn_length_le. }
    rewrite Hret in Hs |- *. cbn [App.stateOf] in Hs.
    cbn [App.sessionCaptures App.set_sessionCaptures].
    rewrite Hs. cbn [App.sessionCaptures App.set_captures]. lia.
  - intros Hv. unfold st', Panel.manualCapture. rewrite Hv. reflexivity.
Qed.

Lemma manual_capture_leaves_detection_alone_witness :
  let e := App.ready 1700000000000 [white] in
  App.video e <> None /\ App.captureReady e = true /\
  App.sessionCaptures (Panel.manualCapture e (App.watching [black])) = 1 /\
  App.alerts (App.run [App.ready 1700000000100 [white]]
                (Panel.manualCapture e (App.watching [black])))
  = App.alerts (App.run [App.ready 1700000000100 [white]]
                  (App.watching [black])).
Proof.
  cbv zeta.
  destruct (manual_capture_leaves_detection_alone
              (App.ready 1700000000000 [white])
              [App.ready 1700000000100 [white]] (App.watching [black]))
    as (Ha & _ & _ & _ & Hs & _).
  split; [ discriminate | ]. split; [ reflexivity | ].
  split; [ | exact Ha ].
  apply Hs; [ discriminate | reflexivity | vm_compute; lia | discriminate ].
Defined.

(** *** The black screen *)

Section BlackScreen_facts.

Import BlackScreen.

Lemma steps_snoc page d evs ev st :
  steps page d (evs ++ [ev]) st = step page d ev (steps page d evs st).
Proof. unfold steps. rewrite fold_left_app. reflexivity. Qed.

Lemma step_covered page d ev st :
  covered page d st -> covered page d (step page d ev st).
Proof.
  destruct st as [st s]. unfold covered. cbn [fst snd].
  destruct ev as [ stealth | | | | e ]; cbn [step fst snd].
  - unfold toggleMotionDetection. cbn [fst snd].
    destruct (App.hasToggleButton page), (App.hasDetectionStatus page),
      (App.hasToggleText page);
      cbn [negb orb fst snd
           App.motionDetectionActive App.set_motionDetectionActive];
      try (intros H Ha; destruct (H Ha) as (_ & ? & ? & ? & _);
           discriminate).
    intros H.
    destruct (App.motionDetectionActive st) eqn:Hm; cbn [negb].
    + (* switching off *)
      destruct s as [a n tt xt tv]; cbn in *.
      destruct a; cbn.
      * destruct (H eq_refl) as (_ & _ & _ & _ & Ho). rewrite Ho.
        unfold deactivateBlackScreen. rewrite Ho.
        destruct (hasText d); cbn; intros Ha; discriminate.
      * intros Ha. discriminate.
    + (* switching on *)
      destruct stealth; cbn [snd].
      * unfold activateBlackScreen.
        destruct (hasOverlay d) eqn:Ho; cbn [negb].
        -- intros _. repeat split.
        -- intros Ha. destruct (H Ha) as (_ & _ & _ & _ & Hf). discriminate.
      * intros Ha. destruct (H Ha) as (_ & _ & _ & _ & Hf).
        repeat split. exact Hf.
  - intros H Ha.
    assert (blackScreenActive s = true) as Hs.
    { unfold onOverlayClick in Ha.
      destruct (blackScreenActive s) eqn:Hb; [ reflexivity | ].
      cbn in Ha. congruence. }
    exact (H Hs).
  - intros H Ha. apply H. unfold onTapTimeout in Ha.
    destruct (tapTimer s); exact Ha.
  - intros H Ha. apply H. unfold onTextTimeout in Ha.
    destruct (textTimer s); exact Ha.
  - intros H Ha. destruct (H Ha) as (Hm & Hp). split; [ | exact Hp ].
    destruct (tick_config e st) as (_ & _ & _ & Hk). congruence.
Qed.

Lemma steps_covered page d evs :
  forall st, covered page d st -> covered page d (steps page d evs st).
Proof.
  induction evs as [ | ev evs IH ]; intros st H; [ exact H | ].
  cbn [steps fold_left]. apply IH. apply step_covered. exact H.
Qed.

Lemma step_settled page ev st :
  covered page fullDom st -> settled (snd st) ->
  settled (snd (step page fullDom ev st)).
Proof.
  destruct st as [st s]. destruct s as [a n tt xt tv].
  unfold covered, settled. cbn [fst snd blackScreenActive tapCount tapTimer
                                 textTimer textVisible].
  intros Hc (Hn & Ht & Hv & Hi).
  destruct ev as [ stealth | | | | e ]; cbn [step fst snd].
  - unfold toggleMotionDetection. cbn [fst snd].
    destruct (App.hasToggleButton page), (App.hasDetectionStatus page),
      (App.hasToggleText page), (App.motionDetectionActive st), stealth, a;
      cbn in *;
      intuition (try discriminate; try congruence).
  - unfold onOverlayClick.
    destruct a; destruct Hn as [ -> | -> ]; cbn in *;
      intuition (try discriminate; try congruence).
  - unfold onTapTimeout.
    destruct tt; cbn in *; intuition (try discriminate; try congruence).
  - unfold onTextTimeout.
    destruct xt; cbn in *; intuition (try discriminate; try congruence).
  - cbn. intuition (try discriminate; try congruence).
Qed.

Lemma steps_settled page evs :
  forall st,
    covered page fullDom st -> settled (snd st) ->
    settled (snd (steps page fullDom evs st)).
Proof.
  induction evs as [ | ev evs IH ]; intros st Hc Hs; [ exact Hs | ].
  cbn [steps fold_left]. apply IH.
  - apply step_covered. exact Hc.
  - apply step_settled; assumption.
Qed.

Lemma initial_covered page d st : covered page d (st, initial).
Proof. unfold covered. cbn. discriminate. Qed.

Lemma initial_settled : settled initial.
Proof.
  unfold settled. cbn. repeat split; auto; try discriminate.
  intros (H & _). discriminate.
Qed.

End BlackScreen_facts.

(** X19: the black screen is up only while detection is on.  Whatever the
    page contains and whatever is toggled, tapped, timed out or filmed,
    from a start with the screen down: [blackScreenActive] implies
    [motionDetectionActive].  (The converse fails: a double tap lifts the
    screen and detection goes on.) *)
Theorem black_screen_only_while_detecting :
  forall (page : App.Dom) (d : BlackScreen.Dom)
         (evs : list BlackScreen.Event) (st0 : App.State),
    let r := BlackScreen.steps page d evs (st0, BlackScreen.initial) in
    BlackScreen.blackScreenActive (snd r) = true ->
    App.motionDetectionActive (fst r) = true.
Proof.
  intros page d evs st0 r Ha.
  exact (proj1 (steps_covered page d evs _ (initial_covered page d st0) Ha)).
Qed.

Lemma black_screen_only_while_detecting_witness :
  let r := BlackScreen.steps App.fullPage BlackScreen.fullDom
             [BlackScreen.Toggle true; BlackScreen.Click;
              BlackScreen.TapTimeout]
             (App.initial, BlackScreen.initial) in
  BlackScreen.blackScreenActive (snd r) = true /\
  App.motionDetectionActive (fst r) = true.
Proof.
  cbv zeta.
  assert (BlackScreen.blackScreenActive
            (snd (BlackScreen.steps App.fullPage BlackScreen.fullDom
                    [BlackScreen.Toggle true; BlackScreen.Click;
                     BlackScreen.TapTimeout]
                    (App.initial, BlackScreen.initial))) = true) as Ha
    by reflexivity.
  split; [ exact Ha | ].
  exact (black_screen_only_while_detecting App.fullPage BlackScreen.fullDom
           [BlackScreen.Toggle true; BlackScreen.Click;
            BlackScreen.TapTimeout] App.initial Ha).
Defined.

(** X20: with overlay and instructions on the page the tap counter never
    leaves 0 and 1 between events; the 500 ms reset is pending exactly
    while the screen is up with one tap counted; the instructions are
    visible exactly while their 3 s timer is pending, and never once the
    screen is down. *)
Theorem tap_counter_stays_settled :
  forall (page : App.Dom) (evs : list BlackScreen.Event) (st0 : App.State),
    let s := snd (BlackScreen.steps page BlackScreen.fullDom evs
                    (st0, BlackScreen.initial)) in
    (BlackScreen.tapCount s = 0 \/ BlackScreen.tapCount s = 1) /\
    (BlackScreen.tapTimer s = true <->
     BlackScreen.blackScreenActive s = true /\ BlackScreen.tapCount s = 1) /\
    BlackScreen.textVisible s = BlackScreen.textTimer s /\
    (BlackScreen.blackScreenActive s = false ->
     BlackScreen.textVisible s = false).
Proof.
  intros page evs st0.
  exact (steps_settled page evs _ (initial_covered page _ st0)
           initial_settled).
Qed.

Lemma tap_counter_stays_settled_witness :
  let s := snd (BlackScreen.steps App.fullPage BlackScreen.fullDom
                  [BlackScreen.Toggle true; BlackScreen.Click;
                   BlackScreen.Toggle false]
                  (App.initial, BlackScreen.initial)) in
  BlackScreen.blackScreenActive s = false /\
  BlackScreen.textVisible s = false.
Proof.
  cbv zeta. split; [ reflexivity | ].
  destruct (tap_counter_stays_settled App.fullPage
              [BlackScreen.Toggle true; BlackScreen.Click;
               BlackScreen.Toggle false] App.initial) as (_ & _ & _ & H).
  apply H. reflexivity.
Defined.

(** X21: lifting the screen by taps.  In every state the page can reach
    with overlay and instructions present, two taps in a row leave the
    screen down; a tap that comes after the 500 ms reset has run out leaves
    it up, counts as the first tap, shows the instructions and starts both
    timers. *)
Theorem two_taps_lift_the_black_screen :
  forall (page : App.Dom) (evs : list BlackScreen.Event) (st0 : App.State),
    let s := snd (BlackScreen.steps page BlackScreen.fullDom evs
                    (st0, BlackScreen.initial)) in
    let tap := BlackScreen.onOverlayClick BlackScreen.fullDom in
    BlackScreen.blackScreenActive (tap (tap s)) = false /\
    (BlackScreen.blackScreenActive s = true ->
     tap (BlackScreen.onTapTimeout s)
     = BlackScreen.mkScreen true 1 true true true).
Proof.
  intros page evs st0 s tap.
  pose proof (steps_settled page evs _ (initial_covered page _ st0)
                initial_settled) as (Hn & Ht & Hv & Hi).
  fold s in Hn, Ht, Hv, Hi. unfold tap. clearbody s.
  destruct s as [a n tt xt tv]. cbn in *.
  unfold BlackScreen.onOverlayClick, BlackScreen.onTapTimeout. cbn.
  destruct a; cbn.
  - split.
    + destruct Hn as [ -> | -> ]; reflexivity.
    + intros _. destruct tt; cbn.
      * reflexivity.
      * destruct Hn as [ -> | -> ]; [ reflexivity | ].
        assert (false = true) by (apply Ht; split; reflexivity).
        discriminate.
  - split; [ reflexivity | discriminate ].
Qed.

Lemma two_taps_lift_the_black_screen_witness :
  let s := snd (BlackScreen.steps App.fullPage BlackScreen.fullDom
                  [BlackScreen.Toggle true; BlackScreen.Click]
                  (App.initial, BlackScreen.initial)) in
  BlackScreen.blackScreenActive s = true /\
  BlackScreen.onOverlayClick BlackScreen.fullDom (BlackScreen.onTapTimeout s)
  = BlackScreen.mkScreen true 1 true true true.
Proof.
  cbv zeta. split; [ reflexivity | ].
  apply (two_taps_lift_the_black_screen App.fullPage
           [BlackScreen.Toggle true; BlackScreen.Click] App.initial).
  reflexivity.
Defined.

(** *** Start-up *)

Section Boot_facts.

Import Boot.

Lemma calls_initialized cs :
  forall w,
    appInitialized w = true -> calls cs w = w.
Proof.
  induction cs as [ | c cs IH ]; intros w Hw; [ reflexivity | ].
  cbn [calls fold_left]. unfold initializeMainApp at 2. rewrite Hw.
  cbn [negb andb]. apply IH. exact Hw.
Qed.

Lemma calls_from_uninitialized cs :
  forall w,
    appInitialized w = false ->
    calls cs w
    = if existsb (fun c => c) cs then mkWindow true (S (constructed w)) else w.
Proof.
  induction cs as [ | c cs IH ]; intros w Hw; [ reflexivity | ].
  cbn [calls fold_left existsb]. unfold initializeMainApp at 2. rewrite Hw.
  destruct c; cbn [negb andb orb].
  - apply (calls_initialized cs). reflexivity.
  - apply IH. exact Hw.
Qed.

End Boot_facts.

(** X22: however often [window.initializeMainApp] is called, the main
    object is constructed at most once: by the first call that finds the
    class defined.  Calls made before the class is defined do nothing and
    do not use up the one construction; calls made after it do nothing
    either. *)
Theorem main_app_is_constructed_once :
  forall (before after : list bool),
    let w := Boot.calls (before ++ true :: after) Boot.initial in
    (forall cs, (Boot.constructed (Boot.calls cs Boot.initial) <= 1)%nat) /\
    (forall cs,
       Boot.appInitialized (Boot.calls cs Boot.initial)
       = existsb (fun c => c) cs) /\
    (forall cs,
       Boot.constructed (Boot.calls cs Boot.initial)
       = if existsb (fun c => c) cs then 1%nat else 0%nat) /\
    w = Boot.mkWindow true 1 /\
    Boot.calls (before ++ [true]) Boot.initial = w.
Proof.
  intros before after w.
  assert (forall cs,
            Boot.calls cs Boot.initial
            = if existsb (fun c => c) cs then Boot.mkWindow true 1
              else Boot.initial) as Hcalls
    by (intros cs; apply calls_from_uninitialized; reflexivity).
  split; [ intros cs; rewrite Hcalls; destruct (existsb _ cs); cbn; lia | ].
  split; [ intros cs; rewrite Hcalls; destruct (existsb _ cs); reflexivity | ].
  split; [ intros cs; rewrite Hcalls; destruct (existsb _ cs); reflexivity | ].
  unfold w. rewrite !Hcalls, !existsb_app. cbn [existsb orb].
  rewrite !orb_true_r. split; reflexivity.
Qed.

(** *** Switching detection off and on in [SecurityCameraApp] *)

Section IntroControls_facts.

Import Intro IntroControls.

Lemma intro_run_disabled es :
  forall st, motionDetectionEnabled st = false -> run es st = st.
Proof.
  induction es as [ | e es IH ]; intros st H; [ reflexivity | ].
  cbn [run fold_left]. unfold tick at 2. rewrite H. apply IH. exact H.
Qed.

End IntroControls_facts.

(** X23: in [SecurityCameraApp] (src/intro.js) switching detection off and
    on again keeps the stored frame.  While it is off the timer callbacks
    change nothing, and ticking the box again gives back the state detection
    was switched off in; so the first frame after that is compared with the
    frame stored before, and raises an alert when it differs from it
    enough. *)
Theorem intro_reenabling_compares_with_the_stale_frame :
  forall (st : Intro.State) (idle : list Intro.Env) (e : Intro.Env)
         (frame : ImageData) (pct : number),
    Intro.motionDetectionEnabled st = true ->
    let back :=
      IntroControls.onMotionDetectionChange true
        (IntroControls.run idle
           (IntroControls.onMotionDetectionChange false st)) in
    back = st /\
    (Intro.video e = Some frame -> Intro.hasMotionContext e = true ->
     Intro.measuredMotion st frame = Some pct ->
     gt pct lit_0_5 = true ->
     Intro.alerts (Intro.tick e back) = Intro.now e :: Intro.alerts st).
Proof.
  intros st idle e frame pct Hon back.
  assert (back = st) as Hback.
  { unfold back. rewrite intro_run_disabled by reflexivity.
    destruct st. cbn in *. subst. reflexivity. }
  split; [ exact Hback | ].
  intros Hv Hc Hm Hgt. rewrite Hback.
  unfold Intro.tick. rewrite Hon, Hv.
  unfold Intro.detectMotion. rewrite Hc, Hv.
  unfold Intro.measuredMotion in Hm.
  destruct (Intro.lastFrame st) as [ last | ]; [ | discriminate ].
  injection Hm as Hm.
  destruct (Intro.compareLoop (pixelThreshold (Intro.sensitivity st)) frame
              last 0) as [motionPixels highlighted].
  cbn [fst] in Hm. rewrite Hm, Hgt. reflexivity.
Qed.

Lemma intro_reenabling_compares_with_the_stale_frame_witness :
  let st := Intro.watching (of_Z 50) [black] in
  let e := Intro.ready 1700000000000 [white] in
  Intro.motionDetectionEnabled st = true /\
  Intro.alerts
    (Intro.tick e
       (IntroControls.onMotionDetectionChange true
          (IntroControls.run [Intro.ready 1699999999000 [white]]
             (IntroControls.onMotionDetectionChange false st))))
  = [1700000000000].
Proof.
  cbv zeta. split; [ reflexivity | ].
  destruct (intro_reenabling_compares_with_the_stale_frame
              (Intro.watching (of_Z 50) [black])
              [Intro.ready 1699999999000 [white]]
              (Intro.ready 1700000000000 [white]) [white]
              (Intro.motionPercentage 1 1) eq_refl) as [_ H].
  apply H; vm_compute; reflexivity.
Defined.
